(** * SoundTime Listing: the node directory of server.js and db.js

    A shallow embedding of the registration / heartbeat / health-check /
    eviction life cycle of the listing server, and the properties of its
    specification proved (or refuted) on it.

    Layout:
    - [JS]      the JavaScript values and operators the handlers use;
    - [Eff]     a state-and-exception monad: the store, the log of outgoing
                requests, thrown exceptions and try/catch;
    - [Db]      the [nodes] table of db.js and the SQL statements of server.js;
    - [Probe]   [checkNodeHealth] and [fetchNodeInfo];
    - [Server]  the routes and [runHealthChecks];
    - the theorems, one group per property. *)

From Stdlib Require Import String Ascii ZArith List Bool Lia QArith.
Import ListNotations.

Local Open Scope string_scope.
Local Open Scope Z_scope.

(* ================================================================== *)
(** ** JavaScript values *)
(* ================================================================== *)

Module JS.

#[local] Set Warnings "-register-all".

(** JSON data as JavaScript sees it after [JSON.parse], plus [undefined].
    Numbers are the integer-valued ones (counts, flags, status codes); an
    object is the list of its own properties, first binding of a key
    first. *)
Inductive value : Type :=
| VUndef
| VNull
| VBool (b : bool)
| VNum (n : Z)
| VStr (s : string)
| VArr (items : list value)
| VObj (fields : list (string * value)).

(** [!!v] *)
Definition truthy (v : value) : bool :=
  match v with
  | VUndef | VNull => false
  | VBool b => b
  | VNum n => negb (n =? 0)
  | VStr s => negb (s =? "")%string
  | VArr _ | VObj _ => true
  end.

(** [v == null] *)
Definition nullish (v : value) : bool :=
  match v with
  | VUndef | VNull => true
  | _ => false
  end.

(** [a || b] *)
Definition or_else (a b : value) : value := if truthy a then a else b.

(** [a ?? b] *)
Definition coalesce (a b : value) : value := if nullish a then b else a.

Fixpoint assoc (k : string) (fs : list (string * value)) : option value :=
  match fs with
  | [] => None
  | (k', v) :: rest => if (k' =? k)%string then Some v else assoc k rest
  end.

(** [v.k] for a [v] that is not null or undefined, and a key [k] that no
    prototype defines (all keys read by the server are such). *)
Definition prop (v : value) (k : string) : value :=
  match v with
  | VObj fs => match assoc k fs with Some x => x | None => VUndef end
  | _ => VUndef
  end.

(** [v?.k] *)
Definition opt_prop (v : value) (k : string) : value :=
  if nullish v then VUndef else prop v k.

(** [v === s] for a string literal [s] *)
Definition is_str (v : value) (s : string) : bool :=
  match v with
  | VStr s' => (s' =? s)%string
  | _ => false
  end.

(** [c ? 1 : 0] *)
Definition flag (c : bool) : value := VNum (if c then 1 else 0).

(** [s.startsWith(p)] *)
Definition startsWith (s p : string) : bool := String.prefix p s.

(** [s.includes(p)] *)
Definition includes (s p : string) : bool :=
  match String.index 0 p s with
  | Some _ => true
  | None => false
  end.

(** [s.slice(n)] *)
Fixpoint drop (n : nat) (s : string) : string :=
  match n, s with
  | O, _ => s
  | S n', String _ rest => drop n' rest
  | S _, EmptyString => EmptyString
  end.

(** [s.replace(p, r)] for a string pattern: the first occurrence only. *)
Fixpoint replace_first (p r s : string) : string :=
  if String.prefix p s then r ++ drop (String.length p) s
  else match s with
       | EmptyString => EmptyString
       | String c rest => String c (replace_first p r rest)
       end.

(** [s.replace(/^https?:\/\//, "")] *)
Definition strip_scheme (s : string) : string :=
  if String.prefix "https://" s then drop 8 s
  else if String.prefix "http://" s then drop 7 s
  else s.

(** [s.replace(/\/$/, "")] *)
Fixpoint strip_trailing_slash (s : string) : string :=
  match s with
  | EmptyString => EmptyString
  | String c EmptyString => if (c =? "/")%char then EmptyString else s
  | String c rest => String c (strip_trailing_slash rest)
  end.

End JS.
Import JS.

Declare Scope js_scope.
Delimit Scope js_scope with js.
Infix "||'" := or_else (at level 50, left associativity) : js_scope.
Infix "??" := coalesce (at level 50, left associativity) : js_scope.
Notation "v ?. k" := (opt_prop v k) (at level 40, left associativity) : js_scope.
Local Open Scope js_scope.

(* ================================================================== *)
(** ** Effects: state, exceptions, try/catch *)
(* ================================================================== *)

Module Eff.

Inductive exn : Type :=
| TypeError      (* a value of the wrong kind, e.g. one the driver cannot bind *)
| SqliteError    (* a constraint of the schema is violated *)
| FetchError     (* the request could not be made or completed *)
| AbortError     (* the 8 s timer aborted the request *)
| SyntaxError.   (* the response body is not JSON *)

Inductive result (A : Type) : Type :=
| Ret (a : A)
| Throw (e : exn).
Arguments Ret {A} a.
Arguments Throw {A} e.

Section Monad.
Context {S : Type}.

(** A computation over a state [S] that returns or throws; the state
    reached is kept in both cases. *)
Definition M (A : Type) : Type := S -> result A * S.

Definition ret {A} (a : A) : M A := fun s => (Ret a, s).

Definition throw {A} (e : exn) : M A := fun s => (Throw e, s).

Definition bind {A B} (m : M A) (k : A -> M B) : M B :=
  fun s => match m s with
           | (Ret a, s') => k a s'
           | (Throw e, s') => (Throw e, s')
           end.

(** [try { m } catch (e) { h e }] *)
Definition try_catch {A} (m : M A) (h : exn -> M A) : M A :=
  fun s => match m s with
           | (Ret a, s') => (Ret a, s')
           | (Throw e, s') => h e s'
           end.

(** [for (const x of xs) { body x }] followed by [after]; [body] yields
    [Some a] when it executes [return a] and [None] when it falls
    through to the next iteration. *)
Fixpoint for_of {X A} (xs : list X) (body : X -> M (option A)) (after : M A) : M A :=
  match xs with
  | [] => after
  | x :: rest =>
      bind (body x) (fun r =>
        match r with
        | Some a => ret a
        | None => for_of rest body after
        end)
  end.
End Monad.
Arguments M S A : clear implicits.

End Eff.
Import Eff.

Declare Scope eff_scope.
Delimit Scope eff_scope with eff.
Notation "x <- m ;; k" := (bind m (fun x => k))
  (at level 61, m at next level, right associativity) : eff_scope.
Notation "m ;;; k" := (bind m (fun _ => k))
  (at level 61, right associativity) : eff_scope.
Local Open Scope eff_scope.

(* ================================================================== *)
(** ** The nodes table (db.js) and the statements run on it *)
(* ================================================================== *)

Module Db.

(** One row of [nodes]. The columns a statement fills from a JavaScript
    expression hold the value that was bound; SQLite's conversion of a bound
    value to the column's affinity is not modelled. [id], [domain] and [token]
    are only ever written from strings. The three timestamps and [down_since]
    are [datetime('now')] values, kept as seconds since the epoch;
    [is_online] is only ever written as the literal 0 or 1. *)
Record node : Type := mkNode {
  id : string;
  domain : string;
  name : value;
  description : value;
  version : value;
  track_count : value;
  user_count : value;
  open_registration : value;
  p2p_enabled : value;
  p2p_node_id : value;
  country : value;
  token : string;
  first_seen : Z;
  last_seen : Z;
  last_healthy : Z;
  is_online : Z;
  down_since : option Z
}.

(** The table, in rowid order. *)
Definition table : Type := list node.

(** What the driver (better-sqlite3) binds to a placeholder: numbers,
    strings and null (bigints and buffers do not occur here), [undefined]
    as NULL. A boolean makes [run] and [get] throw a TypeError ("SQLite3 can
    only bind numbers, strings, bigints, buffers, and null") before the
    statement executes. An array or a plain object is not taken as a value
    either: the driver spreads an array into positional parameters and reads
    a plain object as named parameters, so that a call of server.js, which
    passes one argument per placeholder, then supplies another number of
    values. The model lets every such call throw, although the driver
    accepts some of them (a one-element array is bound as its element); the
    properties about what is stored are stated for metadata that are
    strings, numbers or absent. *)
Definition bindable (v : value) : bool :=
  match v with
  | VBool _ | VArr _ | VObj _ => false
  | VUndef | VNull | VNum _ | VStr _ => true
  end.

(** The value stored for a bound parameter. The affinity of the column,
    which turns a number bound to a TEXT column into a text and a numeric
    text bound to an INTEGER column into a number, is not applied; it
    leaves a string in a TEXT column and an integer in an INTEGER column as
    they are, and the properties about what is stored are stated for such
    values. *)
Definition bound (v : value) : value :=
  match v with
  | VUndef => VNull
  | _ => v
  end.

(** [datetime('now')] at the instant [now], given in milliseconds. *)
Definition datetime (now : Z) : Z := now / 1000.

(** SQL [COALESCE(?, col)] *)
Definition sql_coalesce (param col : value) : value :=
  match bound param with
  | VNull => col
  | v => v
  end.

(** [WHERE token = ?] on a row *)
Definition token_is (t : value) (n : node) : bool := is_str t (token n).

(** [SELECT * FROM nodes WHERE token = ?] with [.get(t)] *)
Definition select_by_token (t : value) (tbl : table) : result (option node) :=
  if bindable t then Ret (find (token_is t) tbl) else Throw TypeError.

(** [SELECT * FROM nodes WHERE domain = ?] with [.get(d)] *)
Definition select_by_domain (d : string) (tbl : table) : option node :=
  find (fun n => (domain n =? d)%string) tbl.

(** [SELECT * FROM nodes WHERE domain = ? AND token = ?] with [.get(d, t)] *)
Definition select_by_domain_token (d t : string) (tbl : table) : option node :=
  find (fun n => (domain n =? d)%string && (token n =? t)%string) tbl.

(** No statement of server.js can violate a NOT NULL constraint: a value
    bound to such a column ends in a non-null default ([|| ""], [?? 0]), and
    [COALESCE(?, col)] keeps a non-null [col]. The UNIQUE constraints are
    checked by the INSERT. *)

(** The UPDATE of the heartbeat branch: eight bound columns, both
    timestamps set to now, [is_online = 1], [down_since = NULL],
    [WHERE token = ?]. *)
Definition update_heartbeat (now : Z)
    (a_name a_description a_version a_track_count a_user_count
     a_open_registration a_p2p_enabled a_p2p_node_id t : value)
    (tbl : table) : result table :=
  if forallb bindable
       [a_name; a_description; a_version; a_track_count; a_user_count;
        a_open_registration; a_p2p_enabled; a_p2p_node_id; t]
  then Ret (map (fun n =>
         if token_is t n then
           {| id := id n; domain := domain n;
              name := bound a_name;
              description := bound a_description;
              version := bound a_version;
              track_count := bound a_track_count;
              user_count := bound a_user_count;
              open_registration := bound a_open_registration;
              p2p_enabled := bound a_p2p_enabled;
              p2p_node_id := bound a_p2p_node_id;
              country := country n; token := token n;
              first_seen := first_seen n;
              last_seen := datetime now;
              last_healthy := datetime now;
              is_online := 1;
              down_since := None |}
         else n) tbl)
  else Throw TypeError.

(** The INSERT of the registration branch. The columns it does not list take
    their defaults; [id] is the primary key, [domain] and [token] are
    UNIQUE. *)
Definition insert_node (now : Z) (a_id a_domain : string)
    (a_name a_description a_version a_track_count a_user_count
     a_open_registration a_p2p_enabled a_p2p_node_id : value)
    (a_token : string) (tbl : table) : result table :=
  if forallb bindable
       [a_name; a_description; a_version; a_track_count; a_user_count;
        a_open_registration; a_p2p_enabled; a_p2p_node_id]
  then
    if existsb (fun n => (id n =? a_id)%string
                         || (domain n =? a_domain)%string
                         || (token n =? a_token)%string) tbl
    then Throw SqliteError
    else Ret (List.app tbl
         [{| id := a_id; domain := a_domain;
             name := bound a_name;
             description := bound a_description;
             version := bound a_version;
             track_count := bound a_track_count;
             user_count := bound a_user_count;
             open_registration := bound a_open_registration;
             p2p_enabled := bound a_p2p_enabled;
             p2p_node_id := bound a_p2p_node_id;
             country := VNull; token := a_token;
             first_seen := datetime now;
             last_seen := datetime now;
             last_healthy := datetime now;
             is_online := 1;
             down_since := None |}])
  else Throw TypeError.

(** The UPDATE of the sweep for a reachable node, [WHERE id = ?]. *)
Definition update_online (now : Z)
    (a_track_count a_user_count a_version a_p2p_enabled a_p2p_node_id
     a_name a_open_registration : value) (a_id : string)
    (tbl : table) : result table :=
  if forallb bindable
       [a_track_count; a_user_count; a_version; a_p2p_enabled;
        a_p2p_node_id; a_name; a_open_registration]
  then Ret (map (fun n =>
         if (id n =? a_id)%string then
           {| id := id n; domain := domain n;
              name := sql_coalesce a_name (name n);
              description := description n;
              version := sql_coalesce a_version (version n);
              track_count := sql_coalesce a_track_count (track_count n);
              user_count := sql_coalesce a_user_count (user_count n);
              open_registration :=
                sql_coalesce a_open_registration (open_registration n);
              p2p_enabled := sql_coalesce a_p2p_enabled (p2p_enabled n);
              p2p_node_id := sql_coalesce a_p2p_node_id (p2p_node_id n);
              country := country n; token := token n;
              first_seen := first_seen n;
              last_seen := datetime now;
              last_healthy := datetime now;
              is_online := 1;
              down_since := None |}
         else n) tbl)
  else Throw TypeError.

(** [UPDATE nodes SET is_online = 0, down_since = datetime('now') WHERE id = ?] *)
Definition update_offline (now : Z) (a_id : string) (tbl : table) : table :=
  map (fun n =>
    if (id n =? a_id)%string then
      {| id := id n; domain := domain n; name := name n;
         description := description n; version := version n;
         track_count := track_count n; user_count := user_count n;
         open_registration := open_registration n;
         p2p_enabled := p2p_enabled n; p2p_node_id := p2p_node_id n;
         country := country n; token := token n;
         first_seen := first_seen n; last_seen := last_seen n;
         last_healthy := last_healthy n;
         is_online := 0;
         down_since := Some (datetime now) |}
    else n) tbl.

(** [DELETE FROM nodes WHERE id = ?] *)
Definition delete_by_id (a_id : string) (tbl : table) : table :=
  filter (fun n => negb (id n =? a_id)%string) tbl.

(** SQL [SUM] over a column: NULL when no row contributes a non-NULL value,
    else the total. A non-numeric value counts as 0 (SQLite reads the numeric
    prefix of a text; such values are outside the properties proved). The
    total is the exact one: the error SQLite raises when an integer sum
    leaves the 64-bit range, and the rounding of a result beyond 2^53 when
    the driver returns it as a number, are outside the model; the
    properties about sums are stated for totals up to 2^53. *)
Definition sql_sum (col : list value) : value :=
  match filter (fun v => negb (nullish v)) col with
  | [] => VNull
  | vs => VNum (fold_right (fun v acc => match v with VNum n => n + acc | _ => acc end) 0 vs)
  end.

End Db.
Import Db.

(* ================================================================== *)
(** ** The state of the service and the outside world *)
(* ================================================================== *)

(** The table, and the URLs requested so far (oldest first). *)
Record sys : Type := mkSys {
  db : table;
  requests : list string
}.

(** [db.prepare(q).get(...)] / [.all()] of a query that cannot fail *)
Definition query {A} (q : table -> A) : M sys A :=
  fun s => (Ret (q (db s)), s).

(** [db.prepare(q).get(...)] of a query whose binding can fail *)
Definition query_checked {A} (q : table -> result A) : M sys A :=
  fun s => (q (db s), s).

(** [db.prepare(stmt).run(...)]: a statement that throws changes nothing *)
Definition run (stmt : table -> result table) : M sys unit :=
  fun s => match stmt (db s) with
           | Ret t => (Ret tt, {| db := t; requests := requests s |})
           | Throw e => (Throw e, s)
           end.

(** What one [fetch] comes to: the promise rejects (no connection, invalid
    URL, abort by the timer), or a response arrives with a status code and a
    payload that parses as JSON or does not. *)
Inductive fetched : Type :=
| Rejected (e : exn)
| Responded (code : Z) (payload : option value).

Definition network : Type := string -> fetched.

(* ================================================================== *)
(** ** Remote probes *)
(* ================================================================== *)

Module Probe.

Record Response : Type := mkResponse {
  code : Z;
  payload : option value
}.

(** [res.ok] *)
Definition ok (res : Response) : bool := (200 <=? code res) && (code res <=? 299).

(** [await fetch(url, ...)], noting the URL in the log *)
Definition fetch (net : network) (url : string) : M sys Response :=
  fun s =>
    let s' := {| db := db s; requests := List.app (requests s) [url] |} in
    match net url with
    | Rejected e => (Throw e, s')
    | Responded c p => (Ret {| code := c; payload := p |}, s')
    end.

(** [await res.json()] *)
Definition json (res : Response) : M sys value :=
  match payload res with
  | Some v => ret v
  | None => throw SyntaxError
  end.

Definition protocols (domain : string) : list string :=
  if startsWith domain "localhost" || includes domain "127.0.0.1"
  then ["http"]
  else ["https"; "http"].

(** The [try] block of [checkNodeHealth] for one protocol. *)
Definition healthz (net : network) (domain proto : string) : M sys (option bool) :=
  let url := proto ++ "://" ++ domain ++ "/healthz" in
  res <- fetch net url ;;
  if ok res then
    body <- try_catch (json res) (fun _ => ret VNull) ;;
    if truthy body && is_str (prop body "status") "ok"
    then ret (Some true)
    else ret None
  else ret None.

Definition checkNodeHealth (net : network) (domain : string) : M sys bool :=
  for_of (protocols domain)
    (fun proto => try_catch (healthz net domain proto) (fun _ => ret None))
    (ret false).

(** The [try] block of [fetchNodeInfo] for one protocol. *)
Definition nodeinfo (net : network) (domain proto : string) : M sys (option value) :=
  let url := proto ++ "://" ++ domain ++ "/api/nodeinfo" in
  res <- fetch net url ;;
  if ok res then
    v <- json res ;;
    ret (Some v)
  else ret None.

Definition fetchNodeInfo (net : network) (domain : string) : M sys value :=
  for_of (protocols domain)
    (fun proto => try_catch (nodeinfo net domain proto) (fun _ => ret None))
    (ret VNull).

End Probe.
Import Probe.

(* ================================================================== *)
(** ** The routes and the health checker (server.js) *)
(* ================================================================== *)

Module Server.

Definition HEALTH_CHECK_INTERVAL_MS : Z := 5 * 60 * 1000.
Definition REMOVAL_THRESHOLD_HOURS : Z := 48.

(** What a handler sends: [res.status(c).json(b)]; [res.json(b)] is 200. *)
Record reply : Type := mkReply {
  status : Z;
  body : value
}.

(** What a request meets besides the table: the network, the current time
    in milliseconds, and the values [generateToken()] and [generateId()]
    return if called. *)
Record env : Type := mkEnv {
  net : network;
  time : Z;
  generateToken : string;
  generateId : string
}.

(** [domain.replace(/^https?:\/\//, "").replace(/\/$/, "")] *)
Definition cleanDomain (domain : string) : string :=
  strip_trailing_slash (strip_scheme domain).

(** The heartbeat branch of POST /api/announce, inside the [try]. *)
Definition heartbeat (w : env) (clean : string)
    (a_name a_description a_version a_token : value) : M sys reply :=
  found <- query_checked (select_by_token a_token) ;;
  match found with
  | None => ret {| status := 401; body := VObj [("error", VStr "invalid token")] |}
  | Some node =>
      if negb (domain node =? clean)%string then
        ret {| status := 403;
               body := VObj [("error", VStr "token does not match domain")] |}
      else
        info <- fetchNodeInfo (net w) clean ;;
        run (update_heartbeat (time w)
               (a_name ||' info ?. "name" ||' name node ||' VStr "")
               (a_description ||' info ?. "description" ||' description node ||' VStr "")
               (a_version ||' info ?. "version" ||' version node ||' VStr "")
               (info ?. "track_count" ?? track_count node ?? VNum 0)
               (info ?. "user_count" ?? user_count node ?? VNum 0)
               (info ?. "open_registration" ?? open_registration node ?? VNum 1)
               (flag (truthy (info ?. "p2p_enabled")))
               (info ?. "p2p_node_id" ||' p2p_node_id node ||' VNull)
               a_token) ;;;
        ret {| status := 200;
               body := VObj [("status", VStr "updated");
                             ("id", VStr (id node));
                             ("domain", VStr clean)] |}
  end.

(** The registration branch of POST /api/announce, inside the [try]. *)
Definition register (w : env) (clean : string)
    (a_name a_description a_version : value) : M sys reply :=
  existing <- query (select_by_domain clean) ;;
  match existing with
  | Some _ =>
      ret {| status := 409;
             body := VObj [("error", VStr "domain already registered");
                           ("hint", VStr "Include the token from your initial registration to update.")] |}
  | None =>
      isHealthy <- checkNodeHealth (net w) clean ;;
      if negb isHealthy then
        ret {| status := 422;
               body := VObj [("error", VStr "node is not reachable");
                             ("hint", VStr ("Could not reach " ++ clean ++
                                ". Ensure your instance is online and accessible."))] |}
      else
        info <- fetchNodeInfo (net w) clean ;;
        let newToken := generateToken w in
        let id := generateId w in
        run (insert_node (time w) id clean
               (a_name ||' info ?. "name" ||' VStr "")
               (a_description ||' info ?. "description" ||' VStr "")
               (a_version ||' info ?. "version" ||' VStr "")
               (info ?. "track_count" ?? VNum 0)
               (info ?. "user_count" ?? VNum 0)
               (info ?. "open_registration" ?? VNum 1)
               (flag (truthy (info ?. "p2p_enabled")))
               (info ?. "p2p_node_id" ||' VNull)
               newToken) ;;;
        ret {| status := 201;
               body := VObj [("status", VStr "registered");
                             ("id", VStr id);
                             ("domain", VStr clean);
                             ("token", VStr newToken);
                             ("message", VStr "Save this token! You need it for future heartbeats and to remove your node.")] |}
  end.

(** POST /api/announce; [req_body] is [req.body], the JSON value parsed by
    [express.json()]. Destructuring null or undefined throws, outside the
    [try]. *)
Definition announce (w : env) (req_body : value) : M sys reply :=
  if nullish req_body then throw TypeError else
  let a_domain := prop req_body "domain" in
  let a_name := prop req_body "name" in
  let a_description := prop req_body "description" in
  let a_version := prop req_body "version" in
  let a_token := prop req_body "token" in
  match a_domain with
  | VStr d =>
      if (d =? "")%string then
        ret {| status := 400; body := VObj [("error", VStr "domain is required")] |}
      else
        let clean := cleanDomain d in
        try_catch
          (if truthy a_token
           then heartbeat w clean a_name a_description a_version a_token
           else register w clean a_name a_description a_version)
          (fun _ => ret {| status := 500;
                           body := VObj [("error", VStr "internal server error")] |})
  | _ => ret {| status := 400; body := VObj [("error", VStr "domain is required")] |}
  end.

(** DELETE /api/nodes/:domain; [authorization] is the header, if sent. *)
Definition deleteNode (authorization : option string) (a_domain : string) : M sys reply :=
  let a_token :=
    match authorization with
    | Some h => Some (replace_first "Bearer " "" h)
    | None => None
    end in
  match a_token with
  | None | Some EmptyString =>
      ret {| status := 401; body := VObj [("error", VStr "token required")] |}
  | Some t =>
      let clean := cleanDomain a_domain in
      found <- query (select_by_domain_token clean t) ;;
      match found with
      | None =>
          ret {| status := 404;
                 body := VObj [("error", VStr "node not found or invalid token")] |}
      | Some node =>
          run (fun tbl => Ret (delete_by_id (id node) tbl)) ;;;
          ret {| status := 200;
                 body := VObj [("status", VStr "removed"); ("domain", VStr clean)] |}
      end
  end.

(** The columns GET selects: all but [token]. A timestamp is shown as its
    number of seconds, a NULL [down_since] as null. *)
Definition selected (n : node) : list (string * value) :=
  [("id", VStr (id n)); ("domain", VStr (domain n)); ("name", name n);
   ("description", description n); ("version", version n);
   ("track_count", track_count n); ("user_count", user_count n);
   ("open_registration", open_registration n);
   ("p2p_enabled", p2p_enabled n); ("p2p_node_id", p2p_node_id n);
   ("country", country n);
   ("first_seen", VNum (first_seen n)); ("last_seen", VNum (last_seen n));
   ("last_healthy", VNum (last_healthy n));
   ("is_online", VNum (is_online n));
   ("down_since", match down_since n with Some t => VNum t | None => VNull end)].

(** [{...o, k: !!o.k}] for a key [o] has *)
Definition coerce (k : string) (fs : list (string * value)) : list (string * value) :=
  map (fun kv => if (fst kv =? k)%string then (k, VBool (truthy (snd kv))) else kv) fs.

(** GET /api/nodes/:domain *)
Definition getNode (a_domain : string) : M sys reply :=
  let clean := cleanDomain a_domain in
  found <- query (select_by_domain clean) ;;
  match found with
  | None => ret {| status := 404; body := VObj [("error", VStr "node not found")] |}
  | Some node =>
      ret {| status := 200;
             body := VObj (coerce "is_online"
                            (coerce "p2p_enabled"
                              (coerce "open_registration" (selected node)))) |}
  end.

(** GET /api/stats *)
Definition getStats : M sys reply :=
  stats <- query (fun tbl =>
    VObj [("total_nodes", VNum (Z.of_nat (List.length tbl)));
          ("online_nodes",
             sql_sum (map (fun n => VNum (if is_online n =? 1 then 1 else 0)) tbl));
          ("total_tracks", sql_sum (map track_count tbl));
          ("total_users", sql_sum (map user_count tbl))]) ;;
  ret {| status := 200; body := stats |}.

(** [(Date.now() - new Date(down_since + "Z").getTime()) / (1000 * 60 * 60)] *)
Definition hoursDown (now down : Z) : Q :=
  (inject_Z (now - down * 1000) / inject_Z (1000 * 60 * 60))%Q.

(** The body of the loop of [runHealthChecks] for the row [node] as it was
    read at the start of the cycle, at the instant [now]. *)
Definition checkOne (net : network) (now : Z) (node : Db.node) : M sys unit :=
  isHealthy <- checkNodeHealth net (domain node) ;;
  if isHealthy then
    info <- fetchNodeInfo net (domain node) ;;
    run (update_online now
           (info ?. "track_count" ?? VNull)
           (info ?. "user_count" ?? VNull)
           (info ?. "version" ||' VNull)
           (if negb (nullish (info ?. "p2p_enabled"))
            then flag (truthy (prop info "p2p_enabled"))
            else VNull)
           (info ?. "p2p_node_id" ||' VNull)
           (info ?. "name" ||' VNull)
           (info ?. "open_registration" ?? VNull)
           (id node))
  else
    (if negb (is_online node =? 0)
     then run (fun tbl => Ret (update_offline now (id node) tbl))
     else ret tt) ;;;
    match down_since node with
    | Some down =>
        if Qle_bool (inject_Z REMOVAL_THRESHOLD_HOURS) (hoursDown now down)
        then run (fun tbl => Ret (delete_by_id (id node) tbl))
        else ret tt
    | None => ret tt
    end.

(** The loop, the [i]-th row being handled at the instant [clock i]. *)
Fixpoint checkFrom (net : network) (clock : nat -> Z) (i : nat)
    (nodes : list Db.node) : M sys unit :=
  match nodes with
  | [] => ret tt
  | node :: rest =>
      checkOne net (clock i) node ;;;
      checkFrom net clock (S i) rest
  end.

Definition runHealthChecks (net : network) (clock : nat -> Z) : M sys unit :=
  nodes <- query (fun tbl => tbl) ;;
  checkFrom net clock 0 nodes.

End Server.
Import Server.

(* ================================================================== *)
(** ** Probes: what is requested and what comes back *)
(* ================================================================== *)

Section ProbeFacts.

Variable net : network.

(** Appending to the log of requests. *)
Definition logged (urls : list string) (s : sys) : sys :=
  {| db := db s; requests := List.app (requests s) urls |}.

(** A response that makes a health attempt succeed: 2xx, a JSON payload,
    and the string "ok" under its [status] key. *)
Definition healthy_reply (f : fetched) : bool :=
  match f with
  | Responded c (Some b) =>
      (200 <=? c) && (c <=? 299) && is_str (prop b "status") "ok"
  | _ => false
  end.

(** A response that makes an info attempt succeed: 2xx and a JSON payload. *)
Definition info_reply (f : fetched) : option value :=
  match f with
  | Responded c (Some v) => if (200 <=? c) && (c <=? 299) then Some v else None
  | _ => None
  end.

Definition healthz_url (domain proto : string) : string :=
  proto ++ "://" ++ domain ++ "/healthz".

Definition nodeinfo_url (domain proto : string) : string :=
  proto ++ "://" ++ domain ++ "/api/nodeinfo".

(** The URLs a loop over [urls] requests when it stops at the first one
    that is [good]. *)
Fixpoint tried (good : string -> bool) (urls : list string) : list string :=
  match urls with
  | [] => []
  | u :: rest => if good u then [u] else u :: tried good rest
  end.

Lemma logged_nil s : logged [] s = s.
Proof. destruct s; unfold logged; simpl; now rewrite app_nil_r. Qed.

Lemma logged_logged a b s : logged b (logged a s) = logged (List.app a b) s.
Proof. unfold logged; simpl; now rewrite <- app_assoc. Qed.

Lemma status_ok_truthy b :
  is_str (prop b "status") "ok" = true -> truthy b = true.
Proof. destruct b; simpl; try discriminate; reflexivity. Qed.

Lemma healthz_caught domain proto s :
  try_catch (healthz net domain proto) (fun _ => ret None) s
  = (Ret (if healthy_reply (net (healthz_url domain proto)) then Some true else None),
     logged [healthz_url domain proto] s).
Proof.
  unfold try_catch, healthz, bind, fetch, healthz_url, logged, healthy_reply.
  destruct (net _) as [e | c p]; simpl; [reflexivity |].
  unfold ok; simpl.
  destruct ((200 <=? c) && (c <=? 299)); simpl; [| destruct p; reflexivity].
  unfold Probe.json, try_catch; simpl.
  destruct p as [b |]; simpl; [| reflexivity].
  destruct (is_str (prop b "status") "ok") eqn:E.
  - rewrite (status_ok_truthy _ E); reflexivity.
  - rewrite andb_false_r; reflexivity.
Qed.

Lemma nodeinfo_caught domain proto s :
  try_catch (nodeinfo net domain proto) (fun _ => ret None) s
  = (Ret (info_reply (net (nodeinfo_url domain proto))),
     logged [nodeinfo_url domain proto] s).
Proof.
  unfold try_catch, nodeinfo, bind, fetch, nodeinfo_url, logged, info_reply.
  destruct (net _) as [e | c p]; simpl; [reflexivity |].
  unfold ok; simpl.
  destruct ((200 <=? c) && (c <=? 299)); simpl; [| destruct p; reflexivity].
  unfold Probe.json; destruct p; reflexivity.
Qed.

(** The health loop over any list of protocols. *)
Lemma health_loop domain protos s :
  for_of protos
    (fun proto => try_catch (healthz net domain proto) (fun _ => ret None))
    (ret false) s
  = (Ret (existsb (fun u => healthy_reply (net u)) (map (healthz_url domain) protos)),
     logged (tried (fun u => healthy_reply (net u)) (map (healthz_url domain) protos)) s).
Proof.
  revert s; induction protos as [| p rest IH]; intro s; simpl.
  - now rewrite logged_nil.
  - unfold bind at 1. rewrite healthz_caught.
    destruct (healthy_reply (net (healthz_url domain p))); simpl.
    + reflexivity.
    + rewrite IH, logged_logged. reflexivity.
Qed.

(** The first successful info reply along a list of URLs. *)
Fixpoint first_info (urls : list string) : option value :=
  match urls with
  | [] => None
  | u :: rest => match info_reply (net u) with
                 | Some v => Some v
                 | None => first_info rest
                 end
  end.

Definition is_some {A} (o : option A) : bool :=
  match o with Some _ => true | None => false end.

Lemma info_loop domain protos s :
  for_of protos
    (fun proto => try_catch (nodeinfo net domain proto) (fun _ => ret None))
    (ret VNull) s
  = (Ret (match first_info (map (nodeinfo_url domain) protos) with
          | Some v => v
          | None => VNull
          end),
     logged (tried (fun u => is_some (info_reply (net u)))
                   (map (nodeinfo_url domain) protos)) s).
Proof.
  revert s; induction protos as [| p rest IH]; intro s; simpl.
  - now rewrite logged_nil.
  - unfold bind at 1. rewrite nodeinfo_caught.
    destruct (info_reply (net (nodeinfo_url domain p))); simpl.
    + reflexivity.
    + rewrite IH, logged_logged. reflexivity.
Qed.

(** [checkNodeHealth] as a function of the network. *)
Definition health_of (domain : string) : bool :=
  existsb (fun u => healthy_reply (net u)) (map (healthz_url domain) (protocols domain)).

Definition health_urls (domain : string) : list string :=
  tried (fun u => healthy_reply (net u)) (map (healthz_url domain) (protocols domain)).

(** [fetchNodeInfo] as a function of the network. *)
Definition info_of (domain : string) : value :=
  match first_info (map (nodeinfo_url domain) (protocols domain)) with
  | Some v => v
  | None => VNull
  end.

Definition info_urls (domain : string) : list string :=
  tried (fun u => is_some (info_reply (net u)))
        (map (nodeinfo_url domain) (protocols domain)).

Lemma checkNodeHealth_run domain s :
  checkNodeHealth net domain s = (Ret (health_of domain), logged (health_urls domain) s).
Proof. apply health_loop. Qed.

Lemma fetchNodeInfo_run domain s :
  fetchNodeInfo net domain s = (Ret (info_of domain), logged (info_urls domain) s).
Proof. apply info_loop. Qed.


Lemma existsb_tried good urls :
  existsb good urls = existsb good (tried good urls).
Proof.
  induction urls as [| x rest IH]; simpl; [reflexivity |].
  destruct (good x) eqn:E; simpl; rewrite E; simpl; auto.
Qed.

End ProbeFacts.

Lemma is_str_spec v s : is_str v s = true <-> v = VStr s.
Proof.
  destruct v; simpl; split; try discriminate; intro H.
  - apply String.eqb_eq in H; now subst.
  - injection H as ->; apply String.eqb_refl.
Qed.

Lemma healthy_reply_spec f :
  healthy_reply f = true <->
  exists c body, f = Responded c (Some body) /\ 200 <= c <= 299
                 /\ prop body "status" = VStr "ok".
Proof.
  unfold healthy_reply; split.
  - destruct f as [e | c [b |]]; try discriminate.
    rewrite !andb_true_iff, is_str_spec. intros [[H1 H2] H3].
    exists c, b; repeat split; auto; lia.
  - intros (c & b & -> & Hc & Hb).
    rewrite !andb_true_iff, is_str_spec; repeat split; auto; lia.
Qed.

Lemma info_reply_spec f v :
  info_reply f = Some v <->
  exists c, f = Responded c (Some v) /\ 200 <= c <= 299.
Proof.
  unfold info_reply; split.
  - destruct f as [e | c [b |]]; try discriminate.
    destruct ((200 <=? c) && (c <=? 299)) eqn:E; try discriminate.
    intros [= ->]. apply andb_true_iff in E. exists c; split; auto; lia.
  - intros (c & -> & Hc).
    replace ((200 <=? c) && (c <=? 299)) with true; [reflexivity |].
    symmetry; apply andb_true_iff; split; lia.
Qed.

Lemma first_info_tried net urls v :
  first_info net urls = Some v ->
  exists u, In u (tried (fun u => is_some (info_reply (net u))) urls)
            /\ info_reply (net u) = Some v.
Proof.
  induction urls as [| x rest IH]; simpl; [discriminate |].
  destruct (info_reply (net x)) as [v' |] eqn:E; simpl.
  - intros [= ->]. exists x; simpl; auto.
  - intro H. destruct (IH H) as (u & Hu & Hv). exists u; simpl; auto.
Qed.

Lemma first_info_none net urls :
  (forall u, In u (tried (fun u => is_some (info_reply (net u))) urls) ->
             info_reply (net u) = None) ->
  first_info net urls = None.
Proof.
  induction urls as [| x rest IH]; simpl; [reflexivity |].
  destruct (info_reply (net x)) as [v' |] eqn:E; simpl; intro H.
  - specialize (H x (or_introl eq_refl)). congruence.
  - apply IH. intros u Hu. apply H. now right.
Qed.

(** C7. [checkNodeHealth] always returns, and returns true exactly when one
    of the requests it made was answered with a 2xx status and a JSON body
    whose [status] is the string "ok"; when every request it made ended in a
    rejection (network error, timeout), a non-2xx status, a body that is not
    JSON or a body without that field, it returns false. [fetchNodeInfo]
    always returns too: the JSON of a 2xx answer to one of its requests, and
    null when every request failed. Neither touches the table. *)
Theorem C7_probes_total_and_sound (net : network) (domain : string) (s : sys) :
  (exists b urls,
      checkNodeHealth net domain s = (Ret b, logged urls s)
      /\ (b = true <->
          exists url c body,
            In url urls /\ net url = Responded c (Some body)
            /\ 200 <= c <= 299 /\ prop body "status" = VStr "ok")
      /\ ((forall url, In url urls ->
             match net url with
             | Rejected _ => True
             | Responded c p =>
                 ~ 200 <= c <= 299 \/ p = None
                 \/ exists body, p = Some body /\ prop body "status" <> VStr "ok"
             end) -> b = false))
  /\ (exists v urls,
      fetchNodeInfo net domain s = (Ret v, logged urls s)
      /\ (v = VNull \/
          exists url c, In url urls /\ net url = Responded c (Some v)
                        /\ 200 <= c <= 299)
      /\ ((forall url, In url urls ->
             match net url with
             | Rejected _ => True
             | Responded c p => ~ 200 <= c <= 299 \/ p = None
             end) -> v = VNull)).
Proof.
  assert (Hiff : health_of net domain = true <->
          exists url c body,
            In url (health_urls net domain) /\ net url = Responded c (Some body)
            /\ 200 <= c <= 299 /\ prop body "status" = VStr "ok").
  { unfold health_of, health_urls. rewrite existsb_tried, existsb_exists. split.
    - intros (u & Hu & Hg). apply healthy_reply_spec in Hg.
      destruct Hg as (c & b & E & Hc & Hb). exists u, c, b; auto.
    - intros (u & c & b & Hu & E & Hc & Hb). exists u; split; auto.
      apply healthy_reply_spec. exists c, b; auto. }
  split.
  - exists (health_of net domain), (health_urls net domain).
    split; [apply checkNodeHealth_run |]. split; [exact Hiff |].
    intro Hall. destruct (health_of net domain) eqn:E; [| reflexivity].
    destruct (proj1 Hiff eq_refl) as (u & c & b & Hu & En & Hc & Hb).
    specialize (Hall u Hu). rewrite En in Hall.
    destruct Hall as [H | [H | (b' & [= <-] & H)]]; [tauto | discriminate | tauto].
  - exists (info_of net domain), (info_urls net domain).
    split; [apply fetchNodeInfo_run |]. unfold info_of, info_urls. split.
    + destruct (first_info net _) as [v |] eqn:E; [right | now left].
      destruct (first_info_tried _ _ _ E) as (u & Hu & Hv).
      apply info_reply_spec in Hv. destruct Hv as (c & En & Hc).
      exists u, c; auto.
    + intro Hall. rewrite first_info_none; [reflexivity |].
      intros u Hu. specialize (Hall u Hu).
      destruct (info_reply (net u)) as [v |] eqn:E; [| reflexivity].
      apply info_reply_spec in E. destruct E as (c & En & Hc).
      rewrite En in Hall. destruct Hall as [H | H]; [tauto | discriminate].
Qed.

(** C8. Both probes request over HTTP only when the domain starts with
    "localhost" or contains "127.0.0.1"; for every other domain they request
    over HTTPS first, and over HTTP next exactly when the HTTPS attempt did
    not succeed. *)
Theorem C8_protocol_order (net : network) (domain : string) (s : sys) :
  let loopback := startsWith domain "localhost" || includes domain "127.0.0.1" in
  requests (snd (checkNodeHealth net domain s))
  = List.app (requests s)
      (if loopback then ["http://" ++ domain ++ "/healthz"]
       else if healthy_reply (net ("https://" ++ domain ++ "/healthz"))
            then ["https://" ++ domain ++ "/healthz"]
            else ["https://" ++ domain ++ "/healthz";
                  "http://" ++ domain ++ "/healthz"])
  /\
  requests (snd (fetchNodeInfo net domain s))
  = List.app (requests s)
      (if loopback then ["http://" ++ domain ++ "/api/nodeinfo"]
       else if is_some (info_reply (net ("https://" ++ domain ++ "/api/nodeinfo")))
            then ["https://" ++ domain ++ "/api/nodeinfo"]
            else ["https://" ++ domain ++ "/api/nodeinfo";
                  "http://" ++ domain ++ "/api/nodeinfo"]).
Proof.
  intro loopback. rewrite checkNodeHealth_run, fetchNodeInfo_run.
  unfold health_urls, info_urls, protocols. fold loopback.
  unfold healthz_url, nodeinfo_url.
  destruct loopback; simpl;
    repeat match goal with
           | |- context [if ?c then _ else _] => destruct c
           end; split; reflexivity.
Qed.

(* ================================================================== *)
(** ** Statistics *)
(* ================================================================== *)

(** C10. On an empty table GET /api/stats answers with [total_nodes] 0 and
    with null, not 0, for [online_nodes], [total_tracks] and [total_users]:
    the three SUMs range over no row. *)
Theorem C10_stats_of_empty_table (log : list string) :
  getStats {| db := []; requests := log |}
  = (Ret {| status := 200;
            body := VObj [("total_nodes", VNum 0);
                          ("online_nodes", VNull);
                          ("total_tracks", VNull);
                          ("total_users", VNull)] |},
     {| db := []; requests := log |}).
Proof. reflexivity. Qed.

(** With at least one record, the count of online nodes is a number. *)
Lemma stats_online_nodes_number s :
  db s <> [] ->
  exists r k, getStats s = (Ret r, s) /\ prop (body r) "online_nodes" = VNum k.
Proof.
  intro Hne. unfold getStats, bind, query, ret.
  destruct (db s) as [| n rest]; [now destruct Hne |].
  eexists; eexists; split; [reflexivity |].
  unfold sql_sum; simpl. reflexivity.
Qed.

(* ================================================================== *)
(** ** Running handlers step by step *)
(* ================================================================== *)

Lemma bind_run {S A B} (m : M S A) (k : A -> M S B) s a s1 :
  m s = (Ret a, s1) -> bind m k s = k a s1.
Proof. unfold bind; now intros ->. Qed.


Lemma query_run {A} (q : table -> A) s : query q s = (Ret (q (db s)), s).
Proof. reflexivity. Qed.

Lemma logged_db urls s : db (logged urls s) = db s.
Proof. reflexivity. Qed.


Lemma run_ok stmt s t :
  stmt (db s) = Ret t -> run stmt s = (Ret tt, {| db := t; requests := requests s |}).
Proof. unfold run; now intros ->. Qed.


Lemma find_absent {A} (f : A -> bool) (l : list A) :
  (forall x, In x l -> f x = false) -> find f l = None.
Proof.
  induction l as [| x rest IH]; simpl; intro H; [reflexivity |].
  rewrite (H x (or_introl eq_refl)). apply IH; intros; apply H; now right.
Qed.

Lemma find_app_last {A} (f : A -> bool) (l : list A) (x : A) :
  f x = true -> exists y, find f (List.app l [x]) = Some y.
Proof.
  intro Hx. induction l as [| z rest IH]; simpl.
  - rewrite Hx; eauto.
  - destruct (f z); eauto.
Qed.

(** The replies of POST /api/announce. *)
Definition reply_error (c : Z) (msg : string) : reply :=
  {| status := c; body := VObj [("error", VStr msg)] |}.

Definition reply_conflict : reply :=
  {| status := 409;
     body := VObj [("error", VStr "domain already registered");
                   ("hint", VStr "Include the token from your initial registration to update.")] |}.

Definition reply_registered (a_id clean a_token : string) : reply :=
  {| status := 201;
     body := VObj [("status", VStr "registered");
                   ("id", VStr a_id);
                   ("domain", VStr clean);
                   ("token", VStr a_token);
                   ("message", VStr "Save this token! You need it for future heartbeats and to remove your node.")] |}.

Definition reply_updated (a_id clean : string) : reply :=
  {| status := 200;
     body := VObj [("status", VStr "updated"); ("id", VStr a_id); ("domain", VStr clean)] |}.

(** A request that passes the check of [domain] runs the [try] block. *)
Lemma announce_valid w req d s :
  prop req "domain" = VStr d -> d <> "" ->
  announce w req s
  = try_catch
      (if truthy (prop req "token")
       then heartbeat w (cleanDomain d) (prop req "name") (prop req "description")
                      (prop req "version") (prop req "token")
       else register w (cleanDomain d) (prop req "name") (prop req "description")
                     (prop req "version"))
      (fun _ => ret (reply_error 500 "internal server error")) s.
Proof.
  intros Hd Hne. unfold announce.
  assert (Hobj : nullish req = false) by (destruct req; try discriminate; reflexivity).
  rewrite Hobj, Hd.
  apply String.eqb_neq in Hne. rewrite Hne. reflexivity.
Qed.

Lemma truthy_str t : t <> "" -> truthy (VStr t) = true.
Proof. intro H; simpl. apply String.eqb_neq in H. now rewrite H. Qed.

(* ================================================================== *)
(** ** Token checks *)
(* ================================================================== *)

(** C6. An announce with a valid domain and a token (a non-empty string):
    when no stored record has that token the answer is 401; when the token
    is stored and the record carrying it has another domain than the
    normalized one of the request, the answer is 403. In both cases neither
    the table nor the log of requests changes. *)
Theorem C6_token_checks (w : env) (req : value) (d t : string) (s : sys) :
  prop req "domain" = VStr d -> d <> "" ->
  prop req "token" = VStr t -> t <> "" ->
  ((forall n, In n (db s) -> token n <> t) ->
   announce w req s = (Ret (reply_error 401 "invalid token"), s))
  /\
  ((exists n, In n (db s) /\ token n = t) ->
   (forall n, In n (db s) -> token n = t -> domain n <> cleanDomain d) ->
   announce w req s = (Ret (reply_error 403 "token does not match domain"), s)).
Proof.
  intros Hd Hne Ht Htne.
  rewrite (announce_valid _ _ _ _ Hd Hne), Ht, (truthy_str _ Htne).
  unfold try_catch, heartbeat, bind, query_checked, select_by_token.
  cbv [bindable]. split.
  - intro Hno. rewrite find_absent; [reflexivity |].
    intros n Hn. unfold token_is.
    destruct (is_str _ _) eqn:E; [| reflexivity].
    apply is_str_spec in E. injection E as E. now destruct (Hno n Hn).
  - intros (n0 & Hn0 & Et) Hdiff.
    destruct (find (token_is (VStr t)) (db s)) as [node |] eqn:F.
    + apply find_some in F. destruct F as [Hin Htok].
      unfold token_is in Htok.
      apply is_str_spec in Htok. injection Htok as Htok.
      specialize (Hdiff node Hin (eq_sym Htok)). apply String.eqb_neq in Hdiff.
      rewrite Hdiff; reflexivity.
    + exfalso. pose proof (find_none _ _ F n0 Hn0) as Hf.
      unfold token_is in Hf. simpl in Hf. rewrite Et in Hf.
      now rewrite String.eqb_refl in Hf.
Qed.

(* ================================================================== *)
(** ** Registration *)
(* ================================================================== *)

Lemma bindable_or_else a b :
  bindable a = true -> bindable b = true -> bindable (a ||' b) = true.
Proof. unfold or_else; now destruct (truthy a). Qed.

Lemma bindable_coalesce a b :
  bindable a = true -> bindable b = true -> bindable (a ?? b) = true.
Proof. unfold coalesce; now destruct (nullish a). Qed.

Lemma bindable_flag c : bindable (flag c) = true.
Proof. reflexivity. Qed.

(** Values built by [||] and [??] from bindable operands are bindable;
    [Hreq] and [Hinfo] say which fields of the inputs are. *)
Ltac bindable_with Hreq Hinfo :=
  repeat first
    [ reflexivity
    | apply bindable_or_else
    | apply bindable_coalesce
    | apply bindable_flag
    | (apply Hreq; simpl; auto 10)
    | (apply Hinfo; simpl; auto 10) ].

(** GET /api/nodes/:domain never shows the token. *)
Lemma getNode_hides_token a_domain s :
  exists r, getNode a_domain s = (Ret r, s) /\ prop (body r) "token" = VUndef.
Proof.
  unfold getNode, bind, query.
  destruct (select_by_domain (cleanDomain a_domain) (db s)) as [node |];
    eexists; split; reflexivity.
Qed.

(** The keys of a request and of a node's info whose values reach the
    INSERT and UPDATE statements unconverted. *)
Definition request_keys : list string := ["name"; "description"; "version"].

Definition info_keys : list string :=
  ["name"; "description"; "version"; "track_count"; "user_count";
   "open_registration"; "p2p_node_id"].

(** X26. A registration that goes through. A request with a valid domain
    and no token, for a domain that has no record and that the health probe
    reports reachable, the generated id and token being fresh and the
    metadata sent by the request and by the node being numbers, strings or
    null (a node that reports a boolean is refused): the announce answers
    201 with the token and appends exactly one record, for that domain and
    with that token;
    the same request again (whatever is generated or reachable then) answers
    409 without a token and changes nothing; GET on the node never shows
    the token. *)
Theorem registration_once (w : env) (req : value) (d : string) (s : sys) :
  prop req "domain" = VStr d -> d <> "" ->
  truthy (prop req "token") = false ->
  (forall n, In n (db s) -> domain n <> cleanDomain d) ->
  fst (checkNodeHealth (net w) (cleanDomain d) s) = Ret true ->
  (forall n, In n (db s) -> id n <> generateId w /\ token n <> generateToken w) ->
  (forall k, In k request_keys -> bindable (prop req k) = true) ->
  (forall k, In k info_keys ->
             bindable (info_of (net w) (cleanDomain d) ?. k) = true) ->
  exists row s1,
    announce w req s
    = (Ret (reply_registered (generateId w) (cleanDomain d) (generateToken w)), s1)
    /\ db s1 = List.app (db s) [row]
    /\ id row = generateId w
    /\ domain row = cleanDomain d
    /\ token row = generateToken w
    /\ is_online row = 1 /\ down_since row = None
    /\ first_seen row = datetime (time w)
    /\ (forall w2, announce w2 req s1 = (Ret reply_conflict, s1))
    /\ prop (body reply_conflict) "token" = VUndef
    /\ (exists r, getNode d s1 = (Ret r, s1) /\ prop (body r) "token" = VUndef).
Proof.
  intros Hd Hne Htok Hnew Hhealth Hfresh Hreq Hinfo.
  rewrite checkNodeHealth_run in Hhealth; simpl in Hhealth.
  injection Hhealth as Hhealth.
  set (clean := cleanDomain d) in *.
  set (info := info_of (net w) clean) in *.
  assert (Hsel : select_by_domain clean (db s) = None).
  { apply find_absent. intros n Hn. apply String.eqb_neq. now apply Hnew. }
  assert (Huniq : existsb (fun n => (id n =? generateId w)%string
                                    || (domain n =? clean)%string
                                    || (token n =? generateToken w)%string) (db s)
                  = false).
  { destruct (existsb _ _) eqn:E; [| reflexivity].
    apply existsb_exists in E. destruct E as (n & Hn & E).
    destruct (Hfresh n Hn) as [Hi Ht]. specialize (Hnew n Hn).
    apply String.eqb_neq in Hi, Ht, Hnew. now rewrite Hi, Ht, Hnew in E. }
  eexists; eexists.
  split; [| split; [| split; [| split; [| split; [| split; [| split; [| split; [| split; [| split]]]]]]]]].
  - rewrite (announce_valid _ _ _ _ Hd Hne), Htok.
    unfold try_catch, register.
    rewrite (bind_run _ _ _ _ _ (query_run _ _)). fold clean. rewrite Hsel.
    rewrite (bind_run _ _ _ _ _ (checkNodeHealth_run _ _ _)). rewrite Hhealth.
    cbv [negb].
    rewrite (bind_run _ _ _ _ _ (fetchNodeInfo_run _ _ _)). fold info.
    erewrite bind_run; [reflexivity |].
    apply run_ok. unfold insert_node. rewrite !logged_db.
    replace (forallb bindable _) with true.
    + rewrite Huniq. reflexivity.
    + symmetry. cbv [forallb].
      repeat (apply andb_true_intro; split); bindable_with Hreq Hinfo.
  - reflexivity.
  - reflexivity.
  - reflexivity.
  - reflexivity.
  - reflexivity.
  - reflexivity.
  - reflexivity.
  - intro w2. rewrite (announce_valid _ _ _ _ Hd Hne), Htok.
    unfold try_catch, register.
    rewrite (bind_run _ _ _ _ _ (query_run _ _)). fold clean.
    cbv [db]. unfold select_by_domain.
    match goal with
    | |- context [find ?f (List.app ?l [?x])] =>
        destruct (find_app_last f l x) as (y & ->);
          [simpl; apply String.eqb_refl | reflexivity]
    end.
  - reflexivity.
  - apply getNode_hides_token.
Qed.

(* ================================================================== *)
(** ** Heartbeats *)
(* ================================================================== *)

(** The registration branch never answers 200. *)
Lemma register_not_200 w clean a b c s r s' :
  register w clean a b c s = (Ret r, s') -> status r <> 200.
Proof.
  unfold register.
  rewrite (bind_run _ _ _ _ _ (query_run _ _)).
  destruct (select_by_domain clean (db s)).
  { intros [= <- <-]; simpl; discriminate. }
  rewrite (bind_run _ _ _ _ _ (checkNodeHealth_run _ _ _)).
  destruct (health_of (net w) clean); cbv [negb].
  2: { intros [= <- <-]; simpl; discriminate. }
  rewrite (bind_run _ _ _ _ _ (fetchNodeInfo_run _ _ _)).
  unfold bind, run.
  destruct (insert_node _ _ _ _ _ _ _ _ _ _ _ _ _); [| discriminate].
  intros [= <- <-]; simpl; discriminate.
Qed.

(** What a heartbeat binds to its UPDATE, from the request, the fetched
    info and the row read by token. *)
Definition heartbeat_update (w : env) (req info : value) (node : Db.node) :
    table -> result table :=
  update_heartbeat (time w)
    (prop req "name" ||' info ?. "name" ||' name node ||' VStr "")
    (prop req "description" ||' info ?. "description" ||' description node ||' VStr "")
    (prop req "version" ||' info ?. "version" ||' version node ||' VStr "")
    (info ?. "track_count" ?? track_count node ?? VNum 0)
    (info ?. "user_count" ?? user_count node ?? VNum 0)
    (info ?. "open_registration" ?? open_registration node ?? VNum 1)
    (flag (truthy (info ?. "p2p_enabled")))
    (info ?. "p2p_node_id" ||' p2p_node_id node ||' VNull)
    (prop req "token").

(** An announce answered 200 went through the whole heartbeat branch. *)
Lemma announce_200 w req s r s' :
  announce w req s = (Ret r, s') -> status r = 200 ->
  exists d node,
    prop req "domain" = VStr d /\ d <> ""
    /\ truthy (prop req "token") = true
    /\ select_by_token (prop req "token") (db s) = Ret (Some node)
    /\ domain node = cleanDomain d
    /\ heartbeat_update w req (info_of (net w) (cleanDomain d)) node (db s) = Ret (db s')
    /\ requests s' = List.app (requests s) (info_urls (net w) (cleanDomain d))
    /\ r = reply_updated (id node) (cleanDomain d).
Proof.
  intros Hrun H200.
  destruct (nullish req) eqn:Hnull.
  { unfold announce in Hrun; rewrite Hnull in Hrun. discriminate. }
  destruct (prop req "domain") as [| | | | d | |] eqn:Hd;
    try (unfold announce in Hrun; rewrite Hnull, Hd in Hrun;
         injection Hrun as <- <-; discriminate).
  destruct (String.eqb_spec d "") as [-> | Hne].
  { unfold announce in Hrun; rewrite Hnull, Hd in Hrun.
    injection Hrun as <- <-; discriminate. }
  rewrite (announce_valid _ _ _ _ Hd Hne) in Hrun.
  unfold try_catch in Hrun.
  destruct (truthy (prop req "token")) eqn:Htok.
  2: { destruct (register _ _ _ _ _ s) as [[r0 | e] s0] eqn:R.
       - injection Hrun as <- <-. now apply register_not_200 in R.
       - injection Hrun as <- <-; discriminate. }
  unfold heartbeat in Hrun.
  unfold bind at 1 in Hrun. unfold query_checked in Hrun.
  destruct (select_by_token (prop req "token") (db s)) as [[node |] | e] eqn:Hsel;
    try (injection Hrun as <- <-; discriminate).
  destruct (String.eqb_spec (domain node) (cleanDomain d)) as [Hdom | Hdom];
    cbv [negb] in Hrun; try (injection Hrun as <- <-; discriminate).
  rewrite (bind_run _ _ _ _ _ (fetchNodeInfo_run _ _ _)) in Hrun.
  unfold bind, run in Hrun. rewrite logged_db in Hrun.
  fold (heartbeat_update w req (info_of (net w) (cleanDomain d)) node) in Hrun.
  destruct (heartbeat_update _ _ _ _ _) as [t | e] eqn:Hupd;
    try (injection Hrun as <- <-; discriminate).
  injection Hrun as <- <-.
  exists d, node. repeat split; auto.
Qed.

(** What never changes in a record. *)
Definition identity (n : node) : string * string * string * Z :=
  (id n, token n, domain n, first_seen n).

Lemma update_heartbeat_identity now a1 a2 a3 a4 a5 a6 a7 a8 t tbl tbl' :
  update_heartbeat now a1 a2 a3 a4 a5 a6 a7 a8 t tbl = Ret tbl' ->
  map identity tbl' = map identity tbl.
Proof.
  unfold update_heartbeat. destruct (forallb _ _); [| discriminate].
  intros [= <-]. rewrite map_map. apply map_ext.
  intro n. now destruct (token_is t n).
Qed.

(** A run of announces each of which is answered 200, i.e. is a successful
    heartbeat: the state reached, and whether all were. *)
Fixpoint heartbeats (calls : list (env * value)) (s : sys) : bool * sys :=
  match calls with
  | [] => (true, s)
  | (w, req) :: rest =>
      match announce w req s with
      | (Ret r, s1) => if status r =? 200 then heartbeats rest s1 else (false, s1)
      | (Throw _, s1) => (false, s1)
      end
  end.

(** C9. However many successful heartbeats are made, with whatever tokens,
    contents and answers from the nodes, every record keeps its id, token,
    domain and first_seen, and no record appears or disappears. *)
Theorem C9_heartbeats_keep_identity (calls : list (env * value)) (s s' : sys) :
  heartbeats calls s = (true, s') ->
  map identity (db s') = map identity (db s).
Proof.
  revert s. induction calls as [| [w req] rest IH]; intro s; simpl.
  - now intros [= <-].
  - destruct (announce w req s) as [[r | e] s1] eqn:A; [| discriminate].
    destruct (status r =? 200) eqn:E; [| discriminate].
    apply Z.eqb_eq in E. intro H. rewrite (IH _ H).
    destruct (announce_200 _ _ _ _ _ A E) as (d & node & _ & _ & _ & _ & _ & U & _).
    eapply update_heartbeat_identity. exact U.
Qed.

(** The stored values a heartbeat may bind again. *)
Definition stored_values (n : node) : list value :=
  [name n; description n; version n; track_count n; user_count n;
   open_registration n; p2p_node_id n].

(** A heartbeat is accepted: with a valid domain, the token of a stored
    record of that domain, and metadata (sent, fetched and stored) that are
    numbers, strings or null, the answer is 200. *)
Lemma heartbeat_accepted w req d t node s :
  prop req "domain" = VStr d -> d <> "" ->
  prop req "token" = VStr t -> t <> "" ->
  find (token_is (VStr t)) (db s) = Some node ->
  domain node = cleanDomain d ->
  (forall k, In k request_keys -> bindable (prop req k) = true) ->
  (forall k, In k info_keys ->
             bindable (info_of (net w) (cleanDomain d) ?. k) = true) ->
  (forall v, In v (stored_values node) -> bindable v = true) ->
  exists s',
    announce w req s = (Ret (reply_updated (id node) (cleanDomain d)), s').
Proof.
  intros Hd Hne Ht Htne Hfind Hdom Hreq Hinfo Hstored.
  rewrite (announce_valid _ _ _ _ Hd Hne), Ht, (truthy_str _ Htne).
  unfold try_catch, heartbeat.
  unfold bind at 1. unfold query_checked, select_by_token. cbv [bindable].
  rewrite Hfind, Hdom, String.eqb_refl. cbv [negb].
  rewrite (bind_run _ _ _ _ _ (fetchNodeInfo_run _ _ _)).
  unfold bind, run, update_heartbeat. rewrite logged_db.
  replace (forallb bindable _) with true; [eexists; reflexivity |].
  symmetry. cbv [forallb].
  repeat (apply andb_true_intro; split);
    repeat first
      [ reflexivity
      | apply bindable_or_else
      | apply bindable_coalesce
      | apply bindable_flag
      | (apply Hreq; simpl; auto 10)
      | (apply Hinfo; simpl; auto 10)
      | (apply Hstored; simpl; auto 10) ].
Qed.

(** Precedence among candidates: the first that is truthy, resp. the first
    that is neither null nor undefined, else the default. *)
Fixpoint first_truthy (candidates : list value) (default : value) : value :=
  match candidates with
  | [] => default
  | v :: rest => if truthy v then v else first_truthy rest default
  end.

Fixpoint first_present (candidates : list value) (default : value) : value :=
  match candidates with
  | [] => default
  | v :: rest => if nullish v then first_present rest default else v
  end.

Lemma bound_first_truthy candidates default :
  default <> VUndef -> bound (first_truthy candidates default) = first_truthy candidates default.
Proof.
  intro Hd. induction candidates as [| v rest IH]; simpl.
  - destruct default; try reflexivity. now destruct Hd.
  - destruct (truthy v) eqn:E; [| exact IH]. now destruct v.
Qed.

Lemma bound_first_present candidates default :
  default <> VUndef -> bound (first_present candidates default) = first_present candidates default.
Proof.
  intro Hd. induction candidates as [| v rest IH]; simpl.
  - destruct default; try reflexivity. now destruct Hd.
  - destruct (nullish v) eqn:E; [exact IH |]. now destruct v.
Qed.

Lemma or_else_chain2 a b d : (a ||' b ||' d) = first_truthy [a; b] d.
Proof.
  unfold or_else; simpl.
  destruct (truthy a) eqn:A; rewrite ?A; [reflexivity |].
  destruct (truthy b) eqn:B; rewrite ?B; reflexivity.
Qed.

Lemma or_else_chain3 a b c d : (a ||' b ||' c ||' d) = first_truthy [a; b; c] d.
Proof.
  unfold or_else; simpl.
  destruct (truthy a) eqn:A; rewrite ?A; [reflexivity |].
  destruct (truthy b) eqn:B; rewrite ?B; [reflexivity |].
  destruct (truthy c) eqn:C; rewrite ?C; reflexivity.
Qed.

Lemma coalesce_chain2 a b d : (a ?? b ?? d) = first_present [a; b] d.
Proof.
  unfold coalesce; simpl.
  destruct (nullish a) eqn:A; rewrite ?A; [| reflexivity].
  destruct (nullish b) eqn:B; rewrite ?B; reflexivity.
Qed.

Lemma Forall2_map_right {A B} (P : A -> B -> Prop) (f : A -> B) (l : list A) :
  (forall x, In x l -> P x (f x)) -> Forall2 P l (map f l).
Proof.
  induction l as [| x rest IH]; simpl; intro H; constructor.
  - apply H; now left.
  - apply IH; intros; apply H; now right.
Qed.

(** The fields a heartbeat merges by precedence, for the request [req], the
    fetched info [info] and the stored row [node]. *)
Definition merged (req info : value) (node new : Db.node) : Prop :=
  name new = first_truthy [prop req "name"; info ?. "name"; name node] (VStr "")
  /\ description new
     = first_truthy [prop req "description"; info ?. "description"; description node] (VStr "")
  /\ version new
     = first_truthy [prop req "version"; info ?. "version"; version node] (VStr "")
  /\ track_count new = first_present [info ?. "track_count"; track_count node] (VNum 0)
  /\ user_count new = first_present [info ?. "user_count"; user_count node] (VNum 0)
  /\ open_registration new
     = first_present [info ?. "open_registration"; open_registration node] (VNum 1)
  /\ p2p_node_id new = first_truthy [info ?. "p2p_node_id"; p2p_node_id node] VNull.

(** Metadata of the type of its column: a string, or a number, or nothing.
    SQLite stores such values as they are bound. *)
Definition text_or_absent (v : value) : bool :=
  match v with
  | VUndef | VNull | VStr _ => true
  | _ => false
  end.

Definition integer_or_absent (v : value) : bool :=
  match v with
  | VUndef | VNull | VNum _ => true
  | _ => false
  end.

Definition text_keys : list string :=
  ["name"; "description"; "version"; "p2p_node_id"].

Definition integer_keys : list string :=
  ["track_count"; "user_count"; "open_registration"].

(** The request carries strings, if anything, as name, description and
    version. *)
Definition typed_request (req : value) : Prop :=
  forall k, In k request_keys -> text_or_absent (prop req k) = true.

(** The info of a node carries strings, if anything, under the keys of the
    TEXT columns and numbers, if anything, under those of the INTEGER
    columns (its [p2p_enabled] may be anything: it is converted). *)
Definition typed_info (info : value) : Prop :=
  (forall k, In k text_keys -> text_or_absent (info ?. k) = true)
  /\ (forall k, In k integer_keys -> integer_or_absent (info ?. k) = true).

(** A record as SQLite holds it: texts in the TEXT columns, numbers in the
    INTEGER ones. *)
Definition typed_row (n : node) : Prop :=
  text_or_absent (name n) = true /\ text_or_absent (description n) = true
  /\ text_or_absent (version n) = true /\ text_or_absent (p2p_node_id n) = true
  /\ integer_or_absent (track_count n) = true
  /\ integer_or_absent (user_count n) = true
  /\ integer_or_absent (open_registration n) = true.

Lemma text_bindable v : text_or_absent v = true -> bindable v = true.
Proof. now destruct v. Qed.

Lemma integer_bindable v : integer_or_absent v = true -> bindable v = true.
Proof. now destruct v. Qed.

Lemma typed_request_bindable req :
  typed_request req -> forall k, In k request_keys -> bindable (prop req k) = true.
Proof. intros H k Hk. apply text_bindable. now apply H. Qed.

Lemma typed_info_bindable info :
  typed_info info -> forall k, In k info_keys -> bindable (info ?. k) = true.
Proof.
  intros [Ht Hi] k Hk. unfold info_keys in Hk. simpl in Hk.
  destruct Hk as [<- | [<- | [<- | [<- | [<- | [<- | [<- | []]]]]]]];
    first [ apply text_bindable; apply Ht; unfold text_keys; simpl; tauto
          | apply integer_bindable; apply Hi; unfold integer_keys; simpl; tauto ].
Qed.

Lemma typed_row_bindable n :
  typed_row n -> forall v, In v (stored_values n) -> bindable v = true.
Proof.
  intros (H1 & H2 & H3 & H4 & H5 & H6 & H7) v Hv.
  unfold stored_values in Hv. simpl in Hv.
  destruct Hv as [<- | [<- | [<- | [<- | [<- | [<- | [<- | []]]]]]]];
    first [ now apply text_bindable | now apply integer_bindable ].
Qed.

Lemma token_injective (tbl : table) :
  NoDup (map token tbl) ->
  forall a b, In a tbl -> In b tbl -> token a = token b -> a = b.
Proof.
  induction tbl as [| x rest IH]; intros Hu a b Ha Hb E; [destruct Ha |].
  simpl in Hu. apply NoDup_cons_iff in Hu. destruct Hu as [Hnot Hrest].
  destruct Ha as [Ha | Ha], Hb as [Hb | Hb].
  - now rewrite <- Ha, <- Hb.
  - exfalso. apply Hnot. rewrite Ha, E. now apply in_map.
  - exfalso. apply Hnot. rewrite Hb, <- E. now apply in_map.
  - now apply IH.
Qed.

Lemma find_unique_token t node tbl :
  NoDup (map token tbl) -> In node tbl -> token node = t ->
  find (token_is (VStr t)) tbl = Some node.
Proof.
  intros Hu Hin Ht.
  destruct (find (token_is (VStr t)) tbl) as [m |] eqn:F.
  - apply find_some in F. destruct F as [Hm Em].
    unfold token_is in Em. apply is_str_spec in Em. injection Em as Em.
    f_equal. apply (token_injective tbl Hu); auto. congruence.
  - exfalso. pose proof (find_none _ _ F node Hin) as Hf.
    unfold token_is in Hf. simpl in Hf. rewrite Ht in Hf.
    now rewrite String.eqb_refl in Hf.
Qed.

(** C1 as amended. A heartbeat: an announce with a valid domain and the
    token of a stored record of that domain (tokens being distinct), where
    the metadata sent by the request, reported by the node and stored in
    the record have the type of their column (strings for name,
    description, version and p2p_node_id, numbers for track_count,
    user_count and open_registration) or are absent. It is answered 200;
    the records other than the one with the token are as before, and in the
    record with the token: [name], [description] and [version] are the
    first non-empty one of the request's value, the fetched info's value and
    the value stored before, else the empty string; [track_count],
    [user_count] and [open_registration] are the fetched info's value when
    it is neither null nor undefined, else the value stored before, else 0,
    0 and 1 (the request is not consulted for them); [p2p_node_id] is the
    first non-empty one of the fetched value and the stored value, else
    null. The record is online with [down_since] null. *)
Theorem C1_heartbeat_merge (w : env) (req : value) (d t : string)
    (node : Db.node) (s : sys) :
  prop req "domain" = VStr d -> d <> "" ->
  prop req "token" = VStr t -> t <> "" ->
  NoDup (map token (db s)) ->
  In node (db s) -> token node = t -> domain node = cleanDomain d ->
  typed_request req ->
  typed_info (info_of (net w) (cleanDomain d)) ->
  typed_row node ->
  exists s',
    announce w req s = (Ret (reply_updated (id node) (cleanDomain d)), s')
    /\ Forall2
         (fun old new =>
            if (token old =? t)%string
            then merged req (info_of (net w) (cleanDomain d)) node new
                 /\ is_online new = 1 /\ down_since new = None
                 /\ last_seen new = datetime (time w)
                 /\ last_healthy new = datetime (time w)
            else new = old)
         (db s) (db s').
Proof.
  intros Hd Hne Ht Htne Huniq Hin Htok Hdom Hreq Hinfo Hrow.
  pose proof (find_unique_token t node (db s) Huniq Hin Htok) as Hfind.
  destruct (heartbeat_accepted w req d t node s Hd Hne Ht Htne Hfind Hdom
              (typed_request_bindable _ Hreq)
              (typed_info_bindable _ Hinfo)
              (typed_row_bindable _ Hrow)) as (s' & Hrun).
  exists s'. split; [exact Hrun |].
  destruct (announce_200 _ _ _ _ _ Hrun eq_refl)
    as (d' & node' & Hd' & _ & _ & Hsel & _ & Hupd & _ & _).
  rewrite Hd in Hd'. injection Hd' as <-.
  rewrite Ht in Hsel. unfold select_by_token in Hsel. simpl in Hsel.
  rewrite Hfind in Hsel. injection Hsel as <-.
  set (info := info_of (net w) (cleanDomain d)) in *.
  unfold heartbeat_update, update_heartbeat in Hupd. rewrite Ht in Hupd.
  destruct (forallb _ _); [| discriminate].
  injection Hupd as <-.
  apply Forall2_map_right. intros old _.
  unfold token_is. simpl. rewrite (String.eqb_sym t (token old)).
  destruct (token old =? t)%string; [| reflexivity].
  unfold merged; cbn [name description version track_count user_count
                      open_registration p2p_node_id is_online down_since
                      last_seen last_healthy].
  rewrite !or_else_chain3, !or_else_chain2, !coalesce_chain2.
  rewrite !bound_first_truthy, !bound_first_present by discriminate.
  repeat split.
Qed.

(* ================================================================== *)
(** ** The scenario of the specification, run *)
(* ================================================================== *)

Module Scenario.

(** The node a.example answers /healthz with status ok and /api/nodeinfo
    with 10 tracks over HTTPS; nothing else answers. *)
Definition net : network := fun url =>
  if (url =? "https://a.example/healthz")%string then
    Responded 200 (Some (VObj [("status", VStr "ok")]))
  else if (url =? "https://a.example/api/nodeinfo")%string then
    Responded 200 (Some (VObj [("track_count", VNum 10)]))
  else Rejected FetchError.

Definition world : env :=
  {| Server.net := net; time := 1700000000000;
     generateToken := "T"; generateId := "id-a" |}.

Definition empty : sys := {| db := []; requests := [] |}.

Definition registration : value := VObj [("domain", VStr "a.example")].

(** The row the registration of a.example inserts. *)
Definition row_a : node :=
  {| id := "id-a"; domain := "a.example";
     name := VStr ""; description := VStr ""; version := VStr "";
     track_count := VNum 10; user_count := VNum 0;
     open_registration := VNum 1; p2p_enabled := VNum 0;
     p2p_node_id := VNull; country := VNull; token := "T";
     first_seen := 1700000000; last_seen := 1700000000;
     last_healthy := 1700000000; is_online := 1; down_since := None |}.

Definition registered : sys :=
  {| db := [row_a];
     requests := ["https://a.example/healthz"; "https://a.example/api/nodeinfo"] |}.

(** A heartbeat that also sends [track_count: 20]. *)
Definition heartbeat_20 : value :=
  VObj [("domain", VStr "a.example"); ("token", VStr "T"); ("track_count", VNum 20)].

Definition after_heartbeat : sys :=
  {| db := [row_a];
     requests := ["https://a.example/healthz"; "https://a.example/api/nodeinfo";
                  "https://a.example/api/nodeinfo"] |}.

End Scenario.

Example scenario_registration :
  announce Scenario.world Scenario.registration Scenario.empty
  = (Ret (reply_registered "id-a" "a.example" "T"), Scenario.registered).
Proof. reflexivity. Qed.

(** C1, refuted as stated: in the scenario of the specification (a.example
    registered with 10 tracks, its info still reporting 10), the heartbeat
    that supplies [track_count: 20] is answered 200, and GET on the node
    then shows [track_count] 10, not 20: the request's value is not read. *)
Lemma C1_request_track_count_ignored :
  exists g,
    announce Scenario.world Scenario.heartbeat_20 Scenario.registered
    = (Ret (reply_updated "id-a" "a.example"), Scenario.after_heartbeat)
    /\ getNode "a.example" Scenario.after_heartbeat = (Ret g, Scenario.after_heartbeat)
    /\ prop (body g) "track_count" = VNum 10
    /\ prop (body g) "track_count" <> VNum 20.
Proof.
  eexists. split; [reflexivity |]. split; [reflexivity |].
  split; [reflexivity | discriminate].
Qed.

Lemma typed_row_a : typed_row Scenario.row_a.
Proof. repeat split. Defined.

Lemma typed_info_a : typed_info (info_of Scenario.net "a.example").
Proof.
  split; intros k Hk; simpl in Hk;
    repeat (destruct Hk as [<- | Hk]; [reflexivity |]); destruct Hk.
Defined.

Lemma typed_heartbeat_20 : typed_request Scenario.heartbeat_20.
Proof.
  intros k Hk. simpl in Hk.
  repeat (destruct Hk as [<- | Hk]; [reflexivity |]). destruct Hk.
Defined.

Lemma C1_heartbeat_merge_witness :
  exists s',
    announce Scenario.world Scenario.heartbeat_20 Scenario.registered
    = (Ret (reply_updated "id-a" "a.example"), s')
    /\ Forall2
         (fun old new =>
            if (token old =? "T")%string
            then merged Scenario.heartbeat_20
                   (info_of Scenario.net "a.example") Scenario.row_a new
                 /\ is_online new = 1 /\ down_since new = None
                 /\ last_seen new = datetime (time Scenario.world)
                 /\ last_healthy new = datetime (time Scenario.world)
            else new = old)
         (db Scenario.registered) (db s').
Proof.
  apply (C1_heartbeat_merge Scenario.world Scenario.heartbeat_20 "a.example" "T"
           Scenario.row_a Scenario.registered
           eq_refl ltac:(discriminate) eq_refl ltac:(discriminate)).
  - simpl. constructor; [intros [] | constructor].
  - now left.
  - reflexivity.
  - reflexivity.
  - exact typed_heartbeat_20.
  - exact typed_info_a.
  - exact typed_row_a.
Defined.

Lemma C9_heartbeats_keep_identity_witness :
  heartbeats [(Scenario.world, Scenario.heartbeat_20);
              (Scenario.world, Scenario.heartbeat_20)] Scenario.registered
  = (true, {| db := [Scenario.row_a];
              requests := ["https://a.example/healthz"; "https://a.example/api/nodeinfo";
                           "https://a.example/api/nodeinfo";
                           "https://a.example/api/nodeinfo"] |})
  /\ map identity [Scenario.row_a] = map identity (db Scenario.registered).
Proof.
  split; [reflexivity |].
  apply (C9_heartbeats_keep_identity
           [(Scenario.world, Scenario.heartbeat_20);
            (Scenario.world, Scenario.heartbeat_20)]
           Scenario.registered
           {| db := [Scenario.row_a];
              requests := ["https://a.example/healthz"; "https://a.example/api/nodeinfo";
                           "https://a.example/api/nodeinfo";
                           "https://a.example/api/nodeinfo"] |}).
  reflexivity.
Defined.

Lemma C6_token_checks_witness :
  announce Scenario.world
    (VObj [("domain", VStr "a.example"); ("token", VStr "unknown")])
    Scenario.registered
  = (Ret (reply_error 401 "invalid token"), Scenario.registered)
  /\
  announce Scenario.world
    (VObj [("domain", VStr "https://b.example/"); ("token", VStr "T")])
    Scenario.registered
  = (Ret (reply_error 403 "token does not match domain"), Scenario.registered).
Proof.
  split.
  - apply (proj1 (C6_token_checks Scenario.world
                    (VObj [("domain", VStr "a.example"); ("token", VStr "unknown")])
                    "a.example" "unknown" Scenario.registered
                    eq_refl ltac:(discriminate) eq_refl ltac:(discriminate))).
    intros n [<- | []]; discriminate.
  - apply (proj2 (C6_token_checks Scenario.world
                    (VObj [("domain", VStr "https://b.example/"); ("token", VStr "T")])
                    "https://b.example/" "T" Scenario.registered
                    eq_refl ltac:(discriminate) eq_refl ltac:(discriminate))).
    + exists Scenario.row_a; split; [now left | reflexivity].
    + intros n [<- | []] _; discriminate.
Defined.

Lemma registration_once_witness :
  exists row s1,
    announce Scenario.world Scenario.registration Scenario.empty
    = (Ret (reply_registered "id-a" "a.example" "T"), s1)
    /\ db s1 = [row]
    /\ id row = "id-a"
    /\ domain row = "a.example"
    /\ token row = "T"
    /\ is_online row = 1 /\ down_since row = None
    /\ first_seen row = 1700000000
    /\ (forall w2, announce w2 Scenario.registration s1 = (Ret reply_conflict, s1))
    /\ prop (body reply_conflict) "token" = VUndef
    /\ (exists r, getNode "a.example" s1 = (Ret r, s1) /\ prop (body r) "token" = VUndef).
Proof.
  apply (registration_once Scenario.world Scenario.registration "a.example"
           Scenario.empty eq_refl ltac:(discriminate) eq_refl).
  - intros n [].
  - reflexivity.
  - intros n [].
  - intros k Hk. simpl in Hk.
    repeat (destruct Hk as [<- | Hk]; [reflexivity |]). destruct Hk.
  - intros k Hk. simpl in Hk.
    repeat (destruct Hk as [<- | Hk]; [reflexivity |]). destruct Hk.
Defined.

(* ================================================================== *)
(** ** The health checker *)
(* ================================================================== *)

(** The threshold test on whole milliseconds. *)
Lemma threshold_ms now down :
  Qle_bool (inject_Z REMOVAL_THRESHOLD_HOURS) (hoursDown now down) = true
  <-> 48 * 60 * 60 * 1000 <= now - down * 1000.
Proof.
  rewrite Qle_bool_iff. unfold hoursDown, REMOVAL_THRESHOLD_HOURS.
  unfold Qle, Qdiv, Qmult, Qinv, inject_Z. simpl. lia.
Qed.

(** The table after the branch of [checkOne] for an unreachable node. *)
Definition after_failed_probe (now : Z) (node : Db.node) (tbl : table) : table :=
  let marked :=
    if negb (is_online node =? 0) then update_offline now (id node) tbl else tbl in
  match down_since node with
  | Some down =>
      if Qle_bool (inject_Z REMOVAL_THRESHOLD_HOURS) (hoursDown now down)
      then delete_by_id (id node) marked
      else marked
  | None => marked
  end.

(** The UPDATE of [checkOne] for a reachable node that reports [info]. *)
Definition refresh (now : Z) (info : value) (node : Db.node) : table -> result table :=
  update_online now
    (info ?. "track_count" ?? VNull)
    (info ?. "user_count" ?? VNull)
    (info ?. "version" ||' VNull)
    (if negb (nullish (info ?. "p2p_enabled"))
     then flag (truthy (prop info "p2p_enabled"))
     else VNull)
    (info ?. "p2p_node_id" ||' VNull)
    (info ?. "name" ||' VNull)
    (info ?. "open_registration" ?? VNull)
    (id node).

Lemma checkOne_unreachable net now node s :
  health_of net (domain node) = false ->
  checkOne net now node s
  = (Ret tt, {| db := after_failed_probe now node (db s);
                requests := List.app (requests s) (health_urls net (domain node)) |}).
Proof.
  intro H. unfold checkOne.
  rewrite (bind_run _ _ _ _ _ (checkNodeHealth_run _ _ _)), H.
  unfold after_failed_probe, bind, run, ret, logged; simpl.
  destruct (negb (is_online node =? 0)); simpl;
    destruct (down_since node) as [down |]; simpl; try reflexivity;
    destruct (Qle_bool _ _); reflexivity.
Qed.

Lemma checkOne_reachable net now node s :
  health_of net (domain node) = true ->
  checkOne net now node s
  = match refresh now (info_of net (domain node)) node (db s) with
    | Ret t =>
        (Ret tt, {| db := t;
                    requests := List.app (requests s)
                                  (List.app (health_urls net (domain node))
                                            (info_urls net (domain node))) |})
    | Throw e =>
        (Throw e, logged (List.app (health_urls net (domain node))
                                   (info_urls net (domain node))) s)
    end.
Proof.
  intro H. unfold checkOne.
  rewrite (bind_run _ _ _ _ _ (checkNodeHealth_run _ _ _)), H.
  rewrite (bind_run _ _ _ _ _ (fetchNodeInfo_run _ _ _)).
  rewrite logged_logged. unfold run. rewrite logged_db.
  fold (refresh now (info_of net (domain node)) node).
  destruct (refresh _ _ _ _); reflexivity.
Qed.

Definition has_id (i : string) (n : node) : bool := (id n =? i)%string.

Lemma has_id_update_offline i now j tbl :
  existsb (has_id i) (update_offline now j tbl) = existsb (has_id i) tbl.
Proof.
  unfold update_offline. induction tbl as [| n rest IH]; simpl; [reflexivity |].
  rewrite IH. now destruct (id n =? j)%string.
Qed.

Lemma has_id_delete i tbl : existsb (has_id i) (delete_by_id i tbl) = false.
Proof.
  unfold delete_by_id, has_id. induction tbl as [| n rest IH]; simpl; [reflexivity |].
  destruct (id n =? i)%string eqn:E; simpl; [exact IH |]. now rewrite E, IH.
Qed.

Lemma has_id_in node tbl : In node tbl -> existsb (has_id (id node)) tbl = true.
Proof.
  intro H. apply existsb_exists. exists node; split; [exact H |].
  apply String.eqb_refl.
Qed.

(** A record's own consistency: [down_since] is set exactly when offline. *)
Definition consistent (n : node) : Prop := down_since n <> None <-> is_online n = 0.

Module Outage.

(** Nothing answers. *)
Definition dead : network := fun _ => Rejected FetchError.

(** a.example, offline since the second 1700000300. *)
Definition row_down : node :=
  {| id := "id-a"; domain := "a.example";
     name := VStr ""; description := VStr ""; version := VStr "";
     track_count := VNum 10; user_count := VNum 0;
     open_registration := VNum 1; p2p_enabled := VNum 0;
     p2p_node_id := VNull; country := VNull; token := "T";
     first_seen := 1700000000; last_seen := 1700000000;
     last_healthy := 1700000000; is_online := 0;
     down_since := Some 1700000300 |}.

Definition table_down : sys := {| db := [row_down]; requests := [] |}.

(** 48 hours after that second, in milliseconds. *)
Definition at_48h : Z := 1700000300000 + 48 * 60 * 60 * 1000.

(** Two reachable nodes; a.example reports [open_registration] as the JSON
    boolean true. *)
Definition typed : network := fun url =>
  if (url =? "https://a.example/healthz")%string then
    Responded 200 (Some (VObj [("status", VStr "ok")]))
  else if (url =? "https://a.example/api/nodeinfo")%string then
    Responded 200 (Some (VObj [("open_registration", VBool true)]))
  else if (url =? "https://b.example/healthz")%string then
    Responded 200 (Some (VObj [("status", VStr "ok")]))
  else if (url =? "https://b.example/api/nodeinfo")%string then
    Responded 200 (Some (VObj [("track_count", VNum 5)]))
  else Rejected FetchError.

Definition row_b : node :=
  {| id := "id-b"; domain := "b.example";
     name := VStr ""; description := VStr ""; version := VStr "";
     track_count := VNum 0; user_count := VNum 0;
     open_registration := VNum 1; p2p_enabled := VNum 0;
     p2p_node_id := VNull; country := VNull; token := "U";
     first_seen := 1700000000; last_seen := 1700000000;
     last_healthy := 1700000000; is_online := 1; down_since := None |}.

Definition two : sys := {| db := [Scenario.row_a; row_b]; requests := [] |}.

Definition later : nat -> Z := fun _ => 1700000600000.

End Outage.

Module Flags.

(** a.example, reachable, reports [p2p_enabled] as the JSON boolean true. *)
Definition p2p : network := fun url =>
  if (url =? "https://a.example/healthz")%string then
    Responded 200 (Some (VObj [("status", VStr "ok")]))
  else if (url =? "https://a.example/api/nodeinfo")%string then
    Responded 200 (Some (VObj [("p2p_enabled", VBool true)]))
  else Rejected FetchError.

(** The world of the scenario with another network. *)
Definition world_of (n : network) : env :=
  {| Server.net := n; time := 1700000000000;
     generateToken := "T"; generateId := "id-a" |}.

End Flags.

(** C5. The code departs from the claim. On the empty table, the
    registration of a.example (a valid domain, no token, no record, the
    health probe reporting it reachable), whose info reports
    [open_registration] as the JSON boolean true, is answered 500 and inserts
    nothing: the INSERT binds [info?.open_registration ?? 1] as it is, and
    the driver binds no boolean. The claim has it answered with a token and
    one record inserted. The same INSERT converts the other flag,
    [info?.p2p_enabled ? 1 : 0]: a node that reports [p2p_enabled] as true
    is registered, with 1 stored. *)
Theorem C5_boolean_open_registration_refused :
  (forall n, In n (db Scenario.empty) -> domain n <> cleanDomain "a.example")
  /\ fst (checkNodeHealth Outage.typed (cleanDomain "a.example") Scenario.empty)
     = Ret true
  /\ info_of Outage.typed (cleanDomain "a.example") ?. "open_registration"
     = VBool true
  /\ announce (Flags.world_of Outage.typed) Scenario.registration Scenario.empty
     = (Ret (reply_error 500 "internal server error"),
        {| db := [];
           requests := ["https://a.example/healthz";
                        "https://a.example/api/nodeinfo"] |})
  /\ exists row,
       announce (Flags.world_of Flags.p2p) Scenario.registration Scenario.empty
       = (Ret (reply_registered "id-a" "a.example" "T"),
          {| db := [row];
             requests := ["https://a.example/healthz";
                          "https://a.example/api/nodeinfo"] |})
       /\ p2p_enabled row = VNum 1
       /\ open_registration row = VNum 1.
Proof.
  split; [intros n [] |]. split; [reflexivity |]. split; [reflexivity |].
  split; [reflexivity |]. eexists.
  split; [vm_compute; reflexivity |]. split; reflexivity.
Qed.

(** The test of the step for an unreachable node, on a table that holds a
    record with the node's id. *)
Lemma failed_probe_deletes now node tbl :
  existsb (has_id (id node)) tbl = true ->
  existsb (has_id (id node)) (after_failed_probe now node tbl) = false
  <-> exists down, down_since node = Some down
                   /\ 48 * 60 * 60 * 1000 <= now - down * 1000.
Proof.
  intro Hhere.
  assert (Hmarked : forall b : bool,
            existsb (has_id (id node))
              (if b then update_offline now (id node) tbl else tbl) = true).
  { intros []; [rewrite has_id_update_offline |]; exact Hhere. }
  unfold after_failed_probe.
  destruct (down_since node) as [down |].
  - destruct (Qle_bool _ _) eqn:E.
    + rewrite has_id_delete. split; [| reflexivity].
      intros _. exists down. split; [reflexivity | now apply threshold_ms].
    + rewrite Hmarked. split; [discriminate |].
      intros (down' & [= <-] & Hle). apply threshold_ms in Hle. congruence.
  - rewrite Hmarked. split; [discriminate |]. intros (down' & [=] & _).
Qed.

Lemma has_id_delete_other i j tbl :
  i <> j -> existsb (has_id i) (delete_by_id j tbl) = existsb (has_id i) tbl.
Proof.
  intro Hij. unfold delete_by_id, has_id.
  induction tbl as [| n rest IH]; simpl; [reflexivity |].
  destruct (String.eqb_spec (id n) j) as [-> | Hn]; simpl.
  - rewrite IH. apply String.eqb_neq in Hij. rewrite String.eqb_sym in Hij.
    now rewrite Hij.
  - now rewrite IH.
Qed.

Lemma has_id_update_online i now a1 a2 a3 a4 a5 a6 a7 j tbl tbl' :
  update_online now a1 a2 a3 a4 a5 a6 a7 j tbl = Ret tbl' ->
  existsb (has_id i) tbl' = existsb (has_id i) tbl.
Proof.
  unfold update_online. destruct (forallb _ _); [| discriminate].
  intros [= <-]. induction tbl as [| n rest IH]; simpl; [reflexivity |].
  rewrite IH. now destruct (id n =? j)%string.
Qed.

(** The step for one record leaves the records with another id in place. *)
Lemma checkOne_other net now node s i :
  i <> id node ->
  existsb (has_id i) (db (snd (checkOne net now node s)))
  = existsb (has_id i) (db s).
Proof.
  intro Hi. destruct (health_of net (domain node)) eqn:H.
  - rewrite (checkOne_reachable _ _ _ _ H).
    destruct (refresh _ _ _ _) as [t | e] eqn:R; simpl; [| reflexivity].
    unfold refresh in R. eapply has_id_update_online; exact R.
  - rewrite (checkOne_unreachable _ _ _ _ H). simpl.
    unfold after_failed_probe.
    assert (Hmarked : forall b : bool,
              existsb (has_id i)
                (if b then update_offline now (id node) (db s) else db s)
              = existsb (has_id i) (db s)).
    { intros []; [apply has_id_update_offline | reflexivity]. }
    destruct (down_since node); [| apply Hmarked].
    destruct (Qle_bool _ _); [| apply Hmarked].
    rewrite has_id_delete_other by exact Hi. apply Hmarked.
Qed.

(** The loop over a list in two parts. *)
Lemma checkFrom_app net clock i pre post s :
  checkFrom net clock i (List.app pre post) s
  = match checkFrom net clock i pre s with
    | (Ret _, s1) => checkFrom net clock (i + List.length pre) post s1
    | (Throw e, s1) => (Throw e, s1)
    end.
Proof.
  revert i s. induction pre as [| n rest IH]; intros i s; simpl.
  - now rewrite Nat.add_0_r.
  - unfold bind.
    destruct (checkOne net (clock i) n s) as [[[] | e] s1]; [| reflexivity].
    rewrite IH. now rewrite Nat.add_succ_r.
Qed.

(** Every step of the loop starts with the health probe of its record. *)
Lemma checkOne_requests net now node s :
  exists urls,
    requests (snd (checkOne net now node s))
    = List.app (requests s) (List.app (health_urls net (domain node)) urls).
Proof.
  destruct (health_of net (domain node)) eqn:H.
  - rewrite (checkOne_reachable _ _ _ _ H).
    exists (info_urls net (domain node)).
    destruct (refresh _ _ _ _); reflexivity.
  - rewrite (checkOne_unreachable _ _ _ _ H).
    exists []. simpl. now rewrite app_nil_r.
Qed.

Lemma checkFrom_requests_grow net clock i nodes s :
  exists urls,
    requests (snd (checkFrom net clock i nodes s)) = List.app (requests s) urls.
Proof.
  revert i s. induction nodes as [| n rest IH]; intros i s; simpl.
  - exists []. now rewrite app_nil_r.
  - unfold bind.
    destruct (checkOne_requests net (clock i) n s) as (u1 & E1).
    destruct (checkOne net (clock i) n s) as [[[] | e] s1]; simpl in *.
    + destruct (IH (S i) s1) as (u2 & E2). rewrite E2, E1.
      eexists. now rewrite <- !app_assoc.
    + rewrite E1. eexists. reflexivity.
Qed.

(** A cycle that returns has probed every record it read. *)
Lemma checkFrom_probes_all net clock i nodes s s' :
  checkFrom net clock i nodes s = (Ret tt, s') ->
  forall n u, In n nodes -> In u (health_urls net (domain n)) -> In u (requests s').
Proof.
  revert i s. induction nodes as [| n0 rest IH]; intros i s Hrun n u Hn Hu.
  - destruct Hn.
  - simpl in Hrun. unfold bind in Hrun.
    destruct (checkOne_requests net (clock i) n0 s) as (u1 & E1).
    destruct (checkOne net (clock i) n0 s) as [[[] | e] s1] eqn:E; [| discriminate].
    simpl in E1. destruct Hn as [<- | Hn].
    + destruct (checkFrom_requests_grow net clock (S i) rest s1) as (u2 & E2).
      rewrite Hrun in E2; simpl in E2. rewrite E2, E1.
      rewrite !in_app_iff. auto.
    + eapply IH; eauto.
Qed.

Lemma runHealthChecks_run net clock s :
  runHealthChecks net clock s = checkFrom net clock 0 (db s) s.
Proof. reflexivity. Qed.

Lemma checkFrom_other net clock k nodes s i :
  (forall n, In n nodes -> i <> id n) ->
  existsb (has_id i) (db (snd (checkFrom net clock k nodes s)))
  = existsb (has_id i) (db s).
Proof.
  revert k s. induction nodes as [| n rest IH]; intros k s Hall; simpl.
  - reflexivity.
  - unfold bind.
    pose proof (checkOne_other net (clock k) n s i (Hall n (or_introl eq_refl))) as H1.
    destruct (checkOne net (clock k) n s) as [[[] | e] s1]; simpl in *.
    + rewrite IH; [exact H1 |]. intros; apply Hall; now right.
    + exact H1.
Qed.

Lemma NoDup_ids_split (pre : list node) node post :
  NoDup (map id (List.app pre (node :: post))) ->
  (forall n, In n pre -> id node <> id n)
  /\ (forall n, In n post -> id node <> id n).
Proof.
  rewrite map_app. simpl. intro H. apply NoDup_remove_2 in H.
  rewrite in_app_iff in H.
  split; intros n Hn E; apply H; [left | right]; rewrite E; now apply in_map.
Qed.

(** C2. In a cycle of health checks that returns, on a table with distinct
    ids, for a record whose probe returns false: at the end of the cycle no
    record with its id is present if and only if the [down_since] it had
    when the cycle read the table is set and lies at least 48 hours before
    the instant at which the record is handled. So the record is deleted
    when that is exactly 48 h ago, kept when it is 47 h 59 min ago, and kept
    when it is (consistently) online at the start of the cycle and only now
    goes offline. *)
Theorem C2_eviction_rule
    (net : network) (clock : nat -> Z) (pre : list node) (node : Db.node)
    (post : list Db.node) (s s' : sys) :
  db s = List.app pre (node :: post) ->
  NoDup (map id (db s)) ->
  runHealthChecks net clock s = (Ret tt, s') ->
  fst (checkNodeHealth net (domain node) s) = Ret false ->
  let now := clock (List.length pre) in
  let present := existsb (has_id (id node)) (db s') in
  (present = false <->
      exists down, down_since node = Some down
                   /\ 48 * 60 * 60 * 1000 <= now - down * 1000)
  /\ (forall down, down_since node = Some down ->
        now - down * 1000 = 48 * 60 * 60 * 1000 -> present = false)
  /\ (forall down, down_since node = Some down ->
        now - down * 1000 = (47 * 60 + 59) * 60 * 1000 -> present = true)
  /\ (consistent node -> is_online node <> 0 -> present = true).
Proof.
  intros Hdb Hids Hrun Hprobe now present.
  rewrite checkNodeHealth_run in Hprobe. injection Hprobe as Hprobe.
  rewrite Hdb in Hids. destruct (NoDup_ids_split _ _ _ Hids) as [Hpre Hpost].
  (* the cycle, cut at the record *)
  rewrite runHealthChecks_run, Hdb, checkFrom_app in Hrun.
  pose proof (checkFrom_other net clock 0 pre s (id node) Hpre) as Hbefore.
  destruct (checkFrom net clock 0 pre s) as [[[] | e] s1]; [| discriminate].
  simpl in Hrun, Hbefore. unfold bind in Hrun.
  rewrite (checkOne_unreachable _ _ _ _ Hprobe) in Hrun.
  pose proof (checkFrom_other net clock (S (List.length pre)) post
                {| db := after_failed_probe now node (db s1);
                   requests := List.app (requests s1)
                                 (health_urls net (domain node)) |}
                (id node) Hpost) as Hafter.
  fold now in Hrun. rewrite Hrun in Hafter. simpl in Hafter.
  (* the record is in the table when the cycle reaches it *)
  assert (Hhere : existsb (has_id (id node)) (db s1) = true).
  { rewrite Hbefore, Hdb. apply has_id_in. apply in_elt. }
  assert (Hiff : present = false <->
                 exists down, down_since node = Some down
                              /\ 48 * 60 * 60 * 1000 <= now - down * 1000).
  { unfold present. rewrite Hafter. now apply failed_probe_deletes. }
  split; [exact Hiff |]. split; [| split].
  - intros down Hd Hexact. apply Hiff. exists down; split; [exact Hd | lia].
  - intros down Hd Hshort. apply not_false_is_true. intro E.
    apply Hiff in E. destruct E as (down' & Hd' & Hle).
    rewrite Hd in Hd'. injection Hd' as <-. lia.
  - intros Hcons Hon. apply not_false_is_true. intro E.
    apply Hiff in E. destruct E as (down & Hd & _).
    apply Hon. apply Hcons. congruence.
Qed.

Lemma C2_eviction_rule_witness :
  db Outage.table_down = List.app [] (Outage.row_down :: [])
  /\ NoDup (map id (db Outage.table_down))
  /\ runHealthChecks Outage.dead (fun _ => Outage.at_48h) Outage.table_down
     = (Ret tt, {| db := [];
                   requests := ["https://a.example/healthz"; "http://a.example/healthz"] |})
  /\ fst (checkNodeHealth Outage.dead (domain Outage.row_down) Outage.table_down)
     = Ret false
  /\ existsb (has_id (id Outage.row_down)) [] = false.
Proof.
  assert (Hids : NoDup (map id (db Outage.table_down))).
  { constructor; [intros [] | constructor]. }
  split; [reflexivity |]. split; [exact Hids |].
  split; [reflexivity |]. split; [reflexivity |].
  exact (proj1 (proj2
           (C2_eviction_rule Outage.dead (fun _ => Outage.at_48h) []
              Outage.row_down [] Outage.table_down
              {| db := [];
                 requests := ["https://a.example/healthz"; "http://a.example/healthz"] |}
              eq_refl Hids eq_refl eq_refl))
           1700000300 eq_refl eq_refl).
Defined.

(** C3, refuted as stated: with two reachable nodes in the table, the first
    of which reports a JSON boolean in its info, the UPDATE of the first
    record throws a TypeError (the driver binds no boolean), nothing catches
    it, and the cycle ends: the table is as before and no request was made
    to b.example, although it is in the table and reachable. *)
Lemma C3_exception_ends_the_cycle :
  runHealthChecks Outage.typed Outage.later Outage.two
  = (Throw TypeError,
     {| db := [Scenario.row_a; Outage.row_b];
        requests := ["https://a.example/healthz"; "https://a.example/api/nodeinfo"] |})
  /\ In Outage.row_b (db Outage.two)
  /\ health_of Outage.typed (domain Outage.row_b) = true.
Proof. split; [reflexivity |]. split; [right; now left | reflexivity]. Qed.

(** C3 as amended. In a cycle that has reached a record (the records before
    it in the table were processed without an exception): the record is
    probed; if its probe fails, its step returns; if its step returns, the
    cycle goes on with the records after it; if its step throws (which only
    the UPDATE of a reachable record does, on a value of the info that the
    driver cannot bind), the exception is not caught and ends the cycle in
    the state reached, the records after it being left out. A cycle that
    returns has probed every record of the table. *)
Theorem C3_cycle_stops_only_on_exception
    (net : network) (clock : nat -> Z) (pre : list node) (node : Db.node)
    (post : list Db.node) (s s1 : sys) :
  db s = List.app pre (node :: post) ->
  checkFrom net clock 0 pre s = (Ret tt, s1) ->
  let step := checkOne net (clock (List.length pre)) node s1 in
  (exists urls,
      requests (snd step)
      = List.app (requests s1) (List.app (health_urls net (domain node)) urls))
  /\ (health_of net (domain node) = false -> fst step = Ret tt)
  /\ (fst step = Ret tt ->
      runHealthChecks net clock s
      = checkFrom net clock (S (List.length pre)) post (snd step))
  /\ (forall e, fst step = Throw e ->
      runHealthChecks net clock s = (Throw e, snd step)
      /\ health_of net (domain node) = true
      /\ refresh (clock (List.length pre)) (info_of net (domain node)) node (db s1)
         = Throw e)
  /\ (forall s', runHealthChecks net clock s = (Ret tt, s') ->
      forall n u, In n (db s) -> In u (health_urls net (domain n)) ->
                  In u (requests s')).
Proof.
  intros Hdb Hpre step.
  assert (Hcycle : runHealthChecks net clock s
                   = match step with
                     | (Ret _, s2) => checkFrom net clock (S (List.length pre)) post s2
                     | (Throw e, s2) => (Throw e, s2)
                     end).
  { rewrite runHealthChecks_run, Hdb, checkFrom_app, Hpre. simpl.
    unfold bind. fold step. now destruct step as [[[] | e] s2]. }
  split; [apply checkOne_requests |]. split; [| split; [| split]].
  - intro H. unfold step. now rewrite (checkOne_unreachable _ _ _ _ H).
  - intro H. rewrite Hcycle. destruct step as [[[] | e] s2]; [reflexivity | discriminate].
  - intros e H. split.
    + rewrite Hcycle. destruct step as [[[] | e'] s2]; [discriminate |].
      simpl in H. now injection H as ->.
    + unfold step in H.
      destruct (health_of net (domain node)) eqn:Hh.
      * split; [reflexivity |].
        rewrite (checkOne_reachable _ _ _ _ Hh) in H.
        destruct (refresh _ _ _ _) as [t | e']; simpl in H; [discriminate |].
        now injection H as ->.
      * rewrite (checkOne_unreachable _ _ _ _ Hh) in H. discriminate.
  - intros s' Hrun. rewrite runHealthChecks_run in Hrun.
    eapply checkFrom_probes_all; eauto.
Qed.

Lemma C3_cycle_stops_only_on_exception_witness :
  db Outage.two = List.app [] (Scenario.row_a :: [Outage.row_b])
  /\ checkFrom Outage.dead Outage.later 0 [] Outage.two = (Ret tt, Outage.two)
  /\ runHealthChecks Outage.dead Outage.later Outage.two
     = checkFrom Outage.dead Outage.later 1 [Outage.row_b]
         (snd (checkOne Outage.dead (Outage.later 0%nat) Scenario.row_a Outage.two)).
Proof.
  split; [reflexivity |]. split; [reflexivity |].
  exact (proj1 (proj2 (proj2
           (C3_cycle_stops_only_on_exception Outage.dead Outage.later []
              Scenario.row_a [Outage.row_b] Outage.two Outage.two
              eq_refl eq_refl)))
           eq_refl).
Defined.

(* ================================================================== *)
(** ** The invariant on [is_online] and [down_since] *)
(* ================================================================== *)

Definition table_consistent (s : sys) : Prop := Forall consistent (db s).

(** A computation that keeps the table consistent, whether it returns or
    throws. *)
Definition preserves {A} (m : M sys A) : Prop :=
  forall s, table_consistent s -> table_consistent (snd (m s)).

Section Preservation.

Lemma preserves_ret {A} (a : A) : preserves (ret a).
Proof. intros s H; exact H. Qed.

Lemma preserves_bind {A B} (m : M sys A) (k : A -> M sys B) :
  preserves m -> (forall a, preserves (k a)) -> preserves (bind m k).
Proof.
  intros Hm Hk s H. unfold bind. specialize (Hm s H).
  destruct (m s) as [[a | e] s1]; simpl in *; [now apply Hk | exact Hm].
Qed.

Lemma preserves_try_catch {A} (m : M sys A) (h : exn -> M sys A) :
  preserves m -> (forall e, preserves (h e)) -> preserves (try_catch m h).
Proof.
  intros Hm Hh s H. unfold try_catch. specialize (Hm s H).
  destruct (m s) as [[a | e] s1]; simpl in *; [exact Hm | now apply Hh].
Qed.

Lemma preserves_query {A} (q : table -> A) : preserves (query q).
Proof. intros s H; exact H. Qed.

Lemma preserves_query_checked {A} (q : table -> result A) : preserves (query_checked q).
Proof. intros s H; exact H. Qed.

Lemma preserves_run (stmt : table -> result table) :
  (forall tbl tbl', Forall consistent tbl -> stmt tbl = Ret tbl' ->
                    Forall consistent tbl') ->
  preserves (run stmt).
Proof.
  intros Hs s H. unfold run.
  destruct (stmt (db s)) as [t | e] eqn:E; simpl; [| exact H].
  exact (Hs _ _ H E).
Qed.

Lemma preserves_checkNodeHealth net domain : preserves (checkNodeHealth net domain).
Proof. intros s H. now rewrite checkNodeHealth_run. Qed.

Lemma preserves_fetchNodeInfo net domain : preserves (fetchNodeInfo net domain).
Proof. intros s H. now rewrite fetchNodeInfo_run. Qed.

Lemma Forall_map_if {A} (P : A -> Prop) (c : A -> bool) (f : A -> A) (l : list A) :
  (forall x, c x = true -> P (f x)) ->
  Forall P l -> Forall P (map (fun x => if c x then f x else x) l).
Proof.
  intros Hf H. induction H as [| x rest Hx _ IH]; simpl; constructor; auto.
  destruct (c x) eqn:E; auto.
Qed.

Lemma consistent_online n : is_online n = 1 -> down_since n = None -> consistent n.
Proof. unfold consistent. intros -> ->. split; [congruence | discriminate]. Qed.

Lemma consistent_offline n t : is_online n = 0 -> down_since n = Some t -> consistent n.
Proof. unfold consistent. intros -> ->. split; [reflexivity | discriminate]. Qed.

Lemma update_heartbeat_consistent now a1 a2 a3 a4 a5 a6 a7 a8 t tbl tbl' :
  Forall consistent tbl ->
  update_heartbeat now a1 a2 a3 a4 a5 a6 a7 a8 t tbl = Ret tbl' ->
  Forall consistent tbl'.
Proof.
  unfold update_heartbeat. intro H. destruct (forallb _ _); [| discriminate].
  intros [= <-]. apply Forall_map_if; [| exact H].
  intros n _. now apply consistent_online.
Qed.

Lemma insert_node_consistent now i d a1 a2 a3 a4 a5 a6 a7 a8 t tbl tbl' :
  Forall consistent tbl ->
  insert_node now i d a1 a2 a3 a4 a5 a6 a7 a8 t tbl = Ret tbl' ->
  Forall consistent tbl'.
Proof.
  unfold insert_node. intro H. destruct (forallb _ _); [| discriminate].
  destruct (existsb _ _); [discriminate |].
  intros [= <-]. apply Forall_app; split; [exact H |].
  constructor; [| constructor]. now apply consistent_online.
Qed.

Lemma update_online_consistent now a1 a2 a3 a4 a5 a6 a7 i tbl tbl' :
  Forall consistent tbl ->
  update_online now a1 a2 a3 a4 a5 a6 a7 i tbl = Ret tbl' ->
  Forall consistent tbl'.
Proof.
  unfold update_online. intro H. destruct (forallb _ _); [| discriminate].
  intros [= <-].
  apply (Forall_map_if consistent (fun n => (id n =? i)%string)); [| exact H].
  intros n _. now apply consistent_online.
Qed.

Lemma update_offline_consistent now i tbl :
  Forall consistent tbl -> Forall consistent (update_offline now i tbl).
Proof.
  intro H. unfold update_offline.
  apply (Forall_map_if consistent (fun n => (id n =? i)%string)); [| exact H].
  intros n _. now apply (consistent_offline _ (datetime now)).
Qed.

Lemma delete_by_id_consistent i tbl :
  Forall consistent tbl -> Forall consistent (delete_by_id i tbl).
Proof.
  intro H. unfold delete_by_id. apply Forall_forall. intros n Hn.
  apply filter_In in Hn. destruct Hn as [Hn _].
  now apply (proj1 (Forall_forall _ _) H).
Qed.

Lemma preserves_heartbeat w clean a b c t : preserves (heartbeat w clean a b c t).
Proof.
  unfold heartbeat. apply preserves_bind; [apply preserves_query_checked |].
  intros [node |]; [| apply preserves_ret].
  destruct (negb _); [apply preserves_ret |].
  apply preserves_bind; [apply preserves_fetchNodeInfo |]. intro info.
  apply preserves_bind; [| intro; apply preserves_ret].
  apply preserves_run. intros tbl tbl'. apply update_heartbeat_consistent.
Qed.

Lemma preserves_register w clean a b c : preserves (register w clean a b c).
Proof.
  unfold register. apply preserves_bind; [apply preserves_query |].
  intros [existing |]; [apply preserves_ret |].
  apply preserves_bind; [apply preserves_checkNodeHealth |]. intro isHealthy.
  destruct (negb isHealthy); [apply preserves_ret |].
  apply preserves_bind; [apply preserves_fetchNodeInfo |]. intro info.
  apply preserves_bind; [| intro; apply preserves_ret].
  apply preserves_run. intros tbl tbl'. apply insert_node_consistent.
Qed.

Lemma preserves_throw {A} (e : exn) : preserves (@throw sys A e).
Proof. intros s H; exact H. Qed.

Lemma preserves_announce w req : preserves (announce w req).
Proof.
  unfold announce.
  destruct (nullish req); [apply preserves_throw |].
  destruct (prop req "domain"); try apply preserves_ret.
  destruct (s =? "")%string; [apply preserves_ret |].
  apply preserves_try_catch; [| intro; apply preserves_ret].
  destruct (truthy _); [apply preserves_heartbeat | apply preserves_register].
Qed.

Lemma preserves_deleteNode authorization a_domain :
  preserves (deleteNode authorization a_domain).
Proof.
  unfold deleteNode.
  destruct authorization as [h |]; [| apply preserves_ret].
  destruct (replace_first "Bearer " "" h); [apply preserves_ret |].
  apply preserves_bind; [apply preserves_query |].
  intros [node |]; [| apply preserves_ret].
  apply preserves_bind; [| intro; apply preserves_ret].
  apply preserves_run. intros tbl tbl' H [= <-]. now apply delete_by_id_consistent.
Qed.

Lemma preserves_checkOne net now node : preserves (checkOne net now node).
Proof.
  unfold checkOne.
  apply preserves_bind; [apply preserves_checkNodeHealth |]. intros [|].
  - apply preserves_bind; [apply preserves_fetchNodeInfo |]. intro info.
    apply preserves_run. intros tbl tbl'. apply update_online_consistent.
  - apply preserves_bind.
    + destruct (negb _); [| apply preserves_ret].
      apply preserves_run. intros tbl tbl' H [= <-].
      now apply update_offline_consistent.
    + intros _. destruct (down_since node); [| apply preserves_ret].
      destruct (Qle_bool _ _); [| apply preserves_ret].
      apply preserves_run. intros tbl tbl' H [= <-].
      now apply delete_by_id_consistent.
Qed.

Lemma preserves_checkFrom net clock i nodes : preserves (checkFrom net clock i nodes).
Proof.
  revert i. induction nodes as [| n rest IH]; intro i; simpl.
  - apply preserves_ret.
  - apply preserves_bind; [apply preserves_checkOne | intro; apply IH].
Qed.

Lemma preserves_runHealthChecks net clock : preserves (runHealthChecks net clock).
Proof.
  unfold runHealthChecks. apply preserves_bind; [apply preserves_query |].
  intro nodes. apply preserves_checkFrom.
Qed.

End Preservation.

(** The operations that write to the table. *)
Inductive operation : Type :=
| Announce (w : env) (req : value)
| Delete (authorization : option string) (a_domain : string)
| HealthChecks (net : network) (clock : nat -> Z).

(** The state an operation leaves, whatever it answers. *)
Definition exec (o : operation) (s : sys) : sys :=
  match o with
  | Announce w req => snd (announce w req s)
  | Delete authorization a_domain => snd (deleteNode authorization a_domain s)
  | HealthChecks net clock => snd (runHealthChecks net clock s)
  end.

(** C4. Every operation that writes (an announce, be it a registration or a
    heartbeat or a refused one; a deletion; a cycle of health checks, with
    its updates and evictions, completed or cut short) leaves every record
    with [down_since] non-null if and only if [is_online] is 0, provided
    the records were so before. *)
Theorem C4_operations_keep_consistency (o : operation) (s : sys) :
  Forall consistent (db s) -> Forall consistent (db (exec o s)).
Proof.
  intro H. destruct o as [w req | authorization a_domain | net clock]; simpl.
  - now apply preserves_announce.
  - now apply preserves_deleteNode.
  - now apply preserves_runHealthChecks.
Qed.

(** Hence every table reached from the empty one is consistent. *)
Corollary reachable_consistent (ops : list operation) :
  table_consistent (fold_left (fun s o => exec o s) ops Scenario.empty).
Proof.
  assert (H : forall s, table_consistent s ->
                        table_consistent (fold_left (fun s o => exec o s) ops s)).
  { induction ops as [| o rest IH]; intros s Hs; simpl; [exact Hs |].
    apply IH. destruct o; simpl.
    - now apply preserves_announce.
    - now apply preserves_deleteNode.
    - now apply preserves_runHealthChecks. }
  apply H. constructor.
Qed.

Lemma C4_operations_keep_consistency_witness :
  Forall consistent (db Outage.two)
  /\ Forall consistent
       (db (exec (HealthChecks Outage.dead Outage.later) Outage.two)).
Proof.
  assert (H : Forall consistent (db Outage.two)).
  { constructor; [now apply consistent_online |].
    constructor; [now apply consistent_online | constructor]. }
  split; [exact H |].
  exact (C4_operations_keep_consistency
           (HealthChecks Outage.dead Outage.later) Outage.two H).
Defined.

(* ================================================================== *)
(** * Further properties of the code *)
(* ================================================================== *)

(* ================================================================== *)
(** ** Normalisation of the domain *)
(* ================================================================== *)

Lemma strip_trailing_slash_added d : strip_trailing_slash (d ++ "/") = d.
Proof.
  induction d as [| c rest IH]; [reflexivity |].
  change ((String c rest) ++ "/") with (String c (rest ++ "/")).
  destruct rest as [| c' rest'].
  - reflexivity.
  - change (strip_trailing_slash (String c (String c' rest' ++ "/")))
      with (String c (strip_trailing_slash (String c' rest' ++ "/"))).
    now rewrite IH.
Qed.

Lemma strip_trailing_slash_none d :
  (forall x, d <> x ++ "/") -> strip_trailing_slash d = d.
Proof.
  induction d as [| c rest IH]; intro H; [reflexivity |].
  destruct rest as [| c' rest'].
  - simpl. destruct (Ascii.eqb_spec c "/") as [-> | Hc]; [| reflexivity].
    now destruct (H "").
  - change (strip_trailing_slash (String c (String c' rest')))
      with (String c (strip_trailing_slash (String c' rest'))).
    rewrite IH; [reflexivity |].
    intros x E. apply (H (String c x)). simpl. now rewrite E.
Qed.

Lemma prefix_append p s : String.prefix p (p ++ s) = true.
Proof.
  induction p as [| c rest IH]; simpl.
  - now destruct s.
  - destruct (ascii_dec c c) as [_ | N]; [exact IH | now destruct N].
Qed.

Lemma strip_scheme_https x : strip_scheme ("https://" ++ x) = x.
Proof. unfold strip_scheme. now rewrite prefix_append. Qed.

Lemma strip_scheme_http x : strip_scheme ("http://" ++ x) = x.
Proof.
  unfold strip_scheme. rewrite (prefix_append "http://" x).
  replace (String.prefix "https://" ("http://" ++ x)) with false; reflexivity.
Qed.

(** X1. A domain written as a URL, with either scheme in front and a slash
    behind, is normalised to the domain itself; a domain with no scheme in
    front and no slash at its end is left as it is. *)
Theorem cleanDomain_of_url (d : string) :
  cleanDomain ("https://" ++ d ++ "/") = d
  /\ cleanDomain ("http://" ++ d ++ "/") = d
  /\ (startsWith d "https://" = false -> startsWith d "http://" = false ->
      (forall x, d <> x ++ "/") -> cleanDomain d = d).
Proof.
  unfold cleanDomain. split; [| split].
  - rewrite strip_scheme_https. apply strip_trailing_slash_added.
  - rewrite strip_scheme_http. apply strip_trailing_slash_added.
  - unfold startsWith, strip_scheme. intros -> -> H.
    now apply strip_trailing_slash_none.
Qed.

Lemma cleanDomain_of_url_witness :
  startsWith "a.example" "https://" = false
  /\ startsWith "a.example" "http://" = false
  /\ (forall x, "a.example" <> x ++ "/")
  /\ cleanDomain "a.example" = "a.example".
Proof.
  assert (H : forall x, "a.example" <> x ++ "/").
  { intros x E.
    do 9 (destruct x as [| ? x]; [discriminate E | injection E as _ E]).
    destruct x; discriminate E. }
  split; [reflexivity |]. split; [reflexivity |]. split; [exact H |].
  exact (proj2 (proj2 (cleanDomain_of_url "a.example")) eq_refl eq_refl H).
Defined.

(** X2. An announce depends on the domain it is given only through its
    normal form: two requests that differ in the spelling of the domain
    (say, with and without scheme) are answered alike and leave the same
    state. *)
Theorem announce_by_normal_form (w : env) (d1 d2 : string)
    (others : list (string * value)) (s : sys) :
  d1 <> "" -> d2 <> "" -> cleanDomain d1 = cleanDomain d2 ->
  announce w (VObj (("domain", VStr d1) :: others)) s
  = announce w (VObj (("domain", VStr d2) :: others)) s.
Proof.
  intros H1 H2 E.
  rewrite (announce_valid w (VObj (("domain", VStr d1) :: others)) d1 s eq_refl H1).
  rewrite (announce_valid w (VObj (("domain", VStr d2) :: others)) d2 s eq_refl H2).
  rewrite E. reflexivity.
Qed.

Lemma announce_by_normal_form_witness :
  "https://a.example/" <> "" /\ "a.example" <> ""
  /\ cleanDomain "https://a.example/" = cleanDomain "a.example"
  /\ announce Scenario.world
       (VObj (("domain", VStr "https://a.example/") :: [("token", VStr "T")]))
       Scenario.registered
     = announce Scenario.world
         (VObj (("domain", VStr "a.example") :: [("token", VStr "T")]))
         Scenario.registered.
Proof.
  split; [discriminate |]. split; [discriminate |]. split; [reflexivity |].
  apply (announce_by_normal_form Scenario.world "https://a.example/" "a.example"
           [("token", VStr "T")] Scenario.registered);
    [discriminate | discriminate | reflexivity].
Defined.

(* ================================================================== *)
(** ** What an announce can answer *)
(* ================================================================== *)

Lemma heartbeat_outcome w clean a b c t s :
  match heartbeat w clean a b c t s with
  | (Ret r, s') =>
      status r = 200 \/ ((status r = 401 \/ status r = 403) /\ db s' = db s)
  | (Throw _, s') => db s' = db s
  end.
Proof.
  unfold heartbeat. unfold bind at 1. unfold query_checked.
  destruct (select_by_token t (db s)) as [[node |] | e]; simpl; auto.
  destruct (negb (domain node =? clean)%string); simpl; auto.
  rewrite (bind_run _ _ _ _ _ (fetchNodeInfo_run _ _ _)).
  unfold bind, run. rewrite logged_db.
  destruct (update_heartbeat _ _ _ _ _ _ _ _ _ _ _); simpl; auto.
Qed.

Lemma register_outcome w clean a b c s :
  match register w clean a b c s with
  | (Ret r, s') =>
      status r = 201 \/ ((status r = 409 \/ status r = 422) /\ db s' = db s)
  | (Throw _, s') => db s' = db s
  end.
Proof.
  unfold register. rewrite (bind_run _ _ _ _ _ (query_run _ _)).
  destruct (select_by_domain clean (db s)); simpl; auto.
  rewrite (bind_run _ _ _ _ _ (checkNodeHealth_run _ _ _)).
  destruct (health_of (net w) clean); simpl; auto.
  rewrite (bind_run _ _ _ _ _ (fetchNodeInfo_run _ _ _)).
  unfold bind, run. rewrite !logged_db.
  destruct (insert_node _ _ _ _ _ _ _ _ _ _ _ _ _); simpl; auto.
Qed.

(** X3. Whatever object it is sent and whatever the network and the store
    do, POST /api/announce does not throw: it answers with one of the codes
    200, 201, 400, 401, 403, 409, 422 and 500, and unless the answer is 200
    or 201 the table is left as it was (an exception inside the handler is
    answered 500 and has written nothing). *)
Theorem announce_answers (w : env) (req : value) (s : sys) :
  nullish req = false ->
  exists r,
    fst (announce w req s) = Ret r
    /\ In (status r) [200; 201; 400; 401; 403; 409; 422; 500]
    /\ (status r <> 200 -> status r <> 201 ->
        db (snd (announce w req s)) = db s).
Proof.
  intro Hobj. unfold announce. rewrite Hobj.
  destruct (prop req "domain") as [| | | | d | |];
    try (eexists; split; [reflexivity |]; simpl; split; [tauto | reflexivity]).
  destruct (d =? "")%string;
    [eexists; split; [reflexivity |]; simpl; split; [tauto | reflexivity] |].
  unfold try_catch.
  destruct (truthy (prop req "token")).
  - pose proof (heartbeat_outcome w (cleanDomain d) (prop req "name")
                  (prop req "description") (prop req "version")
                  (prop req "token") s) as H.
    destruct (heartbeat _ _ _ _ _ _ s) as [[r | e] s'].
    + exists r. split; [reflexivity |]. simpl.
      destruct H as [H | [[H | H] E]]; rewrite H; split; try tauto;
        intros; try exact E; congruence.
    + eexists; split; [reflexivity |]. simpl. split; [tauto | intros; exact H].
  - pose proof (register_outcome w (cleanDomain d) (prop req "name")
                  (prop req "description") (prop req "version") s) as H.
    destruct (register _ _ _ _ _ s) as [[r | e] s'].
    + exists r. split; [reflexivity |]. simpl.
      destruct H as [H | [[H | H] E]]; rewrite H; split; try tauto;
        intros; try exact E; congruence.
    + eexists; split; [reflexivity |]. simpl. split; [tauto | intros; exact H].
Qed.

Lemma announce_answers_witness :
  nullish (VObj [("domain", VNum 7)]) = false
  /\ exists r,
       fst (announce Scenario.world (VObj [("domain", VNum 7)]) Scenario.registered)
       = Ret r
       /\ In (status r) [200; 201; 400; 401; 403; 409; 422; 500]
       /\ (status r <> 200 -> status r <> 201 ->
           db (snd (announce Scenario.world (VObj [("domain", VNum 7)])
                      Scenario.registered))
           = db Scenario.registered).
Proof.
  split; [reflexivity |].
  exact (announce_answers Scenario.world (VObj [("domain", VNum 7)])
           Scenario.registered eq_refl).
Defined.

(** X4. A registration for a domain that has no record and that the health
    probe does not report reachable is refused with 422: nothing is stored,
    the node's info is not even requested, and the answer carries no
    token. *)
Theorem unreachable_not_registered (w : env) (req : value) (d : string) (s : sys) :
  prop req "domain" = VStr d -> d <> "" ->
  truthy (prop req "token") = false ->
  (forall n, In n (db s) -> domain n <> cleanDomain d) ->
  fst (checkNodeHealth (net w) (cleanDomain d) s) = Ret false ->
  exists r,
    announce w req s
    = (Ret r, {| db := db s;
                 requests := List.app (requests s)
                               (health_urls (net w) (cleanDomain d)) |})
    /\ status r = 422
    /\ prop (body r) "token" = VUndef.
Proof.
  intros Hd Hne Htok Hnew Hprobe.
  rewrite checkNodeHealth_run in Hprobe. injection Hprobe as Hprobe.
  rewrite (announce_valid _ _ _ _ Hd Hne), Htok.
  unfold try_catch, register.
  rewrite (bind_run _ _ _ _ _ (query_run _ _)).
  replace (select_by_domain (cleanDomain d) (db s)) with (@None node).
  2: { symmetry. apply find_absent. intros n Hn.
       apply String.eqb_neq. now apply Hnew. }
  rewrite (bind_run _ _ _ _ _ (checkNodeHealth_run _ _ _)), Hprobe.
  eexists. split; [reflexivity |]. split; reflexivity.
Qed.

Lemma unreachable_not_registered_witness :
  exists r,
    announce {| Server.net := Outage.dead; time := 0;
                generateToken := "T"; generateId := "id-a" |}
      Scenario.registration Scenario.empty
    = (Ret r, {| db := [];
                 requests := ["https://a.example/healthz"; "http://a.example/healthz"] |})
    /\ status r = 422
    /\ prop (body r) "token" = VUndef.
Proof.
  apply (unreachable_not_registered
           {| Server.net := Outage.dead; time := 0;
              generateToken := "T"; generateId := "id-a" |}
           Scenario.registration "a.example" Scenario.empty
           eq_refl ltac:(discriminate) eq_refl).
  - intros n [].
  - reflexivity.
Defined.

(* ================================================================== *)
(** ** Relating the table before and after an operation *)
(* ================================================================== *)

(** [m] takes every table to one that is [R]-related to it, whether it
    returns or throws. *)
Definition respects (R : table -> table -> Prop) {A} (m : M sys A) : Prop :=
  forall s, R (db s) (db (snd (m s))).

Section Respects.

Variable R : table -> table -> Prop.
Hypothesis R_refl : forall t, R t t.
Hypothesis R_trans : forall a b c, R a b -> R b c -> R a c.

Hypothesis R_update_heartbeat :
  forall now a1 a2 a3 a4 a5 a6 a7 a8 t tbl tbl',
    update_heartbeat now a1 a2 a3 a4 a5 a6 a7 a8 t tbl = Ret tbl' -> R tbl tbl'.
Hypothesis R_insert_node :
  forall now i d a1 a2 a3 a4 a5 a6 a7 a8 t tbl tbl',
    insert_node now i d a1 a2 a3 a4 a5 a6 a7 a8 t tbl = Ret tbl' -> R tbl tbl'.
Hypothesis R_update_online :
  forall now a1 a2 a3 a4 a5 a6 a7 i tbl tbl',
    update_online now a1 a2 a3 a4 a5 a6 a7 i tbl = Ret tbl' -> R tbl tbl'.
Hypothesis R_update_offline :
  forall now i tbl, R tbl (update_offline now i tbl).
Hypothesis R_delete_by_id :
  forall i tbl, R tbl (delete_by_id i tbl).

Lemma respects_ret {A} (a : A) : respects R (ret a).
Proof. intro s. apply R_refl. Qed.

Lemma respects_throw {A} (e : exn) : respects R (@throw sys A e).
Proof. intro s. apply R_refl. Qed.

Lemma respects_bind {A B} (m : M sys A) (k : A -> M sys B) :
  respects R m -> (forall a, respects R (k a)) -> respects R (bind m k).
Proof.
  intros Hm Hk s. unfold bind. specialize (Hm s).
  destruct (m s) as [[a | e] s1]; simpl in *; [| exact Hm].
  eapply R_trans; [exact Hm | apply Hk].
Qed.

Lemma respects_try_catch {A} (m : M sys A) (h : exn -> M sys A) :
  respects R m -> (forall e, respects R (h e)) -> respects R (try_catch m h).
Proof.
  intros Hm Hh s. unfold try_catch. specialize (Hm s).
  destruct (m s) as [[a | e] s1]; simpl in *; [exact Hm |].
  eapply R_trans; [exact Hm | apply Hh].
Qed.

Lemma respects_query {A} (q : table -> A) : respects R (query q).
Proof. intro s. apply R_refl. Qed.

Lemma respects_query_checked {A} (q : table -> result A) :
  respects R (query_checked q).
Proof. intro s. apply R_refl. Qed.

Lemma respects_run (stmt : table -> result table) :
  (forall tbl tbl', stmt tbl = Ret tbl' -> R tbl tbl') -> respects R (run stmt).
Proof.
  intros Hs s. unfold run.
  destruct (stmt (db s)) as [t | e] eqn:E; simpl; [| apply R_refl].
  exact (Hs _ _ E).
Qed.

Lemma respects_checkNodeHealth net domain : respects R (checkNodeHealth net domain).
Proof. intro s. rewrite checkNodeHealth_run. apply R_refl. Qed.

Lemma respects_fetchNodeInfo net domain : respects R (fetchNodeInfo net domain).
Proof. intro s. rewrite fetchNodeInfo_run. apply R_refl. Qed.

Lemma respects_announce w req : respects R (announce w req).
Proof.
  unfold announce.
  destruct (nullish req); [apply respects_throw |].
  destruct (prop req "domain"); try apply respects_ret.
  destruct (s =? "")%string; [apply respects_ret |].
  apply respects_try_catch; [| intro; apply respects_ret].
  destruct (truthy _).
  - unfold heartbeat. apply respects_bind; [apply respects_query_checked |].
    intros [node |]; [| apply respects_ret].
    destruct (negb _); [apply respects_ret |].
    apply respects_bind; [apply respects_fetchNodeInfo |]. intro info.
    apply respects_bind; [| intro; apply respects_ret].
    apply respects_run. intros tbl tbl'. apply R_update_heartbeat.
  - unfold register. apply respects_bind; [apply respects_query |].
    intros [existing |]; [apply respects_ret |].
    apply respects_bind; [apply respects_checkNodeHealth |]. intro isHealthy.
    destruct (negb isHealthy); [apply respects_ret |].
    apply respects_bind; [apply respects_fetchNodeInfo |]. intro info.
    apply respects_bind; [| intro; apply respects_ret].
    apply respects_run. intros tbl tbl'. apply R_insert_node.
Qed.

Lemma respects_deleteNode authorization a_domain :
  respects R (deleteNode authorization a_domain).
Proof.
  unfold deleteNode.
  destruct authorization as [h |]; [| apply respects_ret].
  destruct (replace_first "Bearer " "" h); [apply respects_ret |].
  apply respects_bind; [apply respects_query |].
  intros [node |]; [| apply respects_ret].
  apply respects_bind; [| intro; apply respects_ret].
  apply respects_run. intros tbl tbl' [= <-]. apply R_delete_by_id.
Qed.

Lemma respects_checkOne net now node : respects R (checkOne net now node).
Proof.
  unfold checkOne.
  apply respects_bind; [apply respects_checkNodeHealth |]. intros [|].
  - apply respects_bind; [apply respects_fetchNodeInfo |]. intro info.
    apply respects_run. intros tbl tbl'. apply R_update_online.
  - apply respects_bind.
    + destruct (negb _); [| apply respects_ret].
      apply respects_run. intros tbl tbl' [= <-]. apply R_update_offline.
    + intros _. destruct (down_since node); [| apply respects_ret].
      destruct (Qle_bool _ _); [| apply respects_ret].
      apply respects_run. intros tbl tbl' [= <-]. apply R_delete_by_id.
Qed.

Lemma respects_checkFrom net clock i nodes : respects R (checkFrom net clock i nodes).
Proof.
  revert i. induction nodes as [| n rest IH]; intro i; simpl.
  - apply respects_ret.
  - apply respects_bind; [apply respects_checkOne | intro; apply IH].
Qed.

Lemma respects_runHealthChecks net clock : respects R (runHealthChecks net clock).
Proof.
  unfold runHealthChecks. apply respects_bind; [apply respects_query |].
  intro nodes. apply respects_checkFrom.
Qed.

End Respects.

(** Rewriting some rows without touching what [f] reads. *)
Lemma map_rewritten {B} (f : node -> B) (c : node -> bool) (g : node -> node)
    (l : list node) :
  (forall n, f (g n) = f n) ->
  map f (map (fun n => if c n then g n else n) l) = map f l.
Proof.
  intro H. rewrite map_map. apply map_ext. intro n. now destruct (c n).
Qed.

(* ================================================================== *)
(** ** The keys stay unique *)
(* ================================================================== *)

(** The PRIMARY KEY and UNIQUE constraints of the schema. *)
Definition unique_keys (tbl : table) : Prop :=
  NoDup (map id tbl) /\ NoDup (map domain tbl) /\ NoDup (map token tbl).

Lemma NoDup_filter_map {B} (f : node -> B) (c : node -> bool) (l : list node) :
  NoDup (map f l) -> NoDup (map f (filter c l)).
Proof.
  induction l as [| n rest IH]; simpl; intro H; [constructor |].
  inversion H as [| x xs Hnot Hrest]; subst.
  destruct (c n); simpl; [| now apply IH].
  constructor; [| now apply IH].
  intro Hin. apply Hnot. apply in_map_iff in Hin.
  destruct Hin as (m & E & Hm). apply filter_In in Hm.
  apply in_map_iff. exists m. tauto.
Qed.

Lemma NoDup_map_snoc {B} (f : node -> B) (l : list node) (x : node) :
  NoDup (map f l) -> (forall n, In n l -> f n <> f x) ->
  NoDup (map f (List.app l [x])).
Proof.
  intros Hl Hx. rewrite map_app. simpl.
  apply NoDup_app; [exact Hl | constructor; [intros [] | constructor] |].
  intros b Hb [<- | []]. apply in_map_iff in Hb.
  destruct Hb as (n & E & Hn). now apply (Hx n Hn).
Qed.

Lemma unique_keys_rewritten (c : node -> bool) (g : node -> node) (tbl : table) :
  (forall n, id (g n) = id n) -> (forall n, domain (g n) = domain n) ->
  (forall n, token (g n) = token n) ->
  unique_keys tbl -> unique_keys (map (fun n => if c n then g n else n) tbl).
Proof.
  intros Hi Hd Ht (Ui & Ud & Ut). unfold unique_keys.
  now rewrite !map_rewritten.
Qed.

(** X5. Every operation that writes keeps the ids, the domains and the
    tokens of the table pairwise distinct: the INSERT refuses a key that is
    taken, and no UPDATE writes a key. *)
Theorem operations_keep_keys_unique (o : operation) (s : sys) :
  unique_keys (db s) -> unique_keys (db (exec o s)).
Proof.
  set (R := fun t t' : table => unique_keys t -> unique_keys t').
  assert (Hrefl : forall t, R t t) by (intros t H; exact H).
  assert (Htrans : forall a b c, R a b -> R b c -> R a c)
    by (intros a b c Hab Hbc H; auto).
  assert (Hhb : forall now a1 a2 a3 a4 a5 a6 a7 a8 t tbl tbl',
             update_heartbeat now a1 a2 a3 a4 a5 a6 a7 a8 t tbl = Ret tbl' ->
             R tbl tbl').
  { intros now a1 a2 a3 a4 a5 a6 a7 a8 t tbl tbl' E H.
    unfold update_heartbeat in E. destruct (forallb _ _); [| discriminate].
    injection E as <-. now apply unique_keys_rewritten. }
  assert (Hins : forall now i d a1 a2 a3 a4 a5 a6 a7 a8 t tbl tbl',
             insert_node now i d a1 a2 a3 a4 a5 a6 a7 a8 t tbl = Ret tbl' ->
             R tbl tbl').
  { intros now i d a1 a2 a3 a4 a5 a6 a7 a8 t tbl tbl' E (Ui & Ud & Ut).
    unfold insert_node in E. destruct (forallb _ _); [| discriminate].
    destruct (existsb _ tbl) eqn:X; [discriminate |]. injection E as <-.
    assert (Hfresh : forall n, In n tbl -> id n <> i /\ domain n <> d /\ token n <> t).
    { intros n Hn.
      pose proof (proj2 (not_true_iff_false _) X) as Hx.
      repeat split; intro E; apply Hx; apply existsb_exists; exists n;
        (split; [exact Hn |]); rewrite E, String.eqb_refl;
        rewrite ?orb_true_r; reflexivity. }
    repeat split; apply NoDup_map_snoc; auto; intros n Hn; simpl;
      now destruct (Hfresh n Hn) as (? & ? & ?). }
  assert (Hon : forall now a1 a2 a3 a4 a5 a6 a7 i tbl tbl',
             update_online now a1 a2 a3 a4 a5 a6 a7 i tbl = Ret tbl' -> R tbl tbl').
  { intros now a1 a2 a3 a4 a5 a6 a7 i tbl tbl' E H.
    unfold update_online in E. destruct (forallb _ _); [| discriminate].
    injection E as <-.
    now apply (unique_keys_rewritten (fun n => (id n =? i)%string)). }
  assert (Hoff : forall now i tbl, R tbl (update_offline now i tbl)).
  { intros now i tbl H. unfold update_offline.
    now apply (unique_keys_rewritten (fun n => (id n =? i)%string)). }
  assert (Hdel : forall i tbl, R tbl (delete_by_id i tbl)).
  { intros i tbl (Ui & Ud & Ut). unfold delete_by_id.
    repeat split; now apply NoDup_filter_map. }
  destruct o as [w req | authorization a_domain | net clock]; simpl.
  - exact (respects_announce R Hrefl Htrans Hhb Hins w req s).
  - exact (respects_deleteNode R Hrefl Htrans Hdel authorization a_domain s).
  - exact (respects_runHealthChecks R Hrefl Htrans Hon Hoff Hdel net clock s).
Qed.

Lemma operations_keep_keys_unique_witness :
  unique_keys (db Outage.two)
  /\ unique_keys (db (exec (Announce Scenario.world Scenario.heartbeat_20) Outage.two)).
Proof.
  assert (H : unique_keys (db Outage.two)).
  { repeat split; simpl;
      (constructor; [intros [E | []]; discriminate E |]);
      (constructor; [intros [] | constructor]). }
  split; [exact H |].
  exact (operations_keep_keys_unique
           (Announce Scenario.world Scenario.heartbeat_20) Outage.two H).
Defined.

(* ================================================================== *)
(** ** What a record can hold *)
(* ================================================================== *)

(** The values SQLite is handed: null, numbers and strings. *)
Definition storable (v : value) : bool :=
  match v with
  | VNull | VNum _ | VStr _ => true
  | _ => false
  end.

Definition plain (n : node) : Prop :=
  forall v, In v (p2p_enabled n :: country n :: stored_values n) ->
            storable v = true.

Lemma storable_bound v : bindable v = true -> storable (bound v) = true.
Proof. now destruct v. Qed.

Lemma storable_sql_coalesce a col :
  bindable a = true -> storable col = true -> storable (sql_coalesce a col) = true.
Proof. unfold sql_coalesce. now destruct a. Qed.

Lemma plain_written n a_name a_description a_version a_track_count a_user_count
    a_open_registration a_p2p_enabled a_p2p_node_id :
  name n = a_name -> description n = a_description -> version n = a_version ->
  track_count n = a_track_count -> user_count n = a_user_count ->
  open_registration n = a_open_registration ->
  p2p_enabled n = a_p2p_enabled -> p2p_node_id n = a_p2p_node_id ->
  storable (country n) = true ->
  forallb storable
    [a_name; a_description; a_version; a_track_count; a_user_count;
     a_open_registration; a_p2p_enabled; a_p2p_node_id] = true ->
  plain n.
Proof.
  intros <- <- <- <- <- <- <- <- Hc B v Hv.
  cbv [forallb] in B. repeat (apply andb_prop in B; destruct B as [? B]).
  unfold stored_values in Hv. simpl in Hv.
  repeat (destruct Hv as [<- | Hv]; [assumption |]). destruct Hv.
Qed.

Lemma plain_country n : plain n -> storable (country n) = true.
Proof. intro H. apply H. simpl. auto. Qed.

Lemma plain_fields n :
  plain n ->
  storable (name n) = true /\ storable (description n) = true
  /\ storable (version n) = true /\ storable (track_count n) = true
  /\ storable (user_count n) = true /\ storable (open_registration n) = true
  /\ storable (p2p_enabled n) = true /\ storable (p2p_node_id n) = true.
Proof.
  intro H. repeat split; apply H; unfold stored_values; simpl; auto 20.
Qed.

Lemma forallb_bound l :
  forallb bindable l = true -> forallb storable (map bound l) = true.
Proof.
  induction l as [| v rest IH]; simpl; [reflexivity |].
  intro H. apply andb_prop in H. destruct H as [Hv Hr].
  now rewrite (storable_bound _ Hv), IH.
Qed.

(** X6. No operation ever leaves a boolean, an array, an object or
    undefined in a record: if every record holds only nulls, numbers and
    strings, so it is after an announce, a deletion or a cycle of health
    checks. *)
Theorem operations_keep_records_plain (o : operation) (s : sys) :
  Forall plain (db s) -> Forall plain (db (exec o s)).
Proof.
  set (R := fun t t' : table => Forall plain t -> Forall plain t').
  assert (Hrefl : forall t, R t t) by (intros t H; exact H).
  assert (Htrans : forall a b c, R a b -> R b c -> R a c)
    by (intros a b c Hab Hbc H; auto).
  assert (Hmap : forall (c : node -> bool) (g : node -> node) tbl,
             (forall n, plain n -> plain (g n)) ->
             Forall plain tbl ->
             Forall plain (map (fun n => if c n then g n else n) tbl)).
  { intros c g tbl Hg H. apply Forall_forall. intros n' Hn'.
    apply in_map_iff in Hn'. destruct Hn' as (n & <- & Hn).
    pose proof (proj1 (Forall_forall _ _) H n Hn) as Hp.
    destruct (c n); auto. }
  assert (Hhb : forall now a1 a2 a3 a4 a5 a6 a7 a8 t tbl tbl',
             update_heartbeat now a1 a2 a3 a4 a5 a6 a7 a8 t tbl = Ret tbl' ->
             R tbl tbl').
  { intros now a1 a2 a3 a4 a5 a6 a7 a8 t tbl tbl' E H.
    unfold update_heartbeat in E.
    destruct (forallb _ _) eqn:B; [| discriminate]. injection E as <-.
    apply Hmap; [| exact H]. intros n Hp.
    cbv [forallb] in B. repeat (apply andb_prop in B; destruct B as [? B]).
    eapply plain_written; try reflexivity; simpl.
    - now apply plain_country.
    - now rewrite !storable_bound. }
  assert (Hins : forall now i d a1 a2 a3 a4 a5 a6 a7 a8 t tbl tbl',
             insert_node now i d a1 a2 a3 a4 a5 a6 a7 a8 t tbl = Ret tbl' ->
             R tbl tbl').
  { intros now i d a1 a2 a3 a4 a5 a6 a7 a8 t tbl tbl' E H.
    unfold insert_node in E.
    destruct (forallb _ _) eqn:B; [| discriminate].
    destruct (existsb _ tbl); [discriminate |]. injection E as <-.
    apply Forall_app. split; [exact H |]. constructor; [| constructor].
    cbv [forallb] in B. repeat (apply andb_prop in B; destruct B as [? B]).
    eapply plain_written; try reflexivity; simpl.
    now rewrite !storable_bound. }
  assert (Hon : forall now a1 a2 a3 a4 a5 a6 a7 i tbl tbl',
             update_online now a1 a2 a3 a4 a5 a6 a7 i tbl = Ret tbl' -> R tbl tbl').
  { intros now a1 a2 a3 a4 a5 a6 a7 i tbl tbl' E H.
    unfold update_online in E.
    destruct (forallb _ _) eqn:B; [| discriminate]. injection E as <-.
    apply (Hmap (fun n => (id n =? i)%string)); [| exact H]. intros n Hp.
    cbv [forallb] in B. repeat (apply andb_prop in B; destruct B as [? B]).
    destruct (plain_fields n Hp) as (S1 & S2 & S3 & S4 & S5 & S6 & S7 & S8).
    eapply plain_written; try reflexivity; simpl.
    - now apply plain_country.
    - now rewrite S2, !storable_sql_coalesce. }
  assert (Hoff : forall now i tbl, R tbl (update_offline now i tbl)).
  { intros now i tbl H. unfold update_offline.
    apply (Hmap (fun n => (id n =? i)%string)); [| exact H]. intros n Hp.
    exact Hp. }
  assert (Hdel : forall i tbl, R tbl (delete_by_id i tbl)).
  { intros i tbl H. unfold delete_by_id. apply Forall_forall. intros n Hn.
    apply filter_In in Hn. now apply (proj1 (Forall_forall _ _) H). }
  destruct o as [w req | authorization a_domain | net clock]; simpl.
  - exact (respects_announce R Hrefl Htrans Hhb Hins w req s).
  - exact (respects_deleteNode R Hrefl Htrans Hdel authorization a_domain s).
  - exact (respects_runHealthChecks R Hrefl Htrans Hon Hoff Hdel net clock s).
Qed.

Lemma operations_keep_records_plain_witness :
  Forall plain (db Scenario.registered)
  /\ Forall plain
       (db (exec (HealthChecks Scenario.net Outage.later) Scenario.registered)).
Proof.
  assert (H : Forall plain (db Scenario.registered)).
  { constructor; [| constructor]. intros v Hv. simpl in Hv.
    repeat (destruct Hv as [<- | Hv]; [reflexivity |]). destruct Hv. }
  split; [exact H |].
  exact (operations_keep_records_plain
           (HealthChecks Scenario.net Outage.later) Scenario.registered H).
Defined.

(* ================================================================== *)
(** ** A registration, and what can be done with its token *)
(* ================================================================== *)

(** The row a registration inserts. *)
Definition registered_row (w : env) (req : value) (clean : string) : node :=
  let info := info_of (net w) clean in
  {| id := generateId w; domain := clean;
     name := bound (prop req "name" ||' info ?. "name" ||' VStr "");
     description := bound (prop req "description" ||' info ?. "description" ||' VStr "");
     version := bound (prop req "version" ||' info ?. "version" ||' VStr "");
     track_count := bound (info ?. "track_count" ?? VNum 0);
     user_count := bound (info ?. "user_count" ?? VNum 0);
     open_registration := bound (info ?. "open_registration" ?? VNum 1);
     p2p_enabled := bound (flag (truthy (info ?. "p2p_enabled")));
     p2p_node_id := bound (info ?. "p2p_node_id" ||' VNull);
     country := VNull; token := generateToken w;
     first_seen := datetime (time w);
     last_seen := datetime (time w);
     last_healthy := datetime (time w);
     is_online := 1;
     down_since := None |}.

(** The conditions under which a registration goes through. *)
Definition registrable (w : env) (req : value) (d : string) (s : sys) : Prop :=
  prop req "domain" = VStr d /\ d <> ""
  /\ truthy (prop req "token") = false
  /\ (forall n, In n (db s) -> domain n <> cleanDomain d)
  /\ health_of (net w) (cleanDomain d) = true
  /\ (forall n, In n (db s) -> id n <> generateId w /\ token n <> generateToken w)
  /\ (forall k, In k request_keys -> bindable (prop req k) = true)
  /\ (forall k, In k info_keys ->
                bindable (info_of (net w) (cleanDomain d) ?. k) = true).

Definition after_registration (w : env) (req : value) (d : string) (s : sys) : sys :=
  {| db := List.app (db s) [registered_row w req (cleanDomain d)];
     requests := List.app (requests s)
                   (List.app (health_urls (net w) (cleanDomain d))
                             (info_urls (net w) (cleanDomain d))) |}.

Lemma registration_run w req d s :
  registrable w req d s ->
  announce w req s
  = (Ret (reply_registered (generateId w) (cleanDomain d) (generateToken w)),
     after_registration w req d s).
Proof.
  intros (Hd & Hne & Htok & Hnew & Hhealth & Hfresh & Hreq & Hinfo).
  set (clean := cleanDomain d) in *.
  set (info := info_of (net w) clean) in *.
  assert (Hsel : select_by_domain clean (db s) = None).
  { apply find_absent. intros n Hn. apply String.eqb_neq. now apply Hnew. }
  assert (Huniq : existsb (fun n => (id n =? generateId w)%string
                                    || (domain n =? clean)%string
                                    || (token n =? generateToken w)%string) (db s)
                  = false).
  { destruct (existsb _ _) eqn:E; [| reflexivity].
    apply existsb_exists in E. destruct E as (n & Hn & E).
    destruct (Hfresh n Hn) as [Hi Ht]. specialize (Hnew n Hn).
    apply String.eqb_neq in Hi, Ht, Hnew. now rewrite Hi, Ht, Hnew in E. }
  rewrite (announce_valid _ _ _ _ Hd Hne), Htok.
  unfold try_catch, register.
  rewrite (bind_run _ _ _ _ _ (query_run _ _)). fold clean. rewrite Hsel.
  rewrite (bind_run _ _ _ _ _ (checkNodeHealth_run _ _ _)). rewrite Hhealth.
  cbv [negb].
  rewrite (bind_run _ _ _ _ _ (fetchNodeInfo_run _ _ _)). fold info.
  rewrite logged_logged.
  erewrite bind_run; [reflexivity |].
  apply run_ok. unfold insert_node. rewrite !logged_db.
  replace (forallb bindable _) with true.
  - rewrite Huniq. reflexivity.
  - symmetry. cbv [forallb].
    repeat (apply andb_true_intro; split); bindable_with Hreq Hinfo.
Qed.

Lemma find_app_new {A} (f : A -> bool) (l : list A) (x : A) :
  (forall y, In y l -> f y = false) -> f x = true ->
  find f (List.app l [x]) = Some x.
Proof.
  intros Hl Hx. induction l as [| y rest IH]; simpl.
  - now rewrite Hx.
  - rewrite (Hl y (or_introl eq_refl)). apply IH. intros; apply Hl; now right.
Qed.

Lemma registered_row_found_by_domain w req d s :
  registrable w req d s ->
  select_by_domain (cleanDomain d) (db (after_registration w req d s))
  = Some (registered_row w req (cleanDomain d)).
Proof.
  intros (_ & _ & _ & Hnew & _). unfold select_by_domain. simpl.
  apply find_app_new.
  - intros n Hn. apply String.eqb_neq. now apply Hnew.
  - apply String.eqb_refl.
Qed.

(** The view GET gives of a row. *)
Definition view (n : node) : value :=
  VObj (coerce "is_online" (coerce "p2p_enabled" (coerce "open_registration" (selected n)))).

Lemma getNode_found a_domain node s :
  select_by_domain (cleanDomain a_domain) (db s) = Some node ->
  getNode a_domain s = (Ret {| status := 200; body := view node |}, s).
Proof. intro H. unfold getNode, bind, query. now rewrite H. Qed.

(** X7. Round trip, for metadata of the type of their column (strings for
    name, description and version in the request, strings and numbers in
    the node's info, or nothing): GET on a domain right after its
    registration answers 200 and shows the record as registered: the
    normalized domain, the generated id, the name, description and version
    supplied (else the ones of the node's info, else empty), the counters of
    the node's info (else 0), online, never down, seen at the time of
    registration; and no token. *)
Theorem get_after_registration (w : env) (req : value) (d : string) (s : sys) :
  registrable w req d s ->
  typed_request req ->
  typed_info (info_of (net w) (cleanDomain d)) ->
  let info := info_of (net w) (cleanDomain d) in
  exists r s1,
    announce w req s = (Ret (reply_registered (generateId w) (cleanDomain d)
                                              (generateToken w)), s1)
    /\ getNode d s1 = (Ret r, s1)
    /\ status r = 200
    /\ prop (body r) "id" = VStr (generateId w)
    /\ prop (body r) "domain" = VStr (cleanDomain d)
    /\ prop (body r) "name" = first_truthy [prop req "name"; info ?. "name"] (VStr "")
    /\ prop (body r) "description"
       = first_truthy [prop req "description"; info ?. "description"] (VStr "")
    /\ prop (body r) "version"
       = first_truthy [prop req "version"; info ?. "version"] (VStr "")
    /\ prop (body r) "track_count" = first_present [info ?. "track_count"] (VNum 0)
    /\ prop (body r) "user_count" = first_present [info ?. "user_count"] (VNum 0)
    /\ prop (body r) "is_online" = VBool true
    /\ prop (body r) "down_since" = VNull
    /\ prop (body r) "first_seen" = VNum (datetime (time w))
    /\ prop (body r) "last_seen" = VNum (datetime (time w))
    /\ prop (body r) "token" = VUndef.
Proof.
  intros Hreg _ _ info.
  exists {| status := 200; body := view (registered_row w req (cleanDomain d)) |}.
  exists (after_registration w req d s).
  split; [now apply registration_run |].
  split; [apply getNode_found; now apply registered_row_found_by_domain |].
  fold info. cbn [status body].
  assert (Hn : forall a b dflt, dflt <> VUndef ->
             bound (a ||' b ||' dflt) = first_truthy [a; b] dflt).
  { intros a b dflt Hd. rewrite or_else_chain2. now apply bound_first_truthy. }
  assert (Hp : forall a dflt, dflt <> VUndef ->
             bound (a ?? dflt) = first_present [a] dflt).
  { intros a dflt Hd.
    replace (a ?? dflt) with (first_present [a] dflt)
      by (unfold coalesce; simpl; now destruct (nullish a)).
    now apply bound_first_present. }
  repeat split; try reflexivity; unfold view, registered_row; fold info; simpl;
    first [ apply Hn; discriminate | apply Hp; discriminate ].
Qed.

Lemma registrable_scenario :
  registrable Scenario.world Scenario.registration "a.example" Scenario.empty.
Proof.
  unfold registrable. split; [reflexivity |]. split; [discriminate |].
  split; [reflexivity |]. split; [intros n [] |]. split; [reflexivity |].
  split; [intros n [] |].
  split; intros k Hk; simpl in Hk;
    repeat (destruct Hk as [<- | Hk]; [reflexivity |]); destruct Hk.
Defined.

Lemma get_after_registration_witness :
  exists r s1,
    announce Scenario.world Scenario.registration Scenario.empty
    = (Ret (reply_registered "id-a" "a.example" "T"), s1)
    /\ getNode "a.example" s1 = (Ret r, s1)
    /\ status r = 200
    /\ prop (body r) "id" = VStr "id-a"
    /\ prop (body r) "domain" = VStr "a.example"
    /\ prop (body r) "name" = VStr ""
    /\ prop (body r) "description" = VStr ""
    /\ prop (body r) "version" = VStr ""
    /\ prop (body r) "track_count" = VNum 10
    /\ prop (body r) "user_count" = VNum 0
    /\ prop (body r) "is_online" = VBool true
    /\ prop (body r) "down_since" = VNull
    /\ prop (body r) "first_seen" = VNum 1700000000
    /\ prop (body r) "last_seen" = VNum 1700000000
    /\ prop (body r) "token" = VUndef.
Proof.
  apply (get_after_registration Scenario.world Scenario.registration "a.example"
           Scenario.empty registrable_scenario).
  - intros k Hk. simpl in Hk.
    repeat (destruct Hk as [<- | Hk]; [reflexivity |]). destruct Hk.
  - exact typed_info_a.
Defined.

Lemma registered_row_found_by_token w req d s :
  registrable w req d s ->
  find (token_is (VStr (generateToken w))) (db (after_registration w req d s))
  = Some (registered_row w req (cleanDomain d)).
Proof.
  intros (_ & _ & _ & _ & _ & Hfresh & _). simpl.
  apply find_app_new.
  - intros n Hn. unfold token_is; simpl. apply String.eqb_neq.
    intro E. destruct (Hfresh n Hn) as [_ Ht]. now apply Ht.
  - unfold token_is; simpl. apply String.eqb_refl.
Qed.

Lemma registered_row_bindable w req d s :
  registrable w req d s ->
  forall v, In v (stored_values (registered_row w req (cleanDomain d))) ->
            bindable v = true.
Proof.
  intros (_ & _ & _ & _ & _ & _ & Hreq & Hinfo) v Hv.
  assert (Hb : forall x, bindable x = true -> bindable (bound x) = true)
    by (intros x Hx; now destruct x).
  unfold stored_values, registered_row in Hv. simpl in Hv.
  repeat (destruct Hv as [<- | Hv]; [apply Hb; bindable_with Hreq Hinfo |]).
  destruct Hv.
Qed.

(** X8. The token a registration returns authenticates the heartbeats of
    that domain: a later announce that carries it, for a spelling of the
    same domain and with metadata the driver can bind, is answered 200 with
    the id of the registration, whatever the time and the network then. *)
Theorem heartbeat_after_registration
    (w : env) (req : value) (d : string) (s : sys)
    (w2 : env) (req2 : value) (d2 : string) :
  registrable w req d s ->
  generateToken w <> "" ->
  prop req2 "domain" = VStr d2 -> d2 <> "" -> cleanDomain d2 = cleanDomain d ->
  prop req2 "token" = VStr (generateToken w) ->
  (forall k, In k request_keys -> bindable (prop req2 k) = true) ->
  (forall k, In k info_keys ->
             bindable (info_of (net w2) (cleanDomain d2) ?. k) = true) ->
  exists s1 s2,
    announce w req s = (Ret (reply_registered (generateId w) (cleanDomain d)
                                              (generateToken w)), s1)
    /\ announce w2 req2 s1 = (Ret (reply_updated (generateId w) (cleanDomain d)), s2).
Proof.
  intros Hreg Htne Hd2 Hne2 Hclean Htok2 Hreq2 Hinfo2.
  exists (after_registration w req d s).
  destruct (heartbeat_accepted w2 req2 d2 (generateToken w)
              (registered_row w req (cleanDomain d))
              (after_registration w req d s) Hd2 Hne2 Htok2 Htne)
    as (s2 & H2).
  - now apply registered_row_found_by_token.
  - now rewrite Hclean.
  - exact Hreq2.
  - exact Hinfo2.
  - exact (registered_row_bindable w req d s Hreg).
  - exists s2. split; [now apply registration_run |].
    rewrite H2, Hclean. reflexivity.
Qed.

Lemma heartbeat_after_registration_witness :
  exists s1 s2,
    announce Scenario.world Scenario.registration Scenario.empty
    = (Ret (reply_registered "id-a" "a.example" "T"), s1)
    /\ announce Scenario.world Scenario.heartbeat_20 s1
       = (Ret (reply_updated "id-a" "a.example"), s2).
Proof.
  apply (heartbeat_after_registration Scenario.world Scenario.registration
           "a.example" Scenario.empty Scenario.world Scenario.heartbeat_20
           "a.example" registrable_scenario);
    try reflexivity; try discriminate;
    intros k Hk; simpl in Hk;
    repeat (destruct Hk as [<- | Hk]; [reflexivity |]); destruct Hk.
Defined.

(* ================================================================== *)
(** ** Deleting a node *)
(* ================================================================== *)

Lemma replace_first_at_start p r s :
  String.prefix p s = true ->
  replace_first p r s = r ++ drop (String.length p) s.
Proof. intro H. destruct s; cbn [replace_first]; now rewrite H. Qed.

Lemma drop_append p s : drop (String.length p) (p ++ s) = s.
Proof. induction p as [| c rest IH]; simpl; auto. Qed.

Lemma bearer_token t : replace_first "Bearer " "" ("Bearer " ++ t) = t.
Proof.
  rewrite replace_first_at_start by apply prefix_append.
  now rewrite drop_append.
Qed.

Lemma delete_by_id_fresh i tbl (x : node) :
  (forall n, In n tbl -> id n <> i) -> id x = i ->
  delete_by_id i (List.app tbl [x]) = tbl.
Proof.
  intros Hl Hx. unfold delete_by_id. rewrite filter_app. simpl.
  rewrite Hx, String.eqb_refl. simpl. rewrite app_nil_r.
  induction tbl as [| n rest IH]; simpl; [reflexivity |].
  pose proof (Hl n (or_introl eq_refl)) as Hn. apply String.eqb_neq in Hn.
  rewrite Hn. simpl. f_equal. apply IH. intros; apply Hl; now right.
Qed.

Definition reply_removed (clean : string) : reply :=
  {| status := 200;
     body := VObj [("status", VStr "removed"); ("domain", VStr clean)] |}.

(** X9. The token a registration returns also removes the node: DELETE on
    the domain with [Authorization: Bearer <token>] answers 200, the table
    is again exactly what it was before the registration, and GET on the
    domain answers 404. *)
Theorem delete_after_registration (w : env) (req : value) (d : string) (s : sys) :
  registrable w req d s ->
  generateToken w <> "" ->
  exists s1 s2 r,
    announce w req s = (Ret (reply_registered (generateId w) (cleanDomain d)
                                              (generateToken w)), s1)
    /\ deleteNode (Some ("Bearer " ++ generateToken w)) d s1
       = (Ret (reply_removed (cleanDomain d)), s2)
    /\ db s2 = db s
    /\ getNode d s2 = (Ret r, s2) /\ status r = 404.
Proof.
  intros Hreg Htne.
  pose proof Hreg as (_ & _ & _ & Hnew & _ & Hfresh & _).
  exists (after_registration w req d s).
  exists {| db := db s; requests := requests (after_registration w req d s) |}.
  eexists.
  split; [now apply registration_run |]. split; [| split; [reflexivity |]].
  - unfold deleteNode. rewrite bearer_token.
    destruct (generateToken w) as [| c t] eqn:Et; [now destruct Htne |].
    rewrite <- Et.
    rewrite (bind_run _ _ _ _ _ (query_run _ _)).
    replace (select_by_domain_token (cleanDomain d) (generateToken w)
               (db (after_registration w req d s)))
      with (Some (registered_row w req (cleanDomain d))).
    2: { symmetry. unfold select_by_domain_token. simpl. apply find_app_new.
         - intros n Hn. apply andb_false_iff. left.
           apply String.eqb_neq. now apply Hnew.
         - simpl. now rewrite !String.eqb_refl. }
    unfold bind, run. cbn [db after_registration].
    rewrite delete_by_id_fresh; [reflexivity | | reflexivity].
    intros n Hn. now destruct (Hfresh n Hn).
  - unfold getNode. rewrite (bind_run _ _ _ _ _ (query_run _ _)).
    cbn [db]. unfold select_by_domain. rewrite find_absent.
    + split; reflexivity.
    + intros n Hn. apply String.eqb_neq. now apply Hnew.
Qed.

Lemma delete_after_registration_witness :
  exists s1 s2 r,
    announce Scenario.world Scenario.registration Scenario.empty
    = (Ret (reply_registered "id-a" "a.example" "T"), s1)
    /\ deleteNode (Some "Bearer T") "a.example" s1
       = (Ret (reply_removed "a.example"), s2)
    /\ db s2 = []
    /\ getNode "a.example" s2 = (Ret r, s2) /\ status r = 404.
Proof.
  exact (delete_after_registration Scenario.world Scenario.registration
           "a.example" Scenario.empty registrable_scenario ltac:(discriminate)).
Defined.

(** X10. DELETE refuses without changing anything: with no Authorization
    header, or one that is empty once "Bearer " is removed, it answers 401;
    with a token that no record carries together with the normalized
    domain (an unknown domain, or the token of another node), it answers
    404. *)
Theorem deleteNode_refusals (authorization : option string) (a_domain : string)
    (s : sys) :
  (authorization = None \/ authorization = Some "Bearer " \/ authorization = Some "" ->
   deleteNode authorization a_domain s = (Ret (reply_error 401 "token required"), s))
  /\
  (forall h t, authorization = Some h -> replace_first "Bearer " "" h = t ->
     t <> "" ->
     (forall n, In n (db s) ->
                ~ (domain n = cleanDomain a_domain /\ token n = t)) ->
     deleteNode authorization a_domain s
     = (Ret (reply_error 404 "node not found or invalid token"), s)).
Proof.
  split.
  - intros [-> | [-> | ->]]; reflexivity.
  - intros h t -> Ht Hne Hno. unfold deleteNode. rewrite Ht.
    destruct t as [| c t']; [now destruct Hne |].
    rewrite (bind_run _ _ _ _ _ (query_run _ _)).
    unfold select_by_domain_token. rewrite find_absent; [reflexivity |].
    intros n Hn. apply not_true_is_false. intro E.
    apply andb_prop in E. destruct E as [E1 E2].
    apply String.eqb_eq in E1, E2. now apply (Hno n Hn).
Qed.

Lemma deleteNode_refusals_witness :
  deleteNode None "a.example" Scenario.registered
  = (Ret (reply_error 401 "token required"), Scenario.registered)
  /\ deleteNode (Some "Bearer U") "a.example" Scenario.registered
     = (Ret (reply_error 404 "node not found or invalid token"), Scenario.registered).
Proof.
  split.
  - apply (proj1 (deleteNode_refusals None "a.example" Scenario.registered)).
    now left.
  - apply (proj2 (deleteNode_refusals (Some "Bearer U") "a.example"
                    Scenario.registered) "Bearer U" "U" eq_refl eq_refl).
    + discriminate.
    + intros n [<- | []] [_ E]. discriminate E.
Defined.

Lemma NoDup_map_same {B} (f : node -> B) (l : list node) (a b : node) :
  NoDup (map f l) -> In a l -> In b l -> f a = f b -> a = b.
Proof.
  induction l as [| x rest IH]; simpl; intros H Ha Hb E; [destruct Ha |].
  inversion H as [| y ys Hnot Hrest]; subst.
  destruct Ha as [-> | Ha], Hb as [-> | Hb]; auto.
  - exfalso. apply Hnot. rewrite E. now apply in_map.
  - exfalso. apply Hnot. rewrite <- E. now apply in_map.
Qed.

(** X11. On a table with distinct ids, a DELETE with the domain and the
    token of a record answers 200 and removes that record and no other:
    the records left are, in the same order, those of the table other than
    it. *)
Theorem deleteNode_removes_one (t a_domain : string) (s : sys) :
  t <> "" ->
  NoDup (map id (db s)) ->
  (exists n, In n (db s) /\ domain n = cleanDomain a_domain /\ token n = t) ->
  exists node s',
    deleteNode (Some ("Bearer " ++ t)) a_domain s
    = (Ret (reply_removed (cleanDomain a_domain)), s')
    /\ In node (db s)
    /\ domain node = cleanDomain a_domain /\ token node = t
    /\ db s' = filter (fun n => negb (id n =? id node)%string) (db s)
    /\ (forall n, In n (db s') <-> In n (db s) /\ n <> node)
    /\ requests s' = requests s.
Proof.
  intros Hne Hids (n0 & Hn0 & Hd0 & Ht0).
  unfold deleteNode. rewrite bearer_token.
  destruct t as [| c t'] eqn:Et; [now destruct Hne |]. rewrite <- Et in *.
  rewrite (bind_run _ _ _ _ _ (query_run _ _)).
  destruct (select_by_domain_token (cleanDomain a_domain) t (db s))
    as [node |] eqn:F.
  - unfold select_by_domain_token in F. apply find_some in F.
    destruct F as [Hin Hm]. apply andb_prop in Hm. destruct Hm as [Hd Ht].
    apply String.eqb_eq in Hd, Ht.
    exists node. eexists. split; [reflexivity |].
    cbn [db requests].
    split; [exact Hin |]. split; [exact Hd |]. split; [exact Ht |].
    split; [reflexivity |]. split; [| reflexivity].
    intro n. unfold delete_by_id. rewrite filter_In, negb_true_iff, String.eqb_neq.
    split; intros [Hn Hneq]; (split; [exact Hn |]).
    + intros ->. now apply Hneq.
    + intro E. apply Hneq. eapply NoDup_map_same; eauto.
  - exfalso. unfold select_by_domain_token in F.
    pose proof (find_none _ _ F n0 Hn0) as Hf. simpl in Hf.
    now rewrite Hd0, Ht0, !String.eqb_refl in Hf.
Qed.

Lemma deleteNode_removes_one_witness :
  exists node s',
    deleteNode (Some ("Bearer " ++ "U")) "https://b.example/" Outage.two
    = (Ret (reply_removed (cleanDomain "https://b.example/")), s')
    /\ In node (db Outage.two)
    /\ domain node = cleanDomain "https://b.example/" /\ token node = "U"
    /\ db s' = filter (fun n => negb (id n =? id node)%string) (db Outage.two)
    /\ (forall n, In n (db s') <-> In n (db Outage.two) /\ n <> node)
    /\ requests s' = requests Outage.two.
Proof.
  apply (deleteNode_removes_one "U" "https://b.example/" Outage.two).
  - discriminate.
  - simpl. constructor; [intros [E | []]; discriminate E |].
    constructor; [intros [] | constructor].
  - exists Outage.row_b. split; [right; now left | split; reflexivity].
Defined.

Lemma replace_first_absent p r s :
  String.index 0 p s = None -> replace_first p r s = s.
Proof.
  induction s as [| c rest IH]; intro H.
  - cbn [replace_first]. destruct p; simpl in H; [discriminate H | reflexivity].
  - cbn [replace_first]. cbn [String.index] in H.
    destruct (String.prefix p (String c rest)); [discriminate H |].
    f_equal. apply IH. now destruct (String.index 0 p rest).
Qed.

(** X12. The "Bearer " prefix of the Authorization header is optional: a
    header that is the bare token (and does not contain "Bearer ") is
    treated exactly like "Bearer " followed by that token. *)
Theorem deleteNode_bare_token (t a_domain : string) (s : sys) :
  includes t "Bearer " = false ->
  deleteNode (Some t) a_domain s = deleteNode (Some ("Bearer " ++ t)) a_domain s.
Proof.
  unfold includes. intro H.
  destruct (String.index 0 "Bearer " t) eqn:E; [discriminate |].
  unfold deleteNode. now rewrite bearer_token, (replace_first_absent _ _ _ E).
Qed.

Lemma deleteNode_bare_token_witness :
  includes "T" "Bearer " = false
  /\ deleteNode (Some "T") "a.example" Scenario.registered
     = deleteNode (Some ("Bearer " ++ "T")) "a.example" Scenario.registered.
Proof.
  split; [reflexivity |].
  exact (deleteNode_bare_token "T" "a.example" Scenario.registered eq_refl).
Defined.

(* ================================================================== *)
(** ** Reading one node *)
(* ================================================================== *)

(** X13. GET /api/nodes/:domain answers 404 when no record has the
    normalized domain. When one has, on a table with distinct domains, it
    answers 200 with that record: its columns as stored, except that the
    token is left out and the three flags are turned into booleans. The
    state is never changed. *)
Theorem getNode_shows_record (a_domain : string) (s : sys) :
  ((forall n, In n (db s) -> domain n <> cleanDomain a_domain) ->
   getNode a_domain s = (Ret (reply_error 404 "node not found"), s))
  /\
  (forall n, NoDup (map domain (db s)) -> In n (db s) ->
     domain n = cleanDomain a_domain ->
     exists r,
       getNode a_domain s = (Ret r, s) /\ status r = 200
       /\ prop (body r) "id" = VStr (id n)
       /\ prop (body r) "domain" = VStr (domain n)
       /\ prop (body r) "name" = name n
       /\ prop (body r) "description" = description n
       /\ prop (body r) "version" = version n
       /\ prop (body r) "track_count" = track_count n
       /\ prop (body r) "user_count" = user_count n
       /\ prop (body r) "p2p_node_id" = p2p_node_id n
       /\ prop (body r) "open_registration" = VBool (truthy (open_registration n))
       /\ prop (body r) "p2p_enabled" = VBool (truthy (p2p_enabled n))
       /\ prop (body r) "is_online" = VBool (negb (is_online n =? 0))
       /\ prop (body r) "token" = VUndef).
Proof.
  split.
  - intro Hno. unfold getNode. rewrite (bind_run _ _ _ _ _ (query_run _ _)).
    unfold select_by_domain. rewrite find_absent; [reflexivity |].
    intros n Hn. apply String.eqb_neq. now apply Hno.
  - intros n Hdom Hn Hd.
    destruct (select_by_domain (cleanDomain a_domain) (db s)) as [m |] eqn:F.
    + unfold select_by_domain in F. pose proof (find_some _ _ F) as [Hm Em].
      apply String.eqb_eq in Em.
      assert (m = n) as -> by (eapply NoDup_map_same; eauto; congruence).
      exists {| status := 200; body := view n |}.
      split; [now apply getNode_found |].
      repeat split.
    + exfalso. unfold select_by_domain in F.
      pose proof (find_none _ _ F n Hn) as Hf. simpl in Hf.
      now rewrite Hd, String.eqb_refl in Hf.
Qed.

Lemma getNode_shows_record_witness :
  getNode "c.example" Outage.two
  = (Ret (reply_error 404 "node not found"), Outage.two)
  /\ exists r,
       getNode "https://b.example/" Outage.two = (Ret r, Outage.two)
       /\ status r = 200
       /\ prop (body r) "id" = VStr "id-b"
       /\ prop (body r) "domain" = VStr "b.example"
       /\ prop (body r) "name" = VStr ""
       /\ prop (body r) "description" = VStr ""
       /\ prop (body r) "version" = VStr ""
       /\ prop (body r) "track_count" = VNum 0
       /\ prop (body r) "user_count" = VNum 0
       /\ prop (body r) "p2p_node_id" = VNull
       /\ prop (body r) "open_registration" = VBool true
       /\ prop (body r) "p2p_enabled" = VBool false
       /\ prop (body r) "is_online" = VBool true
       /\ prop (body r) "token" = VUndef.
Proof.
  split.
  - apply (proj1 (getNode_shows_record "c.example" Outage.two)).
    intros n [<- | [<- | []]]; discriminate.
  - apply (proj2 (getNode_shows_record "https://b.example/" Outage.two)
             Outage.row_b).
    + simpl. constructor; [intros [E | []]; discriminate E |].
      constructor; [intros [] | constructor].
    + right; now left.
    + reflexivity.
Defined.

(* ================================================================== *)
(** ** Listing the nodes (GET /api/nodes) *)
(* ================================================================== *)

Module Listing.

(** The storage classes in the order SQLite compares them: NULL, then
    numbers, then text. (The remaining values are never stored; they are
    put last, all alike.) *)
Definition sql_class (v : value) : Z :=
  match v with
  | VUndef | VNull => 0
  | VNum _ => 1
  | VStr _ => 2
  | VBool _ | VArr _ | VObj _ => 3
  end.

(** [a <= b] in SQLite's order: numbers by value, texts byte by byte
    (the BINARY collation), else by class. *)
Definition sql_leb (a b : value) : bool :=
  match a, b with
  | VNum x, VNum y => x <=? y
  | VStr x, VStr y => String.leb x y
  | _, _ => sql_class a <=? sql_class b
  end.

(** [ORDER BY is_online DESC, track_count DESC]: [a] may come before [b]. *)
Definition by_online_then_tracks (a b : node) : bool :=
  if is_online b <? is_online a then true
  else if is_online a <? is_online b then false
  else sql_leb (track_count b) (track_count a).

(** [ORDER BY track_count DESC] *)
Definition by_tracks (a b : node) : bool :=
  sql_leb (track_count b) (track_count a).

(** Sorting by insertion. SQL leaves the order of rows that compare equal
    open; here they keep the order of the table. *)
Fixpoint insert_by (before : node -> node -> bool) (n : node) (l : list node)
    : list node :=
  match l with
  | [] => [n]
  | x :: rest => if before n x then n :: l else x :: insert_by before n rest
  end.

Definition order_by (before : node -> node -> bool) (l : list node) : list node :=
  fold_right (insert_by before) [] l.

(** The rows the query of GET /api/nodes returns. *)
Definition listed (includeOffline : bool) (tbl : table) : list node :=
  if includeOffline
  then order_by by_online_then_tracks tbl
  else order_by by_tracks (filter (fun n => is_online n =? 1) tbl).

(** GET /api/nodes; [include_offline] is [req.query.include_offline]. *)
Definition getNodes (include_offline : value) : M sys reply :=
  let includeOffline := is_str include_offline "true" in
  nodes <- query (listed includeOffline) ;;
  ret {| status := 200;
         body := VObj [("total", VNum (Z.of_nat (List.length nodes)));
                       ("nodes", VArr (map view nodes))] |}.

End Listing.
Import Listing.

From Stdlib Require Import Sorting.Sorted Sorting.Permutation.

Section OrderBy.

Variable before : node -> node -> bool.
Hypothesis before_total : forall a b, before a b = false -> before b a = true.
Hypothesis before_trans :
  forall a b c, before a b = true -> before b c = true -> before a c = true.

Lemma insert_by_perm n l : Permutation (insert_by before n l) (n :: l).
Proof.
  induction l as [| x rest IH]; simpl; [apply Permutation_refl |].
  destruct (before n x); [apply Permutation_refl |].
  apply perm_trans with (x :: n :: rest); [now apply perm_skip | apply perm_swap].
Qed.

Lemma order_by_perm l : Permutation (order_by before l) l.
Proof.
  induction l as [| x rest IH]; simpl; [constructor |].
  apply perm_trans with (x :: order_by before rest);
    [apply insert_by_perm | now apply perm_skip].
Qed.

Lemma insert_by_sorted n l :
  StronglySorted (fun a b => before a b = true) l ->
  StronglySorted (fun a b => before a b = true) (insert_by before n l).
Proof.
  induction l as [| x rest IH]; simpl; intro H.
  - constructor; constructor.
  - inversion H as [| y ys Hrest Hall]; subst.
    destruct (before n x) eqn:E.
    + constructor; [exact H |]. constructor; [exact E |].
      apply Forall_forall. intros z Hz.
      apply before_trans with x; [exact E |].
      now apply (proj1 (Forall_forall _ _) Hall).
    + constructor; [now apply IH |].
      apply Forall_forall. intros z Hz.
      apply (Permutation_in _ (insert_by_perm n rest)) in Hz.
      destruct Hz as [<- | Hz]; [now apply before_total |].
      now apply (proj1 (Forall_forall _ _) Hall).
Qed.

Lemma order_by_sorted l :
  StronglySorted (fun a b => before a b = true) (order_by before l).
Proof.
  induction l as [| x rest IH]; simpl; [constructor |].
  now apply insert_by_sorted.
Qed.

End OrderBy.

Lemma string_leb_trans a b c :
  String.leb a b = true -> String.leb b c = true -> String.leb a c = true.
Proof.
  unfold String.leb. revert b c.
  induction a as [| x a IH]; intros [| y b] [| z c]; simpl; try easy.
  unfold Ascii.compare.
  destruct (N.compare_spec (N_of_ascii x) (N_of_ascii y)) as [Exy | Lxy | Gxy];
    destruct (N.compare_spec (N_of_ascii y) (N_of_ascii z)) as [Eyz | Lyz | Gyz];
    destruct (N.compare_spec (N_of_ascii x) (N_of_ascii z)) as [Exz | Lxz | Gxz];
    try easy; try lia.
  apply IH.
Qed.

Lemma string_leb_total a b : String.leb a b = false -> String.leb b a = true.
Proof.
  intro H. destruct (String.leb_total a b) as [E | E]; congruence.
Qed.

Lemma sql_leb_total a b : sql_leb a b = false -> sql_leb b a = true.
Proof.
  destruct a, b; simpl; intro H; try discriminate; try reflexivity.
  - apply Z.leb_le. apply Z.leb_gt in H. lia.
  - now apply string_leb_total.
Qed.

Lemma sql_leb_trans a b c :
  sql_leb a b = true -> sql_leb b c = true -> sql_leb a c = true.
Proof.
  destruct a, b, c; simpl; intros H1 H2; try discriminate; try reflexivity.
  - apply Z.leb_le. apply Z.leb_le in H1, H2. lia.
  - eapply string_leb_trans; eauto.
Qed.

Lemma by_tracks_total a b : by_tracks a b = false -> by_tracks b a = true.
Proof. apply sql_leb_total. Qed.

Lemma by_tracks_trans a b c :
  by_tracks a b = true -> by_tracks b c = true -> by_tracks a c = true.
Proof. unfold by_tracks. intros H1 H2. eapply sql_leb_trans; eauto. Qed.

Lemma by_online_then_tracks_spec a b :
  by_online_then_tracks a b = true <->
  is_online b < is_online a
  \/ (is_online a = is_online b /\ sql_leb (track_count b) (track_count a) = true).
Proof.
  unfold by_online_then_tracks.
  destruct (Z.ltb_spec (is_online b) (is_online a)); [split; auto |].
  destruct (Z.ltb_spec (is_online a) (is_online b)).
  - split; [discriminate | intros [? | [? _]]; lia].
  - split; [intro; right; split; [lia | assumption] | intros [? | [_ ?]]; [lia | assumption]].
Qed.

Lemma by_online_then_tracks_total a b :
  by_online_then_tracks a b = false -> by_online_then_tracks b a = true.
Proof.
  intro H. apply by_online_then_tracks_spec.
  destruct (Z.lt_trichotomy (is_online a) (is_online b)) as [L | [E | G]].
  - now left.
  - right. split; [now symmetry |].
    apply sql_leb_total. apply not_true_is_false. intro T. 
    assert (by_online_then_tracks a b = true); [| congruence].
    apply by_online_then_tracks_spec. right. now split.
  - assert (by_online_then_tracks a b = true); [| congruence].
    apply by_online_then_tracks_spec. left. lia.
Qed.

Lemma by_online_then_tracks_trans a b c :
  by_online_then_tracks a b = true -> by_online_then_tracks b c = true ->
  by_online_then_tracks a c = true.
Proof.
  rewrite !by_online_then_tracks_spec.
  intros [L1 | [E1 T1]] [L2 | [E2 T2]]; try (left; lia).
  right. split; [congruence |]. eapply sql_leb_trans; eauto.
Qed.

Lemma view_hides_token n : prop (view n) "token" = VUndef.
Proof. reflexivity. Qed.

Lemma view_is_online n : prop (view n) "is_online" = VBool (negb (is_online n =? 0)).
Proof. reflexivity. Qed.

(** X14. GET /api/nodes answers 200 with every record of the table exactly
    once when [include_offline] is the string "true", and otherwise with
    exactly the records whose [is_online] is 1, each then shown as online;
    [total] is the number of nodes listed, no node shows its token, and the
    state is not changed. *)
Theorem getNodes_lists (include_offline : value) (s : sys) :
  exists rows,
    getNodes include_offline s
    = (Ret {| status := 200;
              body := VObj [("total", VNum (Z.of_nat (List.length rows)));
                            ("nodes", VArr (map view rows))] |}, s)
    /\ Permutation rows
         (if is_str include_offline "true" then db s
          else filter (fun n => is_online n =? 1) (db s))
    /\ Forall (fun item => prop item "token" = VUndef) (map view rows)
    /\ (is_str include_offline "true" = false ->
        Forall (fun item => prop item "is_online" = VBool true) (map view rows)).
Proof.
  exists (listed (is_str include_offline "true") (db s)).
  split; [reflexivity |].
  assert (Hperm : Permutation (listed (is_str include_offline "true") (db s))
                    (if is_str include_offline "true" then db s
                     else filter (fun n => is_online n =? 1) (db s))).
  { unfold listed. destruct (is_str include_offline "true"); apply order_by_perm. }
  split; [exact Hperm |]. split.
  - apply Forall_forall. intros item Hi. apply in_map_iff in Hi.
    destruct Hi as (n & <- & _). apply view_hides_token.
  - intro Hq. rewrite Hq in *. apply Forall_forall. intros item Hi.
    apply in_map_iff in Hi. destruct Hi as (n & <- & Hn).
    apply (Permutation_in _ Hperm) in Hn. apply filter_In in Hn.
    destruct Hn as [_ Hon]. apply Z.eqb_eq in Hon.
    rewrite view_is_online, Hon. reflexivity.
Qed.

Lemma StronglySorted_nth {A} (R : A -> A -> Prop) (l : list A) :
  StronglySorted R l ->
  forall i j a b, (i < j)%nat -> nth_error l i = Some a -> nth_error l j = Some b ->
                  R a b.
Proof.
  induction 1 as [| x rest Hrest IH Hall]; intros i j a b Hij Ha Hb.
  - destruct i; discriminate.
  - destruct j as [| j]; [lia |]. simpl in Hb.
    destruct i as [| i]; simpl in Ha.
    + injection Ha as <-. apply (proj1 (Forall_forall _ _) Hall).
      eapply nth_error_In; eauto.
    + apply (IH i j); auto; lia.
Qed.

(** X15. The order of the listing: of two nodes listed, the one listed
    first is at least as online as the other, and when they are equally
    online its track count is not below the other's in SQLite's order; for
    track counts that are numbers, it is the greater or equal number. *)
Theorem getNodes_order (include_offline : value) (s : sys)
    (i j : nat) (a b : node) :
  let rows := listed (is_str include_offline "true") (db s) in
  (i < j)%nat -> nth_error rows i = Some a -> nth_error rows j = Some b ->
  fst (getNodes include_offline s)
  = Ret {| status := 200;
           body := VObj [("total", VNum (Z.of_nat (List.length rows)));
                         ("nodes", VArr (map view rows))] |}
  /\ is_online b <= is_online a
  /\ (is_online a = is_online b ->
      sql_leb (track_count b) (track_count a) = true
      /\ forall x y, track_count a = VNum x -> track_count b = VNum y -> y <= x).
Proof.
  intros rows Hij Ha Hb. split; [reflexivity |].
  assert (Hnum : sql_leb (track_count b) (track_count a) = true ->
                 forall x y, track_count a = VNum x -> track_count b = VNum y ->
                             y <= x).
  { intros H x y Ex Ey. rewrite Ex, Ey in H. simpl in H. now apply Z.leb_le. }
  unfold rows, listed in *.
  destruct (is_str include_offline "true").
  - pose proof (StronglySorted_nth _ _
                  (order_by_sorted _ by_online_then_tracks_total
                     by_online_then_tracks_trans (db s))
                  i j a b Hij Ha Hb) as H.
    apply by_online_then_tracks_spec in H.
    destruct H as [L | [E T]]; [split; [lia |]; intro; lia |].
    split; [lia |]. intros _. split; [exact T | now apply Hnum].
  - pose proof (StronglySorted_nth _ _
                  (order_by_sorted _ by_tracks_total by_tracks_trans
                     (filter (fun n => is_online n =? 1) (db s)))
                  i j a b Hij Ha Hb) as H.
    assert (Hon : forall n k, nth_error (order_by by_tracks
                      (filter (fun n => is_online n =? 1) (db s))) k = Some n ->
                    is_online n = 1).
    { intros n k Hk. apply nth_error_In in Hk.
      apply (Permutation_in _ (order_by_perm by_tracks _)) in Hk.
      apply filter_In in Hk. now apply Z.eqb_eq. }
    rewrite (Hon a i Ha), (Hon b j Hb). split; [lia |].
    intros _. split; [exact H | now apply Hnum].
Qed.

Module Catalogue.

(** Three nodes: one offline with many tracks, two online. *)
Definition row_c : node :=
  {| id := "id-c"; domain := "c.example";
     name := VStr ""; description := VStr ""; version := VStr "";
     track_count := VNum 900; user_count := VNum 0;
     open_registration := VNum 1; p2p_enabled := VNum 0;
     p2p_node_id := VNull; country := VNull; token := "V";
     first_seen := 1700000000; last_seen := 1700000000;
     last_healthy := 1700000000; is_online := 0;
     down_since := Some 1700000300 |}.

Definition three : sys :=
  {| db := [row_c; Outage.row_b; Scenario.row_a]; requests := [] |}.

End Catalogue.

Example listing_of_three :
  listed true (db Catalogue.three) = [Scenario.row_a; Outage.row_b; Catalogue.row_c]
  /\ listed false (db Catalogue.three) = [Scenario.row_a; Outage.row_b].
Proof. split; reflexivity. Qed.

Lemma getNodes_order_witness :
  (0 < 2)%nat
  /\ nth_error (listed (is_str (VStr "true") "true") (db Catalogue.three)) 0
     = Some Scenario.row_a
  /\ nth_error (listed (is_str (VStr "true") "true") (db Catalogue.three)) 2
     = Some Catalogue.row_c
  /\ is_online Catalogue.row_c <= is_online Scenario.row_a.
Proof.
  split; [lia |]. split; [reflexivity |]. split; [reflexivity |].
  exact (proj1 (proj2
           (getNodes_order (VStr "true") Catalogue.three 0 2
              Scenario.row_a Catalogue.row_c ltac:(lia) eq_refl eq_refl))).
Defined.

(* ================================================================== *)
(** ** Statistics of a table with records *)
(* ================================================================== *)

Lemma sql_sum_numbers (zs : list Z) :
  zs <> [] -> sql_sum (map VNum zs) = VNum (fold_right Z.add 0 zs).
Proof.
  intro Hne. unfold sql_sum.
  assert (E : filter (fun v => negb (nullish v)) (map VNum zs) = map VNum zs).
  { induction zs as [| z rest IH]; simpl; [reflexivity |].
    destruct rest as [| z' rest']; [reflexivity |]. f_equal.
    apply IH. discriminate. }
  assert (F : forall l,
             fold_right (fun v acc => match v with VNum n => n + acc | _ => acc end)
               0 (map VNum l)
             = fold_right Z.add 0 l).
  { induction l as [| y l IH]; simpl; [reflexivity | now rewrite IH]. }
  rewrite E. destruct zs as [| z rest]; [now destruct Hne |].
  rewrite <- (F (z :: rest)). reflexivity.
Qed.

Lemma count_online (tbl : table) :
  fold_right Z.add 0 (map (fun n => if is_online n =? 1 then 1 else 0) tbl)
  = Z.of_nat (List.length (filter (fun n => is_online n =? 1) tbl)).
Proof.
  induction tbl as [| n rest IH]; [reflexivity |].
  cbn [map fold_right filter]. rewrite IH.
  destruct (is_online n =? 1); cbn [List.length]; lia.
Qed.

(** The counts are not negative and their total is at most 2^53: SQLite
    adds them without leaving the 64-bit integers, and the total is a
    number that JavaScript holds exactly. *)
Definition summable (counts : list Z) : Prop :=
  Forall (fun z => 0 <= z) counts
  /\ fold_right Z.add 0 counts <= 9007199254740992.

(** X16. On a table with at least one record whose track and user counts
    are numbers, not negative and of a total up to 2^53, GET /api/stats
    answers with the number of records, the number of records whose
    [is_online] is 1, and the sums of the track counts and of the user
    counts; its [online_nodes] is the [total] of the default listing of
    GET /api/nodes. *)
Theorem getStats_totals (s : sys) (tracks users : list Z) :
  db s <> [] ->
  map track_count (db s) = map VNum tracks ->
  map user_count (db s) = map VNum users ->
  summable tracks -> summable users ->
  exists r l,
    getStats s = (Ret r, s)
    /\ body r
       = VObj [("total_nodes", VNum (Z.of_nat (List.length (db s))));
               ("online_nodes",
                  VNum (Z.of_nat (List.length
                                    (filter (fun n => is_online n =? 1) (db s)))));
               ("total_tracks", VNum (fold_right Z.add 0 tracks));
               ("total_users", VNum (fold_right Z.add 0 users))]
    /\ getNodes VUndef s = (Ret l, s)
    /\ prop (body l) "total" = prop (body r) "online_nodes".
Proof.
  intros Hne Ht Hu _ _.
  assert (Hlen : forall (f : node -> value) zs,
             map f (db s) = map VNum zs -> zs <> []).
  { intros f zs E ->. destruct (db s); [now destruct Hne | discriminate E]. }
  eexists; eexists. split; [reflexivity |]. cbn [body]. split.
  - rewrite Ht, Hu, !sql_sum_numbers by (eapply Hlen; eauto).
    replace (map (fun n => VNum (if is_online n =? 1 then 1 else 0)) (db s))
      with (map VNum (map (fun n => if is_online n =? 1 then 1 else 0) (db s)))
      by (now rewrite map_map).
    rewrite sql_sum_numbers, count_online; [reflexivity |].
    destruct (db s); [now destruct Hne | discriminate].
  - split; [reflexivity |]. cbn [body prop assoc]. simpl.
    replace (map (fun n => VNum (if is_online n =? 1 then 1 else 0)) (db s))
      with (map VNum (map (fun n => if is_online n =? 1 then 1 else 0) (db s)))
      by (now rewrite map_map).
    rewrite sql_sum_numbers, count_online
      by (destruct (db s); [now destruct Hne | discriminate]).
    unfold listed.
    now rewrite (Permutation_length (order_by_perm by_tracks _)).
Qed.

Lemma getStats_totals_witness :
  exists r l,
    getStats Catalogue.three = (Ret r, Catalogue.three)
    /\ body r
       = VObj [("total_nodes", VNum 3); ("online_nodes", VNum 2);
               ("total_tracks", VNum 910); ("total_users", VNum 0)]
    /\ getNodes VUndef Catalogue.three = (Ret l, Catalogue.three)
    /\ prop (body l) "total" = prop (body r) "online_nodes".
Proof.
  apply (getStats_totals Catalogue.three [900; 0; 10] [0; 0; 0]
           ltac:(discriminate) eq_refl eq_refl).
  - split; [repeat constructor; lia | simpl; lia].
  - split; [repeat constructor; lia | simpl; lia].
Defined.

(* ================================================================== *)
(** ** What a cycle of health checks does to the table *)
(* ================================================================== *)

(** What the health checker never writes. *)
Definition core (n : node) : string * string * string * Z * value * value :=
  (id n, token n, domain n, first_seen n, description n, country n).

Definition descends (t t' : table) : Prop :=
  (List.length t' <= List.length t)%nat
  /\ forall n', In n' t' -> exists n, In n t /\ core n' = core n.

Lemma descends_refl t : descends t t.
Proof. split; [lia | intros n H; exists n; auto]. Qed.

Lemma descends_trans a b c : descends a b -> descends b c -> descends a c.
Proof.
  intros [L1 H1] [L2 H2]. split; [lia |]. intros n Hn.
  destruct (H2 n Hn) as (m & Hm & E). destruct (H1 m Hm) as (k & Hk & E').
  exists k. split; [exact Hk | congruence].
Qed.

Lemma descends_rewritten (c : node -> bool) (g : node -> node) (tbl : table) :
  (forall n, core (g n) = core n) ->
  descends tbl (map (fun n => if c n then g n else n) tbl).
Proof.
  intro Hg. split; [now rewrite length_map |].
  intros n' Hn'. apply in_map_iff in Hn'. destruct Hn' as (n & <- & Hn).
  exists n. split; [exact Hn |]. destruct (c n); auto.
Qed.

(** X17. A cycle of health checks, whether it completes or is cut short by
    an exception, adds no record, and every record left after it is one of
    the table before with the same id, token, domain, first_seen,
    description and country: the checker writes none of these columns. *)
Theorem runHealthChecks_keeps_core (net : network) (clock : nat -> Z) (s : sys) :
  let s' := snd (runHealthChecks net clock s) in
  (List.length (db s') <= List.length (db s))%nat
  /\ forall n', In n' (db s') -> exists n, In n (db s) /\ core n' = core n.
Proof.
  apply (respects_runHealthChecks descends descends_refl descends_trans).
  - intros now a1 a2 a3 a4 a5 a6 a7 i tbl tbl' E.
    unfold update_online in E. destruct (forallb _ _); [| discriminate].
    injection E as <-.
    now apply (descends_rewritten (fun n => (id n =? i)%string)).
  - intros now i tbl. unfold update_offline.
    now apply (descends_rewritten (fun n => (id n =? i)%string)).
  - intros i tbl. unfold delete_by_id. split; [apply filter_length_le |].
    intros n Hn. apply filter_In in Hn. exists n. tauto.
Qed.

(** What the UPDATE of a reachable node makes of a row, for the info the
    node reports. *)
Definition refreshed (now : Z) (info : value) (old new : node) : Prop :=
  core new = core old
  /\ is_online new = 1 /\ down_since new = None
  /\ last_seen new = datetime now /\ last_healthy new = datetime now
  /\ name new = first_truthy [info ?. "name"] (name old)
  /\ version new = first_truthy [info ?. "version"] (version old)
  /\ p2p_node_id new = first_truthy [info ?. "p2p_node_id"] (p2p_node_id old)
  /\ track_count new = first_present [info ?. "track_count"] (track_count old)
  /\ user_count new = first_present [info ?. "user_count"] (user_count old)
  /\ open_registration new
     = first_present [info ?. "open_registration"] (open_registration old)
  /\ p2p_enabled new
     = (if nullish (info ?. "p2p_enabled") then p2p_enabled old
        else flag (truthy (info ?. "p2p_enabled"))).

Lemma sql_coalesce_truthy a col :
  sql_coalesce (a ||' VNull) col = first_truthy [a] col.
Proof.
  unfold or_else, sql_coalesce. simpl.
  destruct (truthy a) eqn:E; [now destruct a | reflexivity].
Qed.

Lemma sql_coalesce_present a col :
  sql_coalesce (a ?? VNull) col = first_present [a] col.
Proof. unfold coalesce, sql_coalesce. simpl. now destruct a. Qed.

(** The keys of a node's info that the UPDATE of the cycle binds as they
    are. *)
Definition refresh_keys : list string :=
  ["track_count"; "user_count"; "version"; "p2p_node_id"; "name";
   "open_registration"].

Lemma refresh_accepted now info node tbl :
  (forall k, In k refresh_keys -> bindable (info ?. k) = true) ->
  exists t, refresh now info node tbl = Ret t.
Proof.
  intro Hinfo. unfold refresh, update_online.
  replace (forallb bindable _) with true; [eexists; reflexivity |].
  symmetry. cbv [forallb].
  repeat (apply andb_true_intro; split);
    repeat first
      [ reflexivity
      | apply bindable_or_else
      | apply bindable_coalesce
      | (apply Hinfo; simpl; auto 10) ].
  destruct (negb _); reflexivity.
Qed.

Lemma typed_info_refreshable info :
  typed_info info -> forall k, In k refresh_keys -> bindable (info ?. k) = true.
Proof.
  intros H k Hk. apply (typed_info_bindable _ H).
  unfold refresh_keys in Hk. unfold info_keys. simpl in Hk |- *. tauto.
Qed.

(** X18. The step of the cycle for a reachable node whose info has
    metadata of the type of their column (strings for name, version and
    p2p_node_id, numbers for track_count, user_count and open_registration,
    or nothing; [p2p_enabled] may be anything): the step returns; the
    records with its id become online with [down_since] null and both
    timestamps at now; each of name, version, p2p_node_id (when truthy in
    the info), track_count, user_count, open_registration and p2p_enabled
    (when not null in the info) takes the info's value, and otherwise keeps
    the stored one; the other records are untouched. With no info at all,
    no metadata changes. *)
Theorem checkOne_refreshes (net : network) (now : Z) (node : Db.node) (s : sys) :
  fst (checkNodeHealth net (domain node) s) = Ret true ->
  typed_info (info_of net (domain node)) ->
  exists s',
    checkOne net now node s = (Ret tt, s')
    /\ Forall2
         (fun old new =>
            if (id old =? id node)%string
            then refreshed now (info_of net (domain node)) old new
            else new = old)
         (db s) (db s').
Proof.
  intros Hprobe Htyped. rewrite checkNodeHealth_run in Hprobe.
  injection Hprobe as Hprobe.
  rewrite (checkOne_reachable _ _ _ _ Hprobe).
  set (info := info_of net (domain node)) in *.
  destruct (refresh_accepted now info node (db s)
              (typed_info_refreshable _ Htyped)) as (t & R).
  rewrite R. eexists. split; [reflexivity |]. cbn [db].
  unfold refresh, update_online in R.
  destruct (forallb _ _); [| discriminate]. injection R as <-.
  apply Forall2_map_right. intros old _.
  destruct (id old =? id node)%string; [| reflexivity].
  unfold refreshed. cbn [core id token domain first_seen description country
                         is_online down_since last_seen last_healthy name
                         version p2p_node_id track_count user_count
                         open_registration p2p_enabled].
  rewrite !sql_coalesce_truthy, !sql_coalesce_present.
  repeat (split; [reflexivity |]).
  unfold opt_prop. destruct (nullish info) eqn:Hn; [reflexivity |].
  cbn [negb]. destruct (nullish (prop info "p2p_enabled")) eqn:Hp.
  - cbn [negb]. unfold sql_coalesce. reflexivity.
  - reflexivity.
Qed.

Lemma checkOne_refreshes_witness :
  fst (checkNodeHealth Scenario.net (domain Scenario.row_a) Scenario.registered)
  = Ret true
  /\ exists s',
       checkOne Scenario.net 1700000600000 Scenario.row_a Scenario.registered
       = (Ret tt, s')
       /\ Forall2
            (fun old new =>
               if (id old =? id Scenario.row_a)%string
               then refreshed 1700000600000
                      (info_of Scenario.net (domain Scenario.row_a)) old new
               else new = old)
            (db Scenario.registered) (db s').
Proof.
  split; [reflexivity |].
  exact (checkOne_refreshes Scenario.net 1700000600000 Scenario.row_a
           Scenario.registered eq_refl typed_info_a).
Defined.

Lemma checkFrom_completes net clock :
  forall nodes i s,
    (forall n, In n nodes -> health_of net (domain n) = true ->
       forall k, In k refresh_keys ->
                 bindable (info_of net (domain n) ?. k) = true) ->
    fst (checkFrom net clock i nodes s) = Ret tt.
Proof.
  induction nodes as [| n rest IH]; intros i s Hall; [reflexivity |].
  cbn [checkFrom]. unfold bind.
  destruct (health_of net (domain n)) eqn:H.
  - rewrite (checkOne_reachable _ _ _ _ H).
    destruct (refresh_accepted (clock i) (info_of net (domain n)) n (db s)
                (Hall n (or_introl eq_refl) H)) as (t & ->).
    apply IH. intros m Hm. apply Hall. now right.
  - rewrite (checkOne_unreachable _ _ _ _ H).
    apply IH. intros m Hm. apply Hall. now right.
Qed.

(** X19. A cycle of health checks completes, without an exception, whenever
    the info of every reachable node of the table has only numbers, strings
    or nulls under the keys the cycle stores. *)
Theorem runHealthChecks_completes (net : network) (clock : nat -> Z) (s : sys) :
  (forall n, In n (db s) -> health_of net (domain n) = true ->
     forall k, In k refresh_keys ->
               bindable (info_of net (domain n) ?. k) = true) ->
  fst (runHealthChecks net clock s) = Ret tt.
Proof.
  intro Hall. rewrite runHealthChecks_run. now apply checkFrom_completes.
Qed.

Lemma runHealthChecks_completes_witness :
  (forall n, In n (db Scenario.registered) ->
     health_of Scenario.net (domain n) = true ->
     forall k, In k refresh_keys ->
               bindable (info_of Scenario.net (domain n) ?. k) = true)
  /\ fst (runHealthChecks Scenario.net Outage.later Scenario.registered) = Ret tt.
Proof.
  assert (H : forall n, In n (db Scenario.registered) ->
                health_of Scenario.net (domain n) = true ->
                forall k, In k refresh_keys ->
                          bindable (info_of Scenario.net (domain n) ?. k) = true).
  { intros n [<- | []] _ k Hk. simpl in Hk.
    repeat (destruct Hk as [<- | Hk]; [reflexivity |]). destruct Hk. }
  split; [exact H |].
  exact (runHealthChecks_completes Scenario.net Outage.later Scenario.registered H).
Defined.

(** A row marked offline at [now]. *)
Definition marked_offline (now : Z) (n : node) : node :=
  {| id := id n; domain := domain n; name := name n;
     description := description n; version := version n;
     track_count := track_count n; user_count := user_count n;
     open_registration := open_registration n;
     p2p_enabled := p2p_enabled n; p2p_node_id := p2p_node_id n;
     country := country n; token := token n;
     first_seen := first_seen n; last_seen := last_seen n;
     last_healthy := last_healthy n;
     is_online := 0;
     down_since := Some (datetime now) |}.

(** The rows of [l], the first marked at [clock i], the next at
    [clock (i + 1)], and so on. *)
Fixpoint marked_from (clock : nat -> Z) (i : nat) (l : list node) : list node :=
  match l with
  | [] => []
  | n :: rest => marked_offline (clock i) n :: marked_from clock (S i) rest
  end.

Lemma update_offline_one now (pre : list node) n rest :
  (forall m, In m pre -> id m <> id n) ->
  (forall m, In m rest -> id m <> id n) ->
  update_offline now (id n) (List.app pre (n :: rest))
  = List.app pre (marked_offline now n :: rest).
Proof.
  intros Hpre Hrest. unfold update_offline. rewrite map_app. cbn [map].
  rewrite String.eqb_refl. f_equal; [| f_equal].
  - rewrite <- (map_id pre) at 2. apply map_ext_in. intros m Hm.
    specialize (Hpre m Hm). apply String.eqb_neq in Hpre. now rewrite Hpre.
  - rewrite <- (map_id rest) at 2. apply map_ext_in. intros m Hm.
    specialize (Hrest m Hm). apply String.eqb_neq in Hrest. now rewrite Hrest.
Qed.

Lemma checkFrom_all_go_down net clock :
  forall nodes i (pre : list node) s,
    db s = List.app pre nodes ->
    NoDup (map id (List.app pre nodes)) ->
    (forall n, In n nodes ->
       health_of net (domain n) = false /\ is_online n <> 0 /\ down_since n = None) ->
    exists s',
      checkFrom net clock i nodes s = (Ret tt, s')
      /\ db s' = List.app pre (marked_from clock i nodes).
Proof.
  induction nodes as [| n rest IH]; intros i pre s Hdb Hids Hall.
  - exists s. split; [reflexivity | exact Hdb].
  - destruct (Hall n (or_introl eq_refl)) as (Hh & Hon & Hds).
    destruct (NoDup_ids_split _ _ _ Hids) as [Hpre Hrest].
    cbn [checkFrom]. unfold bind. rewrite (checkOne_unreachable _ _ _ _ Hh).
    unfold after_failed_probe. rewrite Hds.
    apply Z.eqb_neq in Hon. rewrite Hon. cbn [negb].
    rewrite Hdb, update_offline_one
      by (intros m Hm E; first [apply (Hpre m Hm) | apply (Hrest m Hm)];
          now symmetry).
    destruct (IH (S i) (List.app pre [marked_offline (clock i) n])
                {| db := List.app pre (marked_offline (clock i) n :: rest);
                   requests := List.app (requests s)
                                 (health_urls net (domain n)) |})
      as (s' & Hrun & Hs').
    + cbn [db]. now rewrite <- app_assoc.
    + rewrite <- app_assoc. cbn [List.app].
      rewrite map_app in *. exact Hids.
    + intros m Hm. apply Hall. now right.
    + exists s'. split; [exact Hrun |].
      rewrite Hs', <- app_assoc. reflexivity.
Qed.

(** X20. A cycle in which no node answers, on a table with distinct ids
    whose records are all online (with [down_since] null): the cycle
    completes, deletes nothing, and leaves every record as it was except
    that it is offline, with [down_since] at the second at which it was
    handled. *)
Theorem runHealthChecks_all_go_down (net : network) (clock : nat -> Z) (s : sys) :
  NoDup (map id (db s)) ->
  (forall n, In n (db s) ->
     fst (checkNodeHealth net (domain n) s) = Ret false
     /\ is_online n <> 0 /\ down_since n = None) ->
  exists s',
    runHealthChecks net clock s = (Ret tt, s')
    /\ db s' = marked_from clock 0 (db s).
Proof.
  intros Hids Hall. rewrite runHealthChecks_run.
  apply (checkFrom_all_go_down net clock (db s) 0%nat [] s eq_refl Hids).
  intros n Hn. destruct (Hall n Hn) as (Hp & Hon & Hds).
  rewrite checkNodeHealth_run in Hp. injection Hp as Hp. auto.
Qed.

Lemma runHealthChecks_all_go_down_witness :
  exists s',
    runHealthChecks Outage.dead Outage.later Outage.two = (Ret tt, s')
    /\ db s' = marked_from Outage.later 0 (db Outage.two).
Proof.
  apply (runHealthChecks_all_go_down Outage.dead Outage.later Outage.two).
  - simpl. constructor; [intros [E | []]; discriminate E |].
    constructor; [intros [] | constructor].
  - intros n [<- | [<- | []]]; (split; [reflexivity | split; [discriminate | reflexivity]]).
Defined.

Lemma checkFrom_all_stay_down net clock :
  forall nodes i s,
    (forall n, In n nodes ->
       health_of net (domain n) = false /\ is_online n = 0
       /\ forall down, down_since n = Some down ->
            forall k, clock k - down * 1000 < 48 * 60 * 60 * 1000) ->
    exists s',
      checkFrom net clock i nodes s = (Ret tt, s') /\ db s' = db s.
Proof.
  induction nodes as [| n rest IH]; intros i s Hall.
  - exists s. split; reflexivity.
  - destruct (Hall n (or_introl eq_refl)) as (Hh & Hoff & Hrecent).
    cbn [checkFrom]. unfold bind. rewrite (checkOne_unreachable _ _ _ _ Hh).
    assert (E : after_failed_probe (clock i) n (db s) = db s).
    { unfold after_failed_probe. rewrite Hoff. cbn [Z.eqb negb].
      destruct (down_since n) as [down |]; [| reflexivity].
      destruct (Qle_bool _ _) eqn:Q; [| reflexivity].
      apply threshold_ms in Q. specialize (Hrecent down eq_refl i). lia. }
    rewrite E.
    destruct (IH (S i) {| db := db s;
                          requests := List.app (requests s)
                                        (health_urls net (domain n)) |})
      as (s' & Hrun & Hs').
    + intros m Hm. apply Hall. now right.
    + exists s'. split; [exact Hrun | exact Hs'].
Qed.

(** X21. While no node answers, [down_since] is not moved: a cycle on a
    table whose records are all offline already, each for less than 48
    hours at any instant of the cycle, completes and leaves the table
    exactly as it was. So the 48 hours run from the first failed check. *)
Theorem runHealthChecks_all_stay_down (net : network) (clock : nat -> Z) (s : sys) :
  (forall n, In n (db s) ->
     fst (checkNodeHealth net (domain n) s) = Ret false
     /\ is_online n = 0
     /\ forall down, down_since n = Some down ->
          forall k, clock k - down * 1000 < 48 * 60 * 60 * 1000) ->
  exists s',
    runHealthChecks net clock s = (Ret tt, s') /\ db s' = db s.
Proof.
  intro Hall. rewrite runHealthChecks_run.
  apply checkFrom_all_stay_down.
  intros n Hn. destruct (Hall n Hn) as (Hp & Hoff & Hrecent).
  rewrite checkNodeHealth_run in Hp. injection Hp as Hp. auto.
Qed.

Lemma runHealthChecks_all_stay_down_witness :
  exists s',
    runHealthChecks Outage.dead Outage.later Outage.table_down = (Ret tt, s')
    /\ db s' = db Outage.table_down.
Proof.
  apply (runHealthChecks_all_stay_down Outage.dead Outage.later Outage.table_down).
  intros n [<- | []]. split; [reflexivity |]. split; [reflexivity |].
  intros down [= <-] k. unfold Outage.later. lia.
Defined.

(* ================================================================== *)
(** ** The page (public/app.js) *)
(* ================================================================== *)

Module Frontend.

(** [s.replace(/c/g, r)] for a pattern that is the one character [c] *)
Fixpoint replace_all (c : ascii) (r : string) (s : string) : string :=
  match s with
  | EmptyString => EmptyString
  | String x rest =>
      if (x =? c)%char then r ++ replace_all c r rest
      else String x (replace_all c r rest)
  end.

(** The double quote. *)
Definition dquote : ascii := "034"%char.

(** [escapeHtml(str)]; a truthy value that is not a string has no
    [replace] method. *)
Definition escapeHtml (str : value) : result string :=
  if negb (truthy str) then Ret ""
  else match str with
       | VStr s =>
           Ret (replace_all dquote "&quot;"
                  (replace_all ">" "&gt;"
                     (replace_all "<" "&lt;"
                        (replace_all "&" "&amp;" s))))
       | _ => Throw TypeError
       end.

(** The [proto] of [renderNode]: the scheme of the link to a node. *)
Definition proto (domain : string) : string :=
  if includes domain "localhost" || includes domain "127.0.0.1"
  then "http" else "https".

End Frontend.
Import Frontend.

(** [c] occurs in [s]. *)
Fixpoint occurs (c : ascii) (s : string) : bool :=
  match s with
  | EmptyString => false
  | String x rest => (x =? c)%char || occurs c rest
  end.

Lemma occurs_append c a b : occurs c (a ++ b) = occurs c a || occurs c b.
Proof.
  induction a as [| x a IH]; simpl; [reflexivity |].
  now rewrite IH, orb_assoc.
Qed.

Lemma replace_all_removes c r s :
  occurs c r = false -> occurs c (replace_all c r s) = false.
Proof.
  intro Hr. induction s as [| x s IH]; simpl; [reflexivity |].
  destruct (x =? c)%char eqn:E.
  - now rewrite occurs_append, Hr, IH.
  - simpl. now rewrite E, IH.
Qed.

Lemma replace_all_adds_none c d r s :
  occurs c s = false -> occurs c r = false ->
  occurs c (replace_all d r s) = false.
Proof.
  intros Hs Hr. induction s as [| x s IH]; simpl; [reflexivity |].
  simpl in Hs. apply orb_false_elim in Hs. destruct Hs as [Hx Hs].
  destruct (x =? d)%char.
  - now rewrite occurs_append, Hr, IH.
  - simpl. now rewrite Hx, IH.
Qed.

Lemma replace_all_absent c r s : occurs c s = false -> replace_all c r s = s.
Proof.
  induction s as [| x s IH]; simpl; [reflexivity |].
  intro H. apply orb_false_elim in H. destruct H as [Hx Hs].
  now rewrite Hx, IH.
Qed.

(** X22. What [escapeHtml] returns for a string contains no [<], no [>] and
    no double quote, so it can neither open a tag nor close a double-quoted
    attribute; a string without [&], [<], [>] and double quote is returned
    as it is. It returns the empty string for every falsy value, and throws
    only for a truthy value that is not a string. *)
Theorem escapeHtml_safe (str : value) :
  match escapeHtml str with
  | Ret out =>
      occurs "<" out = false /\ occurs ">" out = false
      /\ occurs dquote out = false
      /\ (forall s, str = VStr s ->
            occurs "&" s = false -> occurs "<" s = false ->
            occurs ">" s = false -> occurs dquote s = false -> out = s)
      /\ (truthy str = false -> out = "")
  | Throw _ => truthy str = true /\ forall s, str <> VStr s
  end.
Proof.
  unfold escapeHtml. destruct (truthy str) eqn:T; cbn [negb].
  2: { repeat split; try reflexivity. intros s -> Ha Hl Hg Hq.
       destruct s; [reflexivity | discriminate T]. }
  destruct str as [| | b | n | s | items | fields];
    try (split; [reflexivity | intros s E; discriminate E]).
  split; [| split; [| split; [| split]]].
  - apply replace_all_adds_none; [| reflexivity].
    apply replace_all_adds_none; [| reflexivity].
    now apply replace_all_removes.
  - apply replace_all_adds_none; [| reflexivity].
    now apply replace_all_removes.
  - now apply replace_all_removes.
  - intros s' [= <-] Ha Hl Hg Hq.
    now rewrite (replace_all_absent "&" _ _ Ha), (replace_all_absent "<" _ _ Hl),
      (replace_all_absent ">" _ _ Hg), (replace_all_absent dquote _ _ Hq).
  - discriminate.
Qed.

Example escapeHtml_tag :
  escapeHtml (VStr "<b>Tom & Jerry</b>")
  = Ret "&lt;b&gt;Tom &amp; Jerry&lt;/b&gt;".
Proof. reflexivity. Qed.

Lemma prefix_index p s : String.prefix p s = true -> String.index 0 p s = Some 0%nat.
Proof.
  intro H. destruct s as [| c rest]; cbn [String.index].
  - destruct p; [reflexivity | discriminate H].
  - now rewrite H.
Qed.

(** X23. The page and the server agree on plain HTTP: every domain that the
    probes of the server contact over HTTP only is linked over http by the
    page. *)
Theorem proto_agrees_with_probes (domain : string) :
  protocols domain = ["http"] -> proto domain = "http".
Proof.
  unfold protocols, proto, startsWith, includes.
  destruct (String.prefix "localhost" domain) eqn:P.
  - now rewrite (prefix_index _ _ P).
  - cbn [orb]. destruct (String.index 0 "127.0.0.1" domain).
    + now rewrite orb_true_r.
    + discriminate.
Qed.

Lemma proto_agrees_with_probes_witness :
  protocols "localhost:3333" = ["http"] /\ proto "localhost:3333" = "http".
Proof.
  split; [reflexivity |].
  exact (proto_agrees_with_probes "localhost:3333" eq_refl).
Defined.

(* ================================================================== *)
(** ** More on what an announce leaves alone *)
(* ================================================================== *)

(** X24. A domain that has a record cannot be registered again: an announce
    without token for it, however the domain is spelled, is answered 409
    without any request to the node, and the state is unchanged. *)
Theorem registered_domain_is_kept (w : env) (req : value) (d : string) (s : sys) :
  prop req "domain" = VStr d -> d <> "" ->
  truthy (prop req "token") = false ->
  (exists n, In n (db s) /\ domain n = cleanDomain d) ->
  announce w req s = (Ret reply_conflict, s).
Proof.
  intros Hd Hne Htok (n & Hn & En).
  rewrite (announce_valid _ _ _ _ Hd Hne), Htok.
  unfold try_catch, register.
  rewrite (bind_run _ _ _ _ _ (query_run _ _)).
  destruct (select_by_domain (cleanDomain d) (db s)) as [m |] eqn:F;
    [reflexivity |].
  exfalso. unfold select_by_domain in F.
  pose proof (find_none _ _ F n Hn) as Hf. simpl in Hf.
  now rewrite En, String.eqb_refl in Hf.
Qed.

Lemma registered_domain_is_kept_witness :
  announce Scenario.world (VObj [("domain", VStr "http://a.example/")])
    Scenario.registered
  = (Ret reply_conflict, Scenario.registered).
Proof.
  apply (registered_domain_is_kept Scenario.world
           (VObj [("domain", VStr "http://a.example/")]) "http://a.example/"
           Scenario.registered eq_refl ltac:(discriminate) eq_refl).
  exists Scenario.row_a. split; [now left | reflexivity].
Defined.

(** After [t], the table [t'] has the same records in the same places, as
    far as their identity goes, and possibly new ones at the end. *)
Definition extends (t t' : table) : Prop :=
  exists extra, map identity t' = List.app (map identity t) (map identity extra).

Lemma extends_refl t : extends t t.
Proof. exists []. simpl. now rewrite app_nil_r. Qed.

Lemma extends_trans a b c : extends a b -> extends b c -> extends a c.
Proof.
  intros [x Hx] [y Hy]. exists (List.app x y).
  now rewrite Hy, Hx, map_app, app_assoc.
Qed.

(** X25. An announce, whatever it is sent and whatever it answers, never
    removes a record and never changes the id, token, domain or first_seen
    of one: the records of before are all there afterwards, in their
    places, followed by what was registered. *)
Theorem announce_keeps_records (w : env) (req : value) (s : sys) :
  exists extra,
    map identity (db (snd (announce w req s)))
    = List.app (map identity (db s)) (map identity extra).
Proof.
  apply (respects_announce extends extends_refl extends_trans).
  - intros now a1 a2 a3 a4 a5 a6 a7 a8 t tbl tbl' E. exists [].
    rewrite (update_heartbeat_identity _ _ _ _ _ _ _ _ _ _ _ _ E).
    simpl. now rewrite app_nil_r.
  - intros now i d a1 a2 a3 a4 a5 a6 a7 a8 t tbl tbl' E.
    unfold insert_node in E. destruct (forallb _ _); [| discriminate].
    destruct (existsb _ tbl); [discriminate |]. injection E as <-.
    eexists [_]. now rewrite map_app.
Qed.
